(** * Cassandra Ansible modules: keyspace, table and connection probe

    A shallow embedding of the three Ansible modules under [library/]
    ([cassandra_connection.py], [cassandra_table.py],
    [cassandra_keyspace.py]) and the properties their specification
    states about them.

    The modules are Python scripts that shell out to [cqlsh] through
    [subprocess.Popen] and report through [AnsibleModule.exit_json] and
    [AnsibleModule.fail_json].  The embedding keeps that shape:

    - the cluster behind [cqlsh] is an abstract state machine ([store],
      [popen]); every [Popen(...).communicate()] is one step of it and is
      recorded in the world's call log;
    - Python exceptions, [exit_json]/[fail_json] (which leave the
      interpreter through [SystemExit]) and normal returns are the three
      outcomes of a computation, threaded by a small state-and-error monad;
    - exception objects carry an identity, because the probe stores them in
      a Python [set], which compares objects it knows nothing about by
      identity;
    - strings are sequences of code points below 256. *)

From Stdlib Require Import List String Ascii ZArith Bool Lia DecimalString.
From Stdlib Require Import DecimalPos DecimalZ SpecFloat.
Import ListNotations.
Open Scope string_scope.

(* ================================================================== *)
(** * Python strings *)
(* ================================================================== *)

Module PyString.

(** [str(n)] for a Python [int]. *)
Definition str_of_int (n : Z) : string :=
  NilEmpty.string_of_int (Z.to_int n).

(** [str.isspace] on one code point below 256: the characters
    [str.split()] and [int()] treat as white space. *)
Definition is_space (c : ascii) : bool :=
  let n := nat_of_ascii c in
  ((9 <=? n) && (n <=? 13) || (28 <=? n) && (n <=? 32)
   || (n =? 133) || (n =? 160))%nat.

(** The white space [int()] drops around the text of a [bytes] value: the
    C locale's [isspace]. *)
Definition is_c_space (c : ascii) : bool :=
  let n := nat_of_ascii c in
  ((9 <=? n) && (n <=? 13) || (n =? 32))%nat.

(** The white space [int()] drops around the text of a [str]: the C
    locale's, and the white space above code point 127, which it first
    turns into blanks.  Code points 28 to 31 are not among them. *)
Definition is_int_space (c : ascii) : bool :=
  let n := nat_of_ascii c in
  (is_c_space c || (n =? 133) || (n =? 160))%nat.

Definition flush (tok : string) (rest : list string) : list string :=
  match tok with
  | EmptyString => rest
  | _ => tok :: rest
  end.

(** [s.split()]: maximal runs of characters that are not white space.
    [tok] is the run being read. *)
Fixpoint split_from (tok s : string) : list string :=
  match s with
  | EmptyString => flush tok []
  | String c s' =>
      if is_space c then flush tok (split_from EmptyString s')
      else split_from (tok ++ String c EmptyString) s'
  end.

Definition split (s : string) : list string := split_from EmptyString s.

(** [sep.join(parts)]. *)
Fixpoint join (sep : string) (parts : list string) : string :=
  match parts with
  | [] => EmptyString
  | [p] => p
  | p :: ps => p ++ sep ++ join sep ps
  end.

(** [x in xs] for a list of strings. *)
Definition mem (x : string) (xs : list string) : bool :=
  existsb (String.eqb x) xs.

Fixpoint contains_char (c : ascii) (s : string) : bool :=
  match s with
  | EmptyString => false
  | String d s' => Ascii.eqb c d || contains_char c s'
  end.

Fixpoint rev_string (acc s : string) : string :=
  match s with
  | EmptyString => acc
  | String c s' => rev_string (String c acc) s'
  end.

(** [s.endswith(suffix)]. *)
Definition endswith (s suffix : string) : bool :=
  prefix (rev_string EmptyString suffix) (rev_string EmptyString s).

Definition squote : ascii := "'"%char.
Definition dquote : ascii := ascii_of_nat 34.
Definition backslash : ascii := ascii_of_nat 92.
Definition newline : ascii := ascii_of_nat 10.

Definition hex_digit (n : nat) : ascii :=
  if (n <? 10)%nat then ascii_of_nat (48 + n) else ascii_of_nat (87 + n).

Definition hex_escape (n : nat) : string :=
  String backslash
    (String "x" (String (hex_digit (n / 16)) (String (hex_digit (n mod 16)) ""))).

(** One character of [repr(s)], with [q] the quote [repr] chose. *)
Definition repr_char (q c : ascii) : string :=
  let n := nat_of_ascii c in
  if Ascii.eqb c backslash then String backslash (String backslash "")
  else if Ascii.eqb c q then String backslash (String q "")
  else if (n =? 10)%nat then String backslash "n"
  else if (n =? 13)%nat then String backslash "r"
  else if (n =? 9)%nat then String backslash "t"
  else if ((n <? 32) || (n =? 127))%nat then hex_escape n
  else if ((128 <=? n) && (n <=? 160) || (n =? 173))%nat then hex_escape n
  else String c "".

Fixpoint repr_body (q : ascii) (s : string) : string :=
  match s with
  | EmptyString => EmptyString
  | String c s' => repr_char q c ++ repr_body q s'
  end.

(** [repr(s)] for a [str]: single quotes, unless the string holds a single
    quote and no double quote. *)
Definition repr (s : string) : string :=
  let q := if contains_char squote s && negb (contains_char dquote s)
           then dquote else squote in
  String q (repr_body q s ++ String q "").

(** One byte of [repr(b)] for a [bytes] value. *)
Definition repr_byte (q c : ascii) : string :=
  let n := nat_of_ascii c in
  if Ascii.eqb c backslash then String backslash (String backslash "")
  else if Ascii.eqb c q then String backslash (String q "")
  else if (n =? 10)%nat then String backslash "n"
  else if (n =? 13)%nat then String backslash "r"
  else if (n =? 9)%nat then String backslash "t"
  else if ((n <? 32) || (127 <=? n))%nat then hex_escape n
  else String c "".

Fixpoint repr_bytes_body (q : ascii) (s : string) : string :=
  match s with
  | EmptyString => EmptyString
  | String c s' => repr_byte q c ++ repr_bytes_body q s'
  end.

(** [repr(b)] for a [bytes] value. *)
Definition repr_bytes (s : string) : string :=
  let q := if contains_char squote s && negb (contains_char dquote s)
           then dquote else squote in
  String "b" (String q (repr_bytes_body q s ++ String q "")).

End PyString.

(* ================================================================== *)
(** * Python values, exceptions and the module runtime *)
(* ================================================================== *)

Inductive exc_class : Type :=
  | Exception | TypeError | NameError | KeyError | AttributeError
  | ValueError | SyntaxError | OverflowError.

(** An exception instance.  [exc_id] is the object's identity: two
    instances built by two [raise] statements are different objects even
    when they carry the same message. *)
Record exc : Type := mkExc {
  exc_id : nat;
  exc_type : exc_class;
  exc_msg : string                 (* what str(e) gives *)
}.

#[local] Set Warnings "-register-all".

Inductive pyval : Type :=
  | PyNone
  | PyBool (b : bool)
  | PyInt (n : Z)
  | PyStr (s : string)
  | PyList (l : list pyval)
  | PySet (l : list pyval)
  | PyDict (items : list (pyval * pyval))
  | PyExc (e : exc)
  | PyFloat (f : spec_float)
  | PyComplex (re im : spec_float)
  | PyBytes (s : string)
  | PyTuple (l : list pyval)
  | PyEllipsis.

(** What [AnsibleModule] reports when the module leaves through
    [exit_json(changed=...)] or [fail_json(msg=...)]. *)
Inductive module_exit : Type :=
  | ExitJson (changed : bool)
  | FailJson (msg : pyval).

(** How a piece of Python code ends: it returns, an exception propagates
    out of it, or [SystemExit] is on its way out of the interpreter. *)
Inductive outcome (A : Type) : Type :=
  | Ret (a : A)
  | Raise (e : exc)
  | Exit (r : module_exit).
Arguments Ret {A} a.
Arguments Raise {A} e.
Arguments Exit {A} r.

(** [process.returncode] and the pair [process.communicate()] returns. *)
Record completed : Type := mkCompleted {
  returncode : Z;
  stdout : string;
  stderr : string
}.

Record World (store : Type) : Type := mkWorld {
  w_store : store;                 (* the cluster behind cqlsh *)
  w_calls : list (list string);    (* argv of every Popen so far *)
  w_sleeps : list Z;               (* argument of every time.sleep so far *)
  w_printed : list string;         (* what print() wrote *)
  w_next_id : nat                  (* identity of the next new object *)
}.
Arguments mkWorld {store}.
Arguments w_store {store}.
Arguments w_calls {store}.
Arguments w_sleeps {store}.
Arguments w_printed {store}.
Arguments w_next_id {store}.

Definition initial_world {store : Type} (s : store) : World store :=
  mkWorld s [] [] [] 0.

Definition M (store A : Type) : Type :=
  World store -> World store * outcome A.

Section Runtime.

Context {store : Type}.
Variable popen : store -> list string -> store * completed.

Definition ret {A} (a : A) : M store A := fun w => (w, Ret a).

Definition bind {A B} (m : M store A) (k : A -> M store B) : M store B :=
  fun w =>
    match m w with
    | (w', Ret a) => k a w'
    | (w', Raise e) => (w', Raise e)
    | (w', Exit r) => (w', Exit r)
    end.

(** [raise cls(msg)]: a new exception object. *)
Definition raise {A} (cls : exc_class) (msg : string) : M store A :=
  fun w =>
    (mkWorld (w_store w) (w_calls w) (w_sleeps w) (w_printed w)
             (S (w_next_id w)),
     Raise (mkExc (w_next_id w) cls msg)).

(** [try: body / except Exception as e: handler e / else: orelse].
    The handler sees exceptions of the body only, and [SystemExit] is not
    an [Exception]. *)
Definition try_except_else {A B} (body : M store A)
    (handler : exc -> M store B) (orelse : A -> M store B) : M store B :=
  fun w =>
    match body w with
    | (w', Ret a) => orelse a w'
    | (w', Raise e) => handler e w'
    | (w', Exit r) => (w', Exit r)
    end.

Definition exit_json {A} (changed : bool) : M store A :=
  fun w => (w, Exit (ExitJson changed)).

Definition fail_json {A} (msg : pyval) : M store A :=
  fun w => (w, Exit (FailJson msg)).

(** [Popen(argv, stdout=PIPE, stderr=PIPE, universal_newlines=True)]
    followed by [communicate()]. *)
Definition Popen (argv : list string) : M store completed :=
  fun w =>
    let (s', r) := popen (w_store w) argv in
    (mkWorld s' (w_calls w ++ [argv]) (w_sleeps w) (w_printed w)
             (w_next_id w),
     Ret r).

Definition sleep (seconds : Z) : M store unit :=
  fun w =>
    (mkWorld (w_store w) (w_calls w) (w_sleeps w ++ [seconds])
             (w_printed w) (w_next_id w),
     Ret tt).

Definition print (line : string) : M store unit :=
  fun w =>
    (mkWorld (w_store w) (w_calls w) (w_sleeps w)
             (w_printed w ++ [line]) (w_next_id w),
     Ret tt).

End Runtime.

Declare Scope py_scope.
Delimit Scope py_scope with py.
Notation "x <- m ;; k" := (bind m (fun x => k))
  (at level 61, m at next level, right associativity) : py_scope.
Notation "m ;;; k" := (bind m (fun _ => k))
  (at level 61, right associativity) : py_scope.

(** ["Bad returncode: {}; Error: {}".format(returncode, err)] *)
Definition bad_returncode (r : completed) : string :=
  "Bad returncode: " ++ PyString.str_of_int (returncode r)
    ++ "; Error: " ++ stderr r.

(* ================================================================== *)
(** * library/cassandra_connection.py *)
(* ================================================================== *)

Module cassandra_connection.

(** [module.params] after [AnsibleModule] applied the argument spec. *)
Record params : Type := mkParams {
  host : string;
  port : Z;
  cql_version : string;
  retries : Z
}.

(** [errors_set.add(e)] for exception objects: [Exception] defines neither
    [__eq__] nor [__hash__], so the set tells its members apart by
    identity.  The list keeps them in the order they were added; Python
    fixes no iteration order. *)
Definition set_add (e : exc) (s : list exc) : list exc :=
  if existsb (fun x => Nat.eqb (exc_id x) (exc_id e)) s then s else (s ++ [e])%list.

Section Code.

Context {store : Type}.
Variable popen : store -> list string -> store * completed.

Local Open Scope py_scope.

Definition probe_argv (host : string) (port : Z) (cql_version : string)
  : list string :=
  ["sudo"; "cqlsh"; host; PyString.str_of_int port; "--cqlversion";
   cql_version; "-e"; "SELECT now() FROM system.local;"].

Definition attempt_connection (host : string) (port : Z)
    (cql_version : string) : M store unit :=
  process <- Popen popen (probe_argv host port cql_version) ;;
  if negb (returncode process =? 0)%Z
  then raise Exception (stderr process)
  else ret tt.

(** The [while count < retries: ... else: ...] statement of [main].
    [fuel] bounds the number of times the body runs; the loop test comes
    first, so a loop that is over needs no fuel. *)
Fixpoint while_loop (fuel : nat) (p : params) (count : Z)
    (errors_set : list exc) (w : World store)
  : option (World store * outcome unit) :=
  if (count <? retries p)%Z then
    match fuel with
    | O => None
    | S fuel' =>
        match attempt_connection (host p) (port p) (cql_version p) w with
        | (w1, Raise current_err) =>
            let errors_set := set_add current_err errors_set in
            match sleep 1 w1 with
            | (w2, _) => while_loop fuel' p (count + 1)%Z errors_set w2
            end
        | (w1, Ret _) => Some (exit_json false w1)
        | (w1, Exit r) => Some (w1, Exit r)
        end
    end
  else Some (fail_json (PyList (map PyExc errors_set)) w).

Definition main (fuel : nat) (p : params) (w : World store)
  : option (World store * outcome unit) :=
  while_loop fuel p 0%Z [] w.

End Code.

End cassandra_connection.

(* ================================================================== *)
(** * library/cassandra_table.py *)
(* ================================================================== *)

Module cassandra_table.

Inductive state_choice : Type := present | absent.

(** One entry of [columns]: a mapping from field names to strings, in
    the order the playbook wrote the fields.  The argument spec asks for a
    list and says nothing of its entries; an entry that is no mapping (a
    number, say) is outside this type: on it [validate_columns] raises
    [TypeError], before any [try]. *)
Definition column : Type := list (string * string).

Record params : Type := mkParams {
  name : string;
  keyspace : string;
  columns : list column;
  primary_keys : list string;
  order_by : option (list string);       (* default None *)
  order_by_direction : string;           (* default "ASC" *)
  host : string;
  port : Z;
  cql_version : string;
  state : state_choice
}.

(** [key in col] *)
Definition dict_has (key : string) (col : column) : bool :=
  existsb (fun kv => String.eqb (fst kv) key) col.

(** [col[key]]; [None] stands for [KeyError(key)]. *)
Fixpoint dict_get (key : string) (col : column) : option string :=
  match col with
  | [] => None
  | (k, v) :: rest => if String.eqb k key then Some v else dict_get key rest
  end.

(** ["{}".format(col)] for a dict of strings. *)
Definition repr_dict (col : column) : string :=
  "{" ++ PyString.join ", "
           (map (fun kv => PyString.repr (fst kv) ++ ": "
                           ++ PyString.repr (snd kv)) col)
      ++ "}".

Definition name_missing (col : column) : string :=
  "'name' missing from current column: " ++ repr_dict col.

Definition type_missing (col : column) : string :=
  "'type' missing from current column: " ++ repr_dict col.

(** The body of the [for col in columns] loop, on the list [errors]. *)
Definition validate_column (errors : list string) (col : column)
  : list string :=
  let errors :=
    if negb (dict_has "name" col) then (errors ++ [name_missing col])%list
    else errors in
  let errors :=
    if negb (dict_has "type" col) then (errors ++ [type_missing col])%list
    else errors in
  errors.

Definition validate_columns (columns : list column) : list string :=
  fold_left validate_column columns [].

(** ["{} {}".format(col["name"], col["type"]) for col in columns], consumed
    by [join]: the first missing key ends it with [KeyError(key)]. *)
Fixpoint render_columns (columns : list column) : list string + string :=
  match columns with
  | [] => inl []
  | col :: rest =>
      match dict_get "name" col with
      | None => inr "name"
      | Some n =>
          match dict_get "type" col with
          | None => inr "type"
          | Some t =>
              match render_columns rest with
              | inl done => inl ((n ++ " " ++ t) :: done)
              | inr key => inr key
              end
          end
      end
  end.

(** [if order_by:] for a value that is [None] or a list. *)
Definition truthy (order_by : option (list string)) : bool :=
  match order_by with
  | None | Some [] => false
  | Some (_ :: _) => true
  end.

Definition create_prefix (table : string) (rendered primary_keys : list string)
  : string :=
  "CREATE TABLE " ++ table ++ "(" ++ PyString.join ", " rendered
    ++ ", PRIMARY KEY (" ++ PyString.join ", " primary_keys ++ "))".

Definition clustering_clause (order_by : list string)
    (order_by_direction : string) : string :=
  "WITH CLUSTERING ORDER BY (" ++ PyString.join ", " order_by ++ " "
    ++ order_by_direction ++ ");".

(** The statement [create_table] builds in [cmd] before it calls [cqlsh];
    [inr key] when building it raises [KeyError(key)]. *)
Definition create_table_cmd (table : string) (columns : list column)
    (primary_keys : list string) (order_by : option (list string))
    (order_by_direction : string) : string + string :=
  match render_columns columns with
  | inr key => inr key
  | inl rendered =>
      let cmd := create_prefix table rendered primary_keys in
      match order_by with
      | Some (c :: cs) =>
          inl (cmd ++ clustering_clause (c :: cs) order_by_direction)
      | _ => inl cmd
      end
  end.

Section Code.

Context {store : Type}.
Variable popen : store -> list string -> store * completed.

Local Open Scope py_scope.

Definition cqlsh_argv (host : string) (port : Z) (cql_version keyspace
    cmd : string) : list string :=
  ["sudo"; "cqlsh"; host; PyString.str_of_int port; "--cqlversion";
   cql_version; "-k"; keyspace; "-e"; cmd].

Definition table_already_exists (keyspace table host : string) (port : Z)
    (cql_version : string) : M store bool :=
  process <- Popen popen
               (cqlsh_argv host port cql_version keyspace "Describe tables;") ;;
  if negb (returncode process =? 0)%Z
  then raise Exception (bad_returncode process)
  else ret (PyString.mem table (PyString.split (stdout process))).

Definition create_table (keyspace table : string) (columns : list column)
    (primary_keys : list string) (order_by : option (list string))
    (order_by_direction host : string) (port : Z) (cql_version : string)
  : M store unit :=
  match create_table_cmd table columns primary_keys order_by
          order_by_direction with
  | inr key => raise KeyError (PyString.repr key)
  | inl cmd =>
      process <- Popen popen (cqlsh_argv host port cql_version keyspace cmd) ;;
      if negb (returncode process =? 0)%Z
      then raise Exception (bad_returncode process)
      else ret tt
  end.

Definition drop_table (keyspace table host : string) (port : Z)
    (cql_version : string) : M store unit :=
  let cmd := "DROP TABLE " ++ table ++ ";" in
  process <- Popen popen (cqlsh_argv host port cql_version keyspace cmd) ;;
  if negb (returncode process =? 0)%Z
  then raise Exception (bad_returncode process)
  else ret tt.

Definition main (p : params) : M store unit :=
  let table := name p in
  let column_errors := validate_columns (columns p) in
  (if (0 <? List.length column_errors)%nat
   then fail_json (PyList (map PyStr column_errors))
   else ret tt) ;;;
  exists_ <- try_except_else
               (table_already_exists (keyspace p) table (host p) (port p)
                  (cql_version p))
               (fun err => fail_json (PyExc err))
               ret ;;
  match state p with
  | present =>
      if exists_ then exit_json false
      else
        try_except_else
          (create_table (keyspace p) table (columns p) (primary_keys p)
             (order_by p) (order_by_direction p) (host p) (port p)
             (cql_version p))
          (fun err => fail_json (PyStr ("Error creating table: " ++ exc_msg err)))
          (fun _ => exit_json true)
  | absent =>
      if exists_ then
        try_except_else
          (drop_table (keyspace p) table (host p) (port p) (cql_version p))
          (fun err => fail_json (PyStr ("Error deleting table: " ++ exc_msg err)))
          (fun _ => exit_json true)
      else exit_json false
  end.

End Code.

End cassandra_table.

(* ================================================================== *)
(** * library/cassandra_keyspace.py *)
(* ================================================================== *)

Module cassandra_keyspace.

Inductive state_choice : Type := present | absent.

Record params : Type := mkParams {
  name : string;
  host : string;
  port : Z;
  cql_version : string;
  replication_factor : Z;
  state : state_choice
}.

(** [CREATE_CMD.format(keyspace, replication_factor)] *)
Definition CREATE_CMD (keyspace : string) (replication_factor : Z) : string :=
  "CREATE KEYSPACE " ++ keyspace
    ++ " WITH replication = {'class':'SimpleStrategy', 'replication_factor' : "
    ++ PyString.str_of_int replication_factor ++ "};".

(** [ALTER_CMD.format(keyspace, replication_factor)] *)
Definition ALTER_CMD (keyspace : string) (replication_factor : Z) : string :=
  "ALTER KEYSPACE " ++ keyspace
    ++ " WITH REPLICATION = {'class': 'SimpleStrategy', 'replication_factor': "
    ++ PyString.str_of_int replication_factor ++ "};".

(** ** [re.search("{(.*?)}", out)] *)

(** The pattern after its opening brace, [(.*?)}], matched at the head of
    [s]: the shortest run of characters other than line feed that a closing
    brace follows.  The result is group 1. *)
Fixpoint lazy_group (s : string) : option string :=
  match s with
  | EmptyString => None
  | String c s' =>
      if Ascii.eqb c "}" then Some EmptyString
      else if Ascii.eqb c PyString.newline then None
      else option_map (String c) (lazy_group s')
  end.

(** [re.search("{(.*?)}", s)]: the match at the leftmost position that
    has one; [Some g] is [.group(1)], [None] is Python's [None]. *)
Fixpoint re_search (s : string) : option string :=
  match s with
  | EmptyString => None
  | String c s' =>
      if Ascii.eqb c "{" then
        match lazy_group s' with
        | Some g => Some g
        | None => re_search s'
        end
      else re_search s'
  end.

(** ** [int(x)] *)

Definition digit_of (c : ascii) : option Z :=
  let n := nat_of_ascii c in
  if ((48 <=? n) && (n <=? 57))%nat then Some (Z.of_nat (n - 48)) else None.

(** Decimal digits, single underscores allowed between two digits. *)
Fixpoint digits (after_digit : bool) (acc : Z) (s : string) : option Z :=
  match s with
  | EmptyString => if after_digit then Some acc else None
  | String c s' =>
      match digit_of c with
      | Some d => digits true (10 * acc + d)%Z s'
      | None =>
          if Ascii.eqb c "_" && after_digit then digits false acc s' else None
      end
  end.

(** The text without the white space [space] at its head. *)
Fixpoint lstrip (space : ascii -> bool) (s : string) : string :=
  match s with
  | String c s' => if space c then lstrip space s' else s
  | EmptyString => EmptyString
  end.

Definition strip (space : ascii -> bool) (s : string) : string :=
  PyString.rev_string ""
    (lstrip space (PyString.rev_string "" (lstrip space s))).

(** The integer a text denotes in base 10, once the white space [space]
    around it is dropped: an optional sign, then digits; [None] is
    [ValueError]. *)
Definition int_of_text (space : ascii -> bool) (s : string) : option Z :=
  match strip space s with
  | String "-" s' => option_map Z.opp (digits false 0%Z s')
  | String "+" s' => digits false 0%Z s'
  | s' => digits false 0%Z s'
  end.

(** [int(s)] for a [str]. *)
Definition int_of_str (s : string) : option Z :=
  int_of_text PyString.is_int_space s.

(** [int(b)] for a [bytes] value. *)
Definition int_of_bytes (s : string) : option Z :=
  int_of_text PyString.is_c_space s.

(** [int(x)] for a [float]: the value [m * 2^e] cut off towards zero;
    [None] for an infinity or a NaN. *)
Definition int_of_float (f : spec_float) : option Z :=
  match f with
  | S754_zero _ => Some 0%Z
  | S754_finite negative m e =>
      let magnitude := Z.shiftl (Z.pos m) e in
      Some (if negative then - magnitude else magnitude)%Z
  | S754_infinity _ | S754_nan => None
  end.

Definition type_name (v : pyval) : string :=
  match v with
  | PyNone => "NoneType"
  | PyBool _ => "bool"
  | PyInt _ => "int"
  | PyStr _ => "str"
  | PyList _ => "list"
  | PySet _ => "set"
  | PyDict _ => "dict"
  | PyExc e =>
      match exc_type e with
      | Exception => "Exception"
      | TypeError => "TypeError"
      | NameError => "NameError"
      | KeyError => "KeyError"
      | AttributeError => "AttributeError"
      | ValueError => "ValueError"
      | SyntaxError => "SyntaxError"
      | OverflowError => "OverflowError"
      end
  | PyFloat _ => "float"
  | PyComplex _ _ => "complex"
  | PyBytes _ => "bytes"
  | PyTuple _ => "tuple"
  | PyEllipsis => "ellipsis"
  end.

(** A result of an expression the interpreter evaluates: a value, or the
    class and message of the exception it raises. *)
Definition evaluated (A : Type) : Type := (A + exc_class * string)%type.

Definition py_int (v : pyval) : evaluated Z :=
  match v with
  | PyInt n => inl n
  | PyBool b => inl (if b then 1 else 0)%Z
  | PyStr s =>
      match int_of_str s with
      | Some n => inl n
      | None =>
          inr (ValueError,
               "invalid literal for int() with base 10: " ++ PyString.repr s)
      end
  | PyBytes s =>
      match int_of_bytes s with
      | Some n => inl n
      | None =>
          inr (ValueError,
               "invalid literal for int() with base 10: "
                 ++ PyString.repr_bytes s)
      end
  | PyFloat f =>
      match int_of_float f with
      | Some n => inl n
      | None =>
          match f with
          | S754_nan => inr (ValueError, "cannot convert float NaN to integer")
          | _ => inr (OverflowError, "cannot convert float infinity to integer")
          end
      end
  | _ =>
      inr (TypeError,
           "int() argument must be a string, a bytes-like object or a real number, not '"
             ++ type_name v ++ "'")
  end.

(** ** [d[key]] for a string key *)

Definition key_is (key : string) (k : pyval) : bool :=
  match k with
  | PyStr s => String.eqb s key
  | _ => false
  end.

(** Lookup in the items of a dict, which hold each key once. *)
Fixpoint dict_get (key : string) (items : list (pyval * pyval))
  : option pyval :=
  match items with
  | [] => None
  | (k, v) :: rest => if key_is key k then Some v else dict_get key rest
  end.

Definition subscript (d : pyval) (key : string) : evaluated pyval :=
  match d with
  | PyDict items =>
      match dict_get key items with
      | Some v => inl v
      | None => inr (KeyError, PyString.repr key)
      end
  | PyList _ => inr (TypeError, "list indices must be integers or slices, not str")
  | PyTuple _ =>
      inr (TypeError, "tuple indices must be integers or slices, not str")
  | PyBytes _ =>
      inr (TypeError, "byte indices must be integers or slices, not str")
  | PyStr _ => inr (TypeError, "string indices must be integers, not 'str'")
  | _ => inr (TypeError, "'" ++ type_name d ++ "' object is not subscriptable")
  end.

(** [if v:] *)
Definition truthy (v : pyval) : bool :=
  match v with
  | PyNone => false
  | PyBool b => b
  | PyInt n => negb (n =? 0)%Z
  | PyStr s => negb (String.eqb s "")
  | PyList l | PySet l => negb (Nat.eqb (List.length l) 0)
  | PyDict items => negb (Nat.eqb (List.length items) 0)
  | PyExc _ => true
  | PyFloat f => match f with S754_zero _ => false | _ => true end
  | PyComplex re im =>
      match re, im with
      | S754_zero _, S754_zero _ => false
      | _, _ => true
      end
  | PyBytes s => negb (String.eqb s "")
  | PyTuple l => negb (Nat.eqb (List.length l) 0)
  | PyEllipsis => true
  end.

(** [a != b] where the module uses it: between the [int] that
    [get_current_replication_factor] returns and the [int] parameter
    [replication_factor]. *)
Definition int_ne (a b : pyval) : bool :=
  match a, b with
  | PyInt x, PyInt y => negb (x =? y)%Z
  | _, _ => true
  end.

(** ** Calls of module-level functions *)

Definition quoted (x : string) : string := "'" ++ x ++ "'".

(** The names in a [TypeError] about missing arguments:
    ['a'], ['a' and 'b'], ['a', 'b', and 'c']. *)
Definition name_list (names : list string) : string :=
  match rev names with
  | [] => ""
  | [a] => quoted a
  | [b; a] => quoted a ++ " and " ++ quoted b
  | last :: front =>
      PyString.join ", " (map quoted (rev front)) ++ ", and " ++ quoted last
  end.

Definition plural (n : nat) : string := if Nat.eqb n 1 then "" else "s".

Definition missing_message (f : string) (missing : list string) : string :=
  f ++ "() missing " ++ PyString.str_of_int (Z.of_nat (List.length missing))
    ++ " required positional argument" ++ plural (List.length missing) ++ ": "
    ++ name_list missing.

Definition too_many_message (f : string) (wanted given : nat) : string :=
  f ++ "() takes " ++ PyString.str_of_int (Z.of_nat wanted)
    ++ " positional argument" ++ plural wanted ++ " but "
    ++ PyString.str_of_int (Z.of_nat given)
    ++ (if Nat.eqb given 1 then " was" else " were") ++ " given".

Definition name_error_message (f : string) : string :=
  "name '" ++ f ++ "' is not defined".

Fixpoint lookup {A : Type} (f : string) (table : list (string * A))
  : option A :=
  match table with
  | [] => None
  | (g, a) :: rest => if String.eqb g f then Some a else lookup f rest
  end.

Section Code.

Context {store : Type}.
Variable popen : store -> list string -> store * completed.

(** [ast.literal_eval], of Python's standard library. *)
Variable literal_eval : string -> evaluated pyval.

Local Open Scope py_scope.

Definition raise_evaluated {A} (e : exc_class * string) : M store A :=
  raise (fst e) (snd e).

(** The functions below receive the values [main] passes: [module.params]
    entries, typed by the argument spec.  Positional arguments of other
    types do not reach them. *)
Definition unexpected_argument_types {A} : M store A :=
  raise TypeError "unexpected argument types".

Definition keyspace_already_exists (args : list pyval) : M store pyval :=
  match args with
  | [PyStr keyspace; PyStr host; PyInt port; PyStr cql_version] =>
      print host ;;;
      print (PyString.str_of_int port) ;;;
      process <- Popen popen
                   ["cqlsh"; host; PyString.str_of_int port; "--cqlversion";
                    cql_version; "-e"; "DESC KEYSPACES;"] ;;
      if negb (returncode process =? 0)%Z
      then raise Exception (bad_returncode process)
      else ret (PyBool (PyString.mem keyspace (PyString.split (stdout process))))
  | _ => unexpected_argument_types
  end.

Definition create_keyspace (args : list pyval) : M store pyval :=
  match args with
  | [PyStr keyspace; PyStr host; PyInt port; PyStr cql_version;
     PyInt replication_factor] =>
      let cmd := CREATE_CMD keyspace replication_factor in
      process <- Popen popen
                   ["sudo"; "cqlsh"; host; PyString.str_of_int port;
                    "--cqlversion"; cql_version; "-e"; cmd] ;;
      if negb (returncode process =? 0)%Z
      then raise Exception (bad_returncode process)
      else ret PyNone
  | _ => unexpected_argument_types
  end.

(** The last three statements of [get_current_replication_factor]: from
    the text [cqlsh] printed to the replication factor. *)
Definition parse_replication_factor (out : string) : evaluated Z :=
  match re_search out with
  | None => inr (AttributeError, "'NoneType' object has no attribute 'group'")
  | Some replication_regex =>
      match literal_eval ("{" ++ replication_regex ++ "}") with
      | inr e => inr e
      | inl replication_dict =>
          match subscript replication_dict "replication_factor" with
          | inr e => inr e
          | inl v => py_int v
          end
      end
  end.

Definition get_current_replication_factor (args : list pyval)
  : M store pyval :=
  match args with
  | [PyStr keyspace; PyStr host; PyInt port; PyStr cql_version] =>
      process <- Popen popen
                   ["sudo"; "cqlsh"; host; PyString.str_of_int port;
                    "--cqlversion"; cql_version; "-e";
                    "Describe keyspace " ++ keyspace ++ ";"] ;;
      if negb (returncode process =? 0)%Z
      then raise Exception (bad_returncode process)
      else
        match parse_replication_factor (stdout process) with
        | inl n => ret (PyInt n)
        | inr e => raise_evaluated e
        end
  | _ => unexpected_argument_types
  end.

Definition update_keyspace_replication (args : list pyval) : M store pyval :=
  match args with
  | [PyStr keyspace; PyStr host; PyInt port; PyStr cql_version;
     PyInt replication_factor] =>
      let cmd := ALTER_CMD keyspace replication_factor in
      process <- Popen popen
                   ["sudo"; "cqlsh"; host; PyString.str_of_int port;
                    "--cqlversion"; cql_version; "-e"; cmd] ;;
      if negb (returncode process =? 0)%Z
      then raise Exception (bad_returncode process)
      else ret PyNone
  | _ => unexpected_argument_types
  end.

Definition drop_keyspace (args : list pyval) : M store pyval :=
  match args with
  | [PyStr keyspace; PyStr host; PyInt port; PyStr cql_version] =>
      let cmd := "DROP KEYSPACE " ++ keyspace ++ ";" in
      process <- Popen popen
                   ["sudo"; "cqlsh"; host; PyString.str_of_int port;
                    "--cqlversion"; cql_version; "-e"; cmd] ;;
      if negb (returncode process =? 0)%Z
      then raise Exception (bad_returncode process)
      else ret PyNone
  | _ => unexpected_argument_types
  end.

(** The [def] statements of the module above [main], in source order:
    name, parameter names, body. *)
Definition module_functions
  : list (string * (list string * (list pyval -> M store pyval))) :=
  [ ("keyspace_already_exists",
     (["keyspace"; "host"; "port"; "cql_version"], keyspace_already_exists));
    ("create_keyspace",
     (["keyspace"; "host"; "port"; "cql_version"; "replication_factor"],
      create_keyspace));
    ("get_current_replication_factor",
     (["keyspace"; "host"; "port"; "cql_version"],
      get_current_replication_factor));
    ("update_keyspace_replication",
     (["keyspace"; "host"; "port"; "cql_version"; "replication_factor"],
      update_keyspace_replication));
    ("drop_keyspace",
     (["keyspace"; "host"; "port"; "cql_version"], drop_keyspace)) ].

(** Every routine the module defines; [main] comes last. *)
Definition defined_routines : list string :=
  (map fst module_functions ++ ["main"])%list.

(** [f(args)] inside [main] for a global name [f]: the name is looked up,
    the positional arguments are bound to the parameters, and only then
    does the body run. *)
Definition call (f : string) (args : list pyval) : M store pyval :=
  match lookup f module_functions with
  | None => raise NameError (name_error_message f)
  | Some (parameters, body) =>
      let given := List.length args in
      let wanted := List.length parameters in
      if (given <? wanted)%nat
      then raise TypeError (missing_message f (skipn given parameters))
      else if (wanted <? given)%nat
      then raise TypeError (too_many_message f wanted given)
      else body args
  end.

Definition main (p : params) : M store unit :=
  let keyspace := PyStr (name p) in
  let host := PyStr (host p) in
  let port := PyInt (port p) in
  let cql_version := PyStr (cql_version p) in
  let replication_factor := PyInt (replication_factor p) in
  exists_ <- try_except_else
               (call "keyspace_already_exists"
                  [keyspace; host; port; cql_version])
               (fun err => fail_json (PyExc err))
               ret ;;
  match state p with
  | present =>
      if truthy exists_ then
        current_rep_factor <- call "get_current_replication_factor"
                                [keyspace; host; port; cql_version] ;;
        if int_ne current_rep_factor replication_factor then
          try_except_else
            (call "update_keyspace_replication"
               [keyspace; host; replication_factor])
            (fun err =>
               fail_json (PyStr ("Error updating keyspace: " ++ exc_msg err)))
            (fun _ => exit_json true)
        else exit_json false
      else
        try_except_else
          (call "create_keyspace"
             [keyspace; host; port; cql_version; replication_factor])
          (fun err =>
             fail_json (PyStr ("Error creating keyspace: " ++ exc_msg err)))
          (fun _ => exit_json true)
  | absent =>
      if truthy exists_ then
        try_except_else
          (call "delete_keyspace" [keyspace; host; port; cql_version])
          (fun err =>
             fail_json (PyStr ("Error deleting keyspace: " ++ exc_msg err)))
          (fun _ => exit_json true)
      else exit_json false
  end.

End Code.

End cassandra_keyspace.

(* ================================================================== *)
(** * deploy.py *)
(* ================================================================== *)

Module deploy.

Definition NEEDED_CONFIG_KEYS : list string :=
  ["subdomain"; "sa_path"; "private_key"; "mode"; "fixtures_path"; "ga_id";
   "region"; "training_cron"; "poller_host"; "poller_password";
   "poller_user"; "poller_port"; "database_name"].

Definition NEEDED_SIMPLE_KEYS : list string :=
  ["builds"; "jenkins_user"; "jenkins_api_key"].

Definition NEEDED_MULTI_KEYS : list string := ["images"].

Definition DEFAULT_MAP : list (string * string) :=
  [ ("region", "us-west1"); ("poller_cron", "0 * * * *");
    ("training_cron", "0 4 * * 0"); ("poller_host", "Not Specified");
    ("poller_password", "Not Specified"); ("poller_user", "Not Specified");
    ("poller_port", "Not Specified"); ("database_name", "pluto") ].

(** [self.config]: the JSON object of the config file, a dict with string
    keys, in insertion order. *)
Definition config : Type := list (string * pyval).

(** What the code of [PlatformDeployment] raises: its own exception, or
    one of the interpreter. *)
Inductive raised : Type :=
  | PlatformDeploymentException (msg : string)
  | Builtin (cls : exc_class) (msg : string).

(** [key in d.keys()] *)
Definition has_key {V : Type} (key : string) (d : list (string * V)) : bool :=
  existsb (fun kv => String.eqb (fst kv) key) d.

(** [d[key]], [None] for a missing key. *)
Fixpoint get {V : Type} (key : string) (d : list (string * V)) : option V :=
  match d with
  | [] => None
  | (k, v) :: rest => if String.eqb k key then Some v else get key rest
  end.

(** [d[key] = v]: the value of an existing key is replaced in place, a
    new key goes to the end. *)
Fixpoint set {V : Type} (key : string) (v : V) (d : list (string * V))
  : list (string * V) :=
  match d with
  | [] => [(key, v)]
  | (k, v') :: rest =>
      if String.eqb k key then (k, v) :: rest else (k, v') :: set key v rest
  end.

(** The [if]/[elif]/[else] of [_load_config] that picks [check_keys] from
    [self.config["mode"]]. *)
Definition check_keys_of (cfg : config) : list string + raised :=
  match get "mode" cfg with
  | None => inr (Builtin KeyError (PyString.repr "mode"))
  | Some (PyStr mode) =>
      if PyString.mem mode ["simple"; "simple_osu"; "simple_osu_restart"]
      then inl (NEEDED_CONFIG_KEYS ++ NEEDED_SIMPLE_KEYS)%list
      else if prefix "multi" mode
      then inl (NEEDED_CONFIG_KEYS ++ NEEDED_MULTI_KEYS)%list
      else inl (NEEDED_CONFIG_KEYS ++ NEEDED_MULTI_KEYS)%list
  | Some v =>
      inr (Builtin AttributeError
             ("'" ++ cassandra_keyspace.type_name v
                  ++ "' object has no attribute 'startswith'"))
  end.

(** The [for key in check_keys] loop of [_load_config]. *)
Fixpoint fill_keys (check_keys : list string) (cfg : config)
  : config + raised :=
  match check_keys with
  | [] => inl cfg
  | key :: rest =>
      if negb (has_key key cfg) then
        if has_key key DEFAULT_MAP then
          match get key DEFAULT_MAP with
          | Some v => fill_keys rest (set key (PyStr v) cfg)
          | None => inr (Builtin KeyError (PyString.repr key))
          end
        else inr (PlatformDeploymentException ("Missing key: " ++ key))
      else fill_keys rest cfg
  end.

(** [_load_config] from the point where [json.load] has returned the
    JSON object [cfg]: the choice of [check_keys] and the loop over them.  The
    result is [self.config] or the exception raised. *)
Definition load_config_checks (cfg : config) : config + raised :=
  match check_keys_of cfg with
  | inr e => inr e
  | inl check_keys => fill_keys check_keys cfg
  end.

(** What [json.load] can return for the config file: a JSON object, or
    one of the other JSON values. *)
Inductive json_document : Type :=
  | JObject (cfg : config)
  | JArray (l : list pyval)
  | JString (s : string)
  | JInt (n : Z)
  | JFloat (f : spec_float)
  | JBool (b : bool)
  | JNull.

(** [_load_config] from the point where [json.load] has returned [doc]
    and the file is logged.  On a document that is no object,
    [self.config["mode"]] raises the [TypeError] of a subscript with a
    string. *)
Definition load_config_document (doc : json_document) : config + raised :=
  match doc with
  | JObject cfg => load_config_checks cfg
  | JArray _ =>
      inr (Builtin TypeError "list indices must be integers or slices, not str")
  | JString _ =>
      inr (Builtin TypeError "string indices must be integers, not 'str'")
  | JInt _ => inr (Builtin TypeError "'int' object is not subscriptable")
  | JFloat _ => inr (Builtin TypeError "'float' object is not subscriptable")
  | JBool _ => inr (Builtin TypeError "'bool' object is not subscriptable")
  | JNull => inr (Builtin TypeError "'NoneType' object is not subscriptable")
  end.

(** [string.ascii_lowercase], [string.ascii_letters], [string.digits] *)
Definition ascii_lowercase : string := "abcdefghijklmnopqrstuvwxyz".
Definition ascii_uppercase : string := "ABCDEFGHIJKLMNOPQRSTUVWXYZ".
Definition ascii_letters : string := ascii_lowercase ++ ascii_uppercase.
Definition digits : string := "0123456789".

Section Secrets.

(** [random.SystemRandom()._randbelow(n)], which [choice] uses to pick an
    index: [randbelow i n] is the number the [i]-th draw returns. *)
Variable randbelow : nat -> nat -> nat.

(** [random.SystemRandom().choice(choices)] as draw number [i]. *)
Definition choice (i : nat) (choices : string) : string :=
  match String.get (randbelow i (String.length choices)) choices with
  | Some c => String c ""
  | None => ""
  end.

(** ["".join([choice(choices) for i in range(count)])], the draws
    numbered from [first]. *)
Fixpoint join_choices (choices : string) (first count : nat) : string :=
  match count with
  | O => ""
  | S count' => choice first choices ++ join_choices choices (S first) count'
  end.

Definition _create_secret_key (first count : nat) : string :=
  let choices := ascii_letters ++ digits in
  join_choices choices first count.

Definition _create_lower_secret_key (first count : nat) : string :=
  let choices := ascii_lowercase ++ digits in
  join_choices choices first count.

End Secrets.

End deploy.

(* ================================================================== *)
(** * Concrete stores and inputs *)
(* ================================================================== *)

(** Small deterministic stand-ins for the cluster and for
    [ast.literal_eval], on which the modules can be run. *)
Module Fixtures.

Definition ok (out : string) : completed := mkCompleted 0 out "".
Definition failed (code : Z) (err : string) : completed :=
  mkCompleted code "" err.

Definition nl : string := String PyString.newline "".

(** A host on which every [cqlsh] run ends with status 1 and the same
    text on stderr. *)
Definition refusing_popen (s : unit) (argv : list string) : unit * completed :=
  (s, failed 1 "connection refused").

(** A host that refuses its first [cqlsh] run and accepts all later
    ones; the state counts the runs. *)
Definition waking_popen (s : nat) (argv : list string) : nat * completed :=
  (S s, if Nat.eqb s 0 then failed 1 "connection refused" else ok "").

Definition probe_params (retries : Z) : cassandra_connection.params :=
  cassandra_connection.mkParams "127.0.0.1" 9042 "3.4.4" retries.

(** ** A keyspace [pluto] without tables that accepts every statement

    The state is the list of statements executed so far. *)
Definition empty_keyspace_popen (s : list string) (argv : list string)
  : list string * completed :=
  let cmd := last argv "" in
  if String.eqb cmd "Describe tables;" then (s, ok nl)
  else ((s ++ [cmd])%list, ok "").

Definition events_spec : cassandra_table.params :=
  cassandra_table.mkParams "events" "pluto"
    [ [("name", "datastream"); ("type", "text")];
      [("name", "time"); ("type", "timestamp")];
      [("name", "value"); ("type", "float")] ]
    ["datastream"; "time"]
    (Some ["time"]) "DESC"
    "127.0.0.1" 9042 "3.4.4" cassandra_table.present.

(** The statement the specification expects for [events_spec]. *)
Definition events_statement_expected : string :=
  "CREATE TABLE events(datastream text, time timestamp, value float, PRIMARY KEY (datastream, time)) WITH CLUSTERING ORDER BY (time DESC);".

(** The statement [create_table] builds for [events_spec]. *)
Definition events_statement_built : string :=
  "CREATE TABLE events(datastream text, time timestamp, value float, PRIMARY KEY (datastream, time))WITH CLUSTERING ORDER BY (time DESC);".

(** A table spec with one column that lacks [name] and one that lacks
    [type]. *)
Definition broken_columns_spec : cassandra_table.params :=
  cassandra_table.mkParams "events" "pluto"
    [ [("type", "text")]; [("name", "time")] ]
    ["time"] None "ASC"
    "127.0.0.1" 9042 "3.4.4" cassandra_table.present.

(** ** A stand-in for [ast.literal_eval]

    It reads the dict displays [cqlsh] prints in a keyspace description:
    single-quoted keys without escapes, values that are such strings or
    unsigned decimal integers, items separated by commas.  Every other
    text is a [SyntaxError] here. *)
Inductive token : Type :=
  | TOpen | TClose | TColon | TComma
  | TString (s : string)
  | TNumber (n : Z)
  | TOther (c : ascii).

Inductive lex_state : Type :=
  | Between
  | InString (acc : string)
  | InNumber (acc : Z).

Definition start (c : ascii) : lex_state * list token :=
  if Ascii.eqb c " " then (Between, [])
  else if Ascii.eqb c "{" then (Between, [TOpen])
  else if Ascii.eqb c "}" then (Between, [TClose])
  else if Ascii.eqb c ":" then (Between, [TColon])
  else if Ascii.eqb c "," then (Between, [TComma])
  else if Ascii.eqb c PyString.squote then (InString "", [])
  else match cassandra_keyspace.digit_of c with
       | Some d => (InNumber d, [])
       | None => (Between, [TOther c])
       end.

Fixpoint lex (st : lex_state) (s : string) : list token :=
  match s with
  | EmptyString =>
      match st with
      | Between => []
      | InString _ => [TOther PyString.squote]
      | InNumber n => [TNumber n]
      end
  | String c s' =>
      match st with
      | Between => let (st', toks) := start c in (toks ++ lex st' s')%list
      | InString acc =>
          if Ascii.eqb c PyString.squote then TString acc :: lex Between s'
          else if Ascii.eqb c PyString.backslash then TOther c :: lex Between s'
          else lex (InString (acc ++ String c "")) s'
      | InNumber n =>
          match cassandra_keyspace.digit_of c with
          | Some d => lex (InNumber (10 * n + d)%Z) s'
          | None =>
              let (st', toks) := start c in
              (TNumber n :: toks ++ lex st' s')%list
          end
      end
  end.

Definition value_of (t : token) : option pyval :=
  match t with
  | TString s => Some (PyStr s)
  | TNumber n => Some (PyInt n)
  | _ => None
  end.

(** [d[key] = v] on the items of a dict. *)
Fixpoint dict_set (key : string) (v : pyval) (items : list (pyval * pyval))
  : list (pyval * pyval) :=
  match items with
  | [] => [(PyStr key, v)]
  | (k, v') :: rest =>
      if cassandra_keyspace.key_is key k then (k, v) :: rest
      else (k, v') :: dict_set key v rest
  end.

Fixpoint parse_items (toks : list token) (acc : list (pyval * pyval))
  : option (list (pyval * pyval)) :=
  match toks with
  | TString k :: TColon :: t :: rest =>
      match value_of t with
      | None => None
      | Some v =>
          match rest with
          | [TClose] => Some (dict_set k v acc)
          | TComma :: rest' => parse_items rest' (dict_set k v acc)
          | _ => None
          end
      end
  | _ => None
  end.

Definition flat_literal_eval (s : string) : cassandra_keyspace.evaluated pyval :=
  match lex Between s with
  | [TOpen; TClose] => inl (PyDict [])
  | TOpen :: toks =>
      match parse_items toks [] with
      | Some items => inl (PyDict items)
      | None => inr (SyntaxError, "invalid syntax")
      end
  | _ => inr (SyntaxError, "invalid syntax")
  end.

(** ** A cluster that may hold one keyspace, [pluto]

    The state is the keyspace's replication factor, [None] while the
    keyspace does not exist.  The cluster understands the statements the
    module can send about [pluto], with replication factors 1 to 5. *)
Definition describe_keyspaces (s : option Z) : string :=
  nl ++ "system_schema  system_auth  system"
     ++ match s with Some _ => "  pluto" | None => "" end
     ++ "  system_distributed  system_traces" ++ nl ++ nl.

Definition describe_pluto (replication_factor : Z) : string :=
  nl ++ "CREATE KEYSPACE pluto WITH replication = {'class': 'SimpleStrategy', 'replication_factor': '"
     ++ PyString.str_of_int replication_factor
     ++ "'}  AND durable_writes = true;" ++ nl ++ nl.

Definition factors : list Z := [1; 2; 3; 4; 5]%Z.

Definition pluto_popen (s : option Z) (argv : list string)
  : option Z * completed :=
  let cmd := last argv "" in
  let creates n := String.eqb cmd (cassandra_keyspace.CREATE_CMD "pluto" n) in
  let alters n := String.eqb cmd (cassandra_keyspace.ALTER_CMD "pluto" n) in
  if String.eqb cmd "DESC KEYSPACES;" then (s, ok (describe_keyspaces s))
  else if String.eqb cmd "Describe keyspace pluto;" then
    match s with
    | Some n => (s, ok (describe_pluto n))
    | None => (s, failed 2 "Keyspace 'pluto' not found.")
    end
  else if String.eqb cmd "DROP KEYSPACE pluto;" then
    match s with
    | Some _ => (None, ok "")
    | None => (s, failed 2 "Cannot drop non existing keyspace 'pluto'.")
    end
  else
    match find creates factors, find alters factors, s with
    | Some n, _, None => (Some n, ok "")
    | Some _, _, Some _ => (s, failed 2 "Cannot add existing keyspace 'pluto'")
    | None, Some n, Some _ => (Some n, ok "")
    | None, Some _, None => (s, failed 2 "Keyspace 'pluto' doesn't exist")
    | None, None, _ => (s, failed 2 "Invalid syntax")
    end.

Definition pluto_spec (replication_factor : Z)
    (state : cassandra_keyspace.state_choice) : cassandra_keyspace.params :=
  cassandra_keyspace.mkParams "pluto" "127.0.0.1" 9042 "3.4.4"
    replication_factor state.

Definition keyspace_main (p : cassandra_keyspace.params)
  : M (option Z) unit :=
  cassandra_keyspace.main pluto_popen flat_literal_eval p.

(** Two runs of the keyspace module in succession, the second on the
    cluster as the first left it: both outcomes and the final state. *)
Definition keyspace_twice (p : cassandra_keyspace.params) (s : option Z)
  : outcome unit * outcome unit * option Z :=
  let (w1, first) := keyspace_main p (initial_world s) in
  let (w2, second) := keyspace_main p w1 in
  (first, second, w_store w2).

(** ** A keyspace that keeps the names of its tables

    [CREATE TABLE name(...] adds [name], [DROP TABLE name;] removes it,
    [Describe tables;] prints the names. *)
Fixpoint until_paren (s : string) : string :=
  match s with
  | EmptyString => EmptyString
  | String c s' => if Ascii.eqb c "(" then EmptyString else String c (until_paren s')
  end.

Definition tables_popen (s : list string) (argv : list string)
  : list string * completed :=
  let cmd := last argv "" in
  if String.eqb cmd "Describe tables;" then
    (s, ok (nl ++ PyString.join "  " s ++ nl ++ nl))
  else if prefix "CREATE TABLE " cmd then
    let table := until_paren (substring 13 (String.length cmd) cmd) in
    if PyString.mem table s
    then (s, failed 2 "AlreadyExists")
    else ((s ++ [table])%list, ok "")
  else
    match find (fun t => String.eqb cmd ("DROP TABLE " ++ t ++ ";")) s with
    | Some t => (filter (fun x => negb (String.eqb x t)) s, ok "")
    | None => (s, failed 2 "InvalidRequest")
    end.

Definition table_twice (p : cassandra_table.params) (s : list string)
  : outcome unit * outcome unit * list string :=
  let (w1, first) := cassandra_table.main tables_popen p (initial_world s) in
  let (w2, second) := cassandra_table.main tables_popen p w1 in
  (first, second, w_store w2).

Definition events_absent : cassandra_table.params :=
  cassandra_table.mkParams "events" "pluto"
    (cassandra_table.columns events_spec) ["datastream"; "time"]
    (Some ["time"]) "DESC" "127.0.0.1" 9042 "3.4.4" cassandra_table.absent.

(** A cluster that lists [pluto] and prints nothing for any other
    query. *)
Definition terse_popen (s : unit) (argv : list string) : unit * completed :=
  if String.eqb (last argv "") "DESC KEYSPACES;" then (s, ok "pluto")
  else (s, ok "").

(** A config file for the [simple] mode that leaves the defaulted keys
    out. *)
Definition simple_config : deploy.config :=
  [ ("subdomain", PyStr "orca"); ("sa_path", PyStr "sa.json");
    ("private_key", PyStr "id_rsa"); ("mode", PyStr "simple");
    ("fixtures_path", PyStr "fixtures"); ("ga_id", PyStr "UA-1");
    ("region", PyStr "us-east1"); ("builds", PyDict []);
    ("jenkins_user", PyStr "ci"); ("jenkins_api_key", PyStr "k") ].

(** A source of draws: the [i]-th draw below [n] is [7 * i] modulo [n]. *)
Definition stepping (i n : nat) : nat := (7 * i) mod n.

(** A description whose only brace group runs over a line end. *)
Definition broken_line_text : string :=
  "replication = {'class': 'SimpleStrategy'," ++ nl
    ++ " 'replication_factor': '2'}" ++ nl.

(** A description whose first brace group runs over a line end and whose
    second one carries the replication factor. *)
Definition spanning_text : string :=
  "options = {" ++ nl ++ "}" ++ nl
    ++ "replication = {'class': 'SimpleStrategy', 'replication_factor': '2'}"
    ++ nl.

End Fixtures.

(* ================================================================== *)
(** * Notions the statements below use *)
(* ================================================================== *)

Module Notions.

(** The exception objects a run of [n] failed attempts creates, the first
    of them with identity [next]. *)
Definition refusals (msg : string) (next n : nat) : list exc :=
  map (fun i => mkExc i Exception msg) (seq next n).

(** What one column adds to the list of validation errors. *)
Definition column_errors (col : cassandra_table.column) : list string :=
  cassandra_table.validate_column [] col.

(** A brace group stays on one line and ends at the first closing
    brace: its content holds neither a closing brace nor a line feed. *)
Definition one_line (g : string) : Prop :=
  PyString.contains_char "}" g = false
  /\ PyString.contains_char PyString.newline g = false.

(** [s] begins with the brace group whose content is [g]. *)
Definition group_at (s g : string) : Prop :=
  exists rest, s = String "{" (g ++ String "}" rest) /\ one_line g.

(** [g] is the content of the first brace group of [out]: a group begins
    after [before], and none begins anywhere inside [before]. *)
Definition first_brace_group (out g : string) : Prop :=
  exists before after,
    out = before ++ after
    /\ group_at after g
    /\ forall b1 b2 g',
         before = b1 ++ b2 -> b2 <> "" -> ~ group_at (b2 ++ after) g'.

(** No brace group begins anywhere in [out]. *)
Definition no_brace_group (out : string) : Prop :=
  forall before after g, out = before ++ after -> ~ group_at after g.

(** The command lines of the two queries of the keyspace module. *)
Definition list_argv (p : cassandra_keyspace.params) : list string :=
  ["cqlsh"; cassandra_keyspace.host p;
   PyString.str_of_int (cassandra_keyspace.port p); "--cqlversion";
   cassandra_keyspace.cql_version p; "-e"; "DESC KEYSPACES;"].

Definition describe_argv (p : cassandra_keyspace.params) : list string :=
  ["sudo"; "cqlsh"; cassandra_keyspace.host p;
   PyString.str_of_int (cassandra_keyspace.port p); "--cqlversion";
   cassandra_keyspace.cql_version p; "-e";
   "Describe keyspace " ++ cassandra_keyspace.name p ++ ";"].

(** The world after [keyspace_already_exists] ran [cqlsh] and left the
    cluster in state [s']. *)
Definition listed {store : Type} (p : cassandra_keyspace.params)
    (w : World store) (s' : store) : World store :=
  mkWorld s' (w_calls w ++ [list_argv p])%list (w_sleeps w)
    (w_printed w ++ [cassandra_keyspace.host p]
       ++ [PyString.str_of_int (cassandra_keyspace.port p)])%list
    (w_next_id w).

(** [k] runs of the command line [argv] in a row, starting in state [s]
    and each ending with a status other than 0: the state they leave
    behind, [None] when one of them ends with status 0. *)
Fixpoint refused_runs {store : Type}
    (popen : store -> list string -> store * completed)
    (argv : list string) (k : nat) (s : store) : option store :=
  match k with
  | O => Some s
  | S k' =>
      let (s', r) := popen s argv in
      if (returncode r =? 0)%Z then None else refused_runs popen argv k' s'
  end.

(** The command line of the query of the table module, and of a
    statement [cmd] it sends. *)
Definition tables_argv (p : cassandra_table.params) : list string :=
  cassandra_table.cqlsh_argv (cassandra_table.host p) (cassandra_table.port p)
    (cassandra_table.cql_version p) (cassandra_table.keyspace p)
    "Describe tables;".

Definition statement_argv (p : cassandra_table.params) (cmd : string)
  : list string :=
  cassandra_table.cqlsh_argv (cassandra_table.host p) (cassandra_table.port p)
    (cassandra_table.cql_version p) (cassandra_table.keyspace p) cmd.

(** The statement [create_table] builds for the spec [p]. *)
Definition create_statement (p : cassandra_table.params) : string + string :=
  cassandra_table.create_table_cmd (cassandra_table.name p)
    (cassandra_table.columns p) (cassandra_table.primary_keys p)
    (cassandra_table.order_by p) (cassandra_table.order_by_direction p).

Definition drop_statement (p : cassandra_table.params) : string :=
  "DROP TABLE " ++ cassandra_table.name p ++ ";".

(** Some character of [s] is white space. *)
Fixpoint has_space (s : string) : bool :=
  match s with
  | EmptyString => false
  | String c s' => PyString.is_space c || has_space s'
  end.

(** Every character of [s] is white space. *)
Fixpoint all_space (s : string) : bool :=
  match s with
  | EmptyString => true
  | String c s' => PyString.is_space c && all_space s'
  end.

(** Every character of [s] is white space that [int()] drops. *)
Fixpoint all_int_space (s : string) : bool :=
  match s with
  | EmptyString => true
  | String c s' => PyString.is_int_space c && all_int_space s'
  end.

(** A token: not empty, no white space. *)
Definition token (t : string) : Prop := t <> "" /\ has_space t = false.

(** The command line on which the keyspace module sends its [CREATE
    KEYSPACE] statement. *)
Definition create_argv (p : cassandra_keyspace.params) : list string :=
  ["sudo"; "cqlsh"; cassandra_keyspace.host p;
   PyString.str_of_int (cassandra_keyspace.port p); "--cqlversion";
   cassandra_keyspace.cql_version p; "-e";
   cassandra_keyspace.CREATE_CMD (cassandra_keyspace.name p)
     (cassandra_keyspace.replication_factor p)].

(** The exception [get_current_replication_factor] raises on the run [r]
    of its query, if it raises one: class and message. *)
Definition describe_failure
    (literal_eval : string -> cassandra_keyspace.evaluated pyval)
    (r : completed) : option (exc_class * string) :=
  if (returncode r =? 0)%Z then
    match cassandra_keyspace.parse_replication_factor literal_eval (stdout r)
    with
    | inl _ => None
    | inr e => Some e
    end
  else Some (Exception, bad_returncode r).

(** The world after a run of [cqlsh] that followed the listing. *)
Definition after_listing {store : Type} (p : cassandra_keyspace.params)
    (w : World store) (s' : store) (argv : list string) (raised : nat)
  : World store :=
  mkWorld s' (w_calls w ++ [list_argv p; argv])%list (w_sleeps w)
    (w_printed w ++ [cassandra_keyspace.host p]
       ++ [PyString.str_of_int (cassandra_keyspace.port p)])%list
    (w_next_id w + raised).

(** The number a run of decimal digits denotes, read after the digits
    that gave [acc]. *)
Fixpoint uint_value (acc : Z) (d : Decimal.uint) : Z :=
  match d with
  | Decimal.Nil => acc
  | Decimal.D0 d' => uint_value (10 * acc + 0) d'
  | Decimal.D1 d' => uint_value (10 * acc + 1) d'
  | Decimal.D2 d' => uint_value (10 * acc + 2) d'
  | Decimal.D3 d' => uint_value (10 * acc + 3) d'
  | Decimal.D4 d' => uint_value (10 * acc + 4) d'
  | Decimal.D5 d' => uint_value (10 * acc + 5) d'
  | Decimal.D6 d' => uint_value (10 * acc + 6) d'
  | Decimal.D7 d' => uint_value (10 * acc + 7) d'
  | Decimal.D8 d' => uint_value (10 * acc + 8) d'
  | Decimal.D9 d' => uint_value (10 * acc + 9) d'
  end.

(** Every character of [s] occurs in [alphabet]. *)
Fixpoint over (alphabet s : string) : bool :=
  match s with
  | EmptyString => true
  | String c s' => PyString.contains_char c alphabet && over alphabet s'
  end.

(** The words of the specification for the group the parser reads: the
    first opening brace of the text and what stands between it and the
    next closing brace, line feeds included.  [until_close s] is the text
    before the first closing brace of [s]. *)
Fixpoint until_close (s : string) : option string :=
  match s with
  | EmptyString => None
  | String c s' =>
      if Ascii.eqb c "}" then Some EmptyString
      else option_map (String c) (until_close s')
  end.

Fixpoint first_brace_substring (s : string) : option string :=
  match s with
  | EmptyString => None
  | String c s' =>
      if Ascii.eqb c "{" then until_close s' else first_brace_substring s'
  end.

(** The mapping [items] binds [key] to [v]: the entry is there, and no
    entry before it has that key. *)
Definition binds (items : list (pyval * pyval)) (key : string) (v : pyval)
  : Prop :=
  exists before after,
    items = (before ++ (PyStr key, v) :: after)%list
    /\ Forall (fun kv => fst kv <> PyStr key) before.

(** The mapping [items] has no entry for [key]. *)
Definition unbound (items : list (pyval * pyval)) (key : string) : Prop :=
  Forall (fun kv => fst kv <> PyStr key) items.

(** The number [m * 2^e], negated when [negative], cut off towards
    zero. *)
Definition cut_off (negative : bool) (m : positive) (e : Z) : Z :=
  let whole :=
    if (0 <=? e)%Z then (Z.pos m * 2 ^ e)%Z else (Z.pos m / 2 ^ (- e))%Z in
  if negative then (- whole)%Z else whole.

(** The integer value of what a description can carry under
    [replication_factor]: of an integer, a boolean, the decimal text of an
    integer between white space that [int()] drops, and a finite float. *)
Inductive int_value : pyval -> Z -> Prop :=
  | int_value_int (n : Z) : int_value (PyInt n) n
  | int_value_bool (b : bool) : int_value (PyBool b) (if b then 1 else 0)%Z
  | int_value_text (left_pad right_pad : string) (n : Z) :
      all_int_space left_pad = true -> all_int_space right_pad = true ->
      int_value (PyStr (left_pad ++ PyString.str_of_int n ++ right_pad)) n
  | int_value_zero (negative : bool) :
      int_value (PyFloat (S754_zero negative)) 0%Z
  | int_value_float (negative : bool) (m : positive) (e : Z) :
      int_value (PyFloat (S754_finite negative m e)) (cut_off negative m e).

End Notions.

(* ================================================================== *)
(** * The connection probe *)
(* ================================================================== *)

Section ProbeFacts.

Context {store : Type}.
Variable popen : store -> list string -> store * completed.

Import cassandra_connection Notions.
Local Open Scope list_scope.

Lemma attempt_connection_refused (h : string) (pt : Z) (v : string)
    (w : World store) (s' : store) (r : completed) :
  popen (w_store w) (probe_argv h pt v) = (s', r) ->
  returncode r <> 0%Z ->
  attempt_connection popen h pt v w =
    (mkWorld s' (w_calls w ++ [probe_argv h pt v]) (w_sleeps w)
       (w_printed w) (S (w_next_id w)),
     Raise (mkExc (w_next_id w) Exception (stderr r))).
Proof.
  intros Hp Hr.
  unfold attempt_connection, bind, Popen. rewrite Hp.
  apply Z.eqb_neq in Hr. rewrite Hr. reflexivity.
Qed.

Lemma attempt_connection_accepted (h : string) (pt : Z) (v : string)
    (w : World store) (s' : store) (r : completed) :
  popen (w_store w) (probe_argv h pt v) = (s', r) ->
  returncode r = 0%Z ->
  attempt_connection popen h pt v w =
    (mkWorld s' (w_calls w ++ [probe_argv h pt v]) (w_sleeps w)
       (w_printed w) (w_next_id w),
     Ret tt).
Proof.
  intros Hp Hr.
  unfold attempt_connection, bind, Popen. rewrite Hp, Hr. reflexivity.
Qed.

(** An exception object newer than every member of the set is added. *)
Lemma set_add_fresh (e : exc) (errors : list exc) :
  Forall (fun x => exc_id x < exc_id e) errors ->
  set_add e errors = errors ++ [e].
Proof.
  intros Hall. unfold set_add.
  replace (existsb (fun x => Nat.eqb (exc_id x) (exc_id e)) errors)
    with false; [reflexivity|].
  symmetry. induction Hall as [|x l Hx _ IH]; simpl; [reflexivity|].
  rewrite IH, orb_false_r. apply Nat.eqb_neq. lia.
Qed.

Lemma refusals_messages (msg : string) (next n : nat) :
  Forall (fun e => exc_msg e = msg) (refusals msg next n).
Proof.
  unfold refusals. apply Forall_forall. intros e He.
  apply in_map_iff in He. destruct He as (i & <- & _). reflexivity.
Qed.

(** When every run of [cqlsh] fails with [msg] on stderr, the loop makes
    one attempt and one sleep per unit of budget left and then reports
    every exception object it caught. *)
Lemma while_loop_all_refused (msg : string) (p : params) :
  (forall s,
     let r := snd (popen s (probe_argv (host p) (port p) (cql_version p))) in
     returncode r <> 0%Z /\ stderr r = msg) ->
  forall (n fuel : nat) (count : Z) (errors : list exc) (w : World store),
    n <= fuel ->
    (count + Z.of_nat n = retries p)%Z ->
    Forall (fun x => exc_id x < w_next_id w) errors ->
    exists s',
      while_loop popen fuel p count errors w =
        Some (mkWorld s'
                (w_calls w
                   ++ repeat (probe_argv (host p) (port p) (cql_version p)) n)
                (w_sleeps w ++ repeat 1%Z n)
                (w_printed w)
                (w_next_id w + n),
              Exit (FailJson
                      (PyList (map PyExc
                                 (errors ++ refusals msg (w_next_id w) n))))).
Proof.
  intros Hfail n.
  induction n as [|n IH]; intros fuel count errors w Hfuel Hcount Hfresh.
  - exists (w_store w).
    assert (Hlt : (count <? retries p)%Z = false) by (apply Z.ltb_ge; lia).
    destruct fuel; simpl; rewrite Hlt; unfold fail_json, refusals; simpl;
      rewrite !app_nil_r, Nat.add_0_r; destruct w; reflexivity.
  - destruct fuel as [|fuel]; [lia|].
    assert (Hlt : (count <? retries p)%Z = true) by (apply Z.ltb_lt; lia).
    simpl. rewrite Hlt.
    destruct (popen (w_store w)
                (probe_argv (host p) (port p) (cql_version p)))
      as [s1 r] eqn:Hp.
    destruct (Hfail (w_store w)) as [Hr Hm].
    rewrite Hp in Hr, Hm; simpl in Hr, Hm.
    rewrite (attempt_connection_refused _ _ _ _ _ _ Hp Hr).
    rewrite set_add_fresh by exact Hfresh.
    unfold sleep; cbn [w_store w_calls w_sleeps w_printed w_next_id].
    edestruct (IH fuel (count + 1)%Z
                 (errors ++ [mkExc (w_next_id w) Exception (stderr r)])
                 (mkWorld s1
                    (w_calls w
                       ++ [probe_argv (host p) (port p) (cql_version p)])
                    (w_sleeps w ++ [1%Z]) (w_printed w) (S (w_next_id w))))
      as [s' Hs'].
    + lia.
    + lia.
    + cbn [w_next_id]. apply Forall_app. split.
      * eapply Forall_impl; [|exact Hfresh]. cbn. intros; lia.
      * constructor; [cbn; lia|constructor].
    + exists s'. rewrite Hs'.
      cbn [w_store w_calls w_sleeps w_printed w_next_id].
      rewrite Hm. unfold refusals. cbn [seq map repeat].
      rewrite <- !app_assoc. cbn [app].
      replace (S (w_next_id w) + n) with (w_next_id w + S n) by lia.
      reflexivity.
Qed.

(** The loop ends: a budget of [retries] iterations is enough fuel. *)
Lemma while_loop_terminates (p : params) :
  forall (n fuel : nat) (count : Z) (errors : list exc) (w : World store),
    n <= fuel ->
    (retries p - count <= Z.of_nat n)%Z ->
    exists r, while_loop popen fuel p count errors w = Some r.
Proof.
  induction n as [|n IH]; intros fuel count errors w Hfuel Hleft.
  - assert (Hlt : (count <? retries p)%Z = false) by (apply Z.ltb_ge; lia).
    destruct fuel; simpl; rewrite Hlt; eauto.
  - destruct fuel as [|fuel]; [lia|].
    simpl. destruct (count <? retries p)%Z; [|eauto].
    destruct (attempt_connection popen (host p) (port p) (cql_version p) w)
      as [w1 [u|e|r]]; eauto.
    apply IH; lia.
Qed.

Lemma main_terminates (p : params) (fuel : nat) (w : World store) :
  Z.to_nat (retries p) <= fuel ->
  exists r, main popen fuel p w = Some r.
Proof.
  intros Hfuel. unfold main.
  apply (while_loop_terminates p (Z.to_nat (retries p))); lia.
Qed.



(** C9: with a retry budget of 0 the probe runs no attempt and no sleep
    (the world is left as it was) and ends at once in [fail_json] with an
    empty list of errors. *)
Theorem probe_zero_budget (fuel : nat) (h : string) (pt : Z) (v : string)
    (w : World store) :
  main popen fuel (mkParams h pt v 0) w
    = Some (w, Exit (FailJson (PyList []))).
Proof.
  unfold main. destruct fuel; reflexivity.
Qed.

End ProbeFacts.





(* ================================================================== *)
(** * Table reconciliation *)
(* ================================================================== *)

Section StringFacts.

Import PyString.

Lemma string_app_assoc (a b c : string) : (a ++ b) ++ c = a ++ (b ++ c).
Proof. induction a as [|x a IH]; simpl; [reflexivity|now rewrite IH]. Qed.

Lemma rev_string_acc (s acc : string) :
  rev_string acc s = rev_string "" s ++ acc.
Proof.
  revert acc. induction s as [|c s IH]; intros acc; simpl; [reflexivity|].
  rewrite IH, (IH (String c "")). rewrite string_app_assoc. reflexivity.
Qed.

Lemma rev_string_app (a b acc : string) :
  rev_string acc (a ++ b) = rev_string (rev_string acc a) b.
Proof.
  revert acc. induction a as [|c a IH]; intros acc; simpl; [reflexivity|].
  apply IH.
Qed.

Lemma prefix_app (a b : string) : prefix a (a ++ b) = true.
Proof.
  induction a as [|c a IH]; simpl; [destruct b; reflexivity|].
  destruct (ascii_dec c c); [exact IH|contradiction].
Qed.

Lemma endswith_app (a b : string) : endswith (a ++ b) b = true.
Proof.
  unfold endswith.
  rewrite rev_string_app, (rev_string_acc b (rev_string "" a)).
  apply prefix_app.
Qed.

Lemma prefix_app_r (p x y : string) :
  prefix p x = true -> prefix p (x ++ y) = true.
Proof.
  revert x. induction p as [|c p IH]; intros x; simpl.
  - intros _. destruct (x ++ y); reflexivity.
  - destruct x as [|d x]; simpl; [discriminate|].
    destruct (ascii_dec c d); [apply IH|discriminate].
Qed.

Lemma endswith_app_r (a b suffix : string) :
  endswith b suffix = true -> endswith (a ++ b) suffix = true.
Proof.
  unfold endswith. intros H.
  rewrite rev_string_app, (rev_string_acc b (rev_string "" a)).
  now apply prefix_app_r.
Qed.

End StringFacts.

Section TableFacts.

Context {store : Type}.
Variable popen : store -> list string -> store * completed.

Import cassandra_table Notions.
Local Open Scope list_scope.

Lemma validate_column_acc (errors : list string) (col : column) :
  validate_column errors col = errors ++ column_errors col.
Proof.
  unfold column_errors, validate_column.
  destruct (dict_has "name" col), (dict_has "type" col); simpl;
    rewrite <- ?app_assoc, ?app_nil_r; reflexivity.
Qed.

Lemma fold_validate_column (cols : list column) (errors : list string) :
  fold_left validate_column cols errors
    = errors ++ flat_map column_errors cols.
Proof.
  revert errors. induction cols as [|col cols IH]; intros errors; simpl.
  - now rewrite app_nil_r.
  - rewrite IH, validate_column_acc, <- app_assoc. reflexivity.
Qed.

(** The loop of [validate_columns] visits every column: its result is
    the concatenation of what each column adds. *)
Lemma validate_columns_flat_map (cols : list column) :
  validate_columns cols = flat_map column_errors cols.
Proof. unfold validate_columns. now rewrite fold_validate_column. Qed.

Lemma name_missing_reported (cols : list column) (col : column) :
  In col cols -> dict_has "name" col = false ->
  In (name_missing col) (validate_columns cols).
Proof.
  intros Hin Hname. rewrite validate_columns_flat_map.
  apply in_flat_map. exists col. split; [exact Hin|].
  unfold column_errors, validate_column. rewrite Hname. simpl.
  destruct (dict_has "type" col); simpl; auto.
Qed.

Lemma type_missing_reported (cols : list column) (col : column) :
  In col cols -> dict_has "type" col = false ->
  In (type_missing col) (validate_columns cols).
Proof.
  intros Hin Htype. rewrite validate_columns_flat_map.
  apply in_flat_map. exists col. split; [exact Hin|].
  unfold column_errors, validate_column. rewrite Htype. simpl.
  destruct (dict_has "name" col); simpl; auto.
Qed.

Lemma valid_columns_have_fields (cols : list column) (col : column) :
  validate_columns cols = [] -> In col cols ->
  dict_has "name" col = true /\ dict_has "type" col = true.
Proof.
  intros Hvalid Hin.
  destruct (dict_has "name" col) eqn:Hname.
  - destruct (dict_has "type" col) eqn:Htype; [auto|].
    pose proof (type_missing_reported cols col Hin Htype) as H.
    rewrite Hvalid in H. destruct H.
  - pose proof (name_missing_reported cols col Hin Hname) as H.
    rewrite Hvalid in H. destruct H.
Qed.

Lemma dict_has_get (key : string) (col : column) :
  dict_has key col = true -> exists v, dict_get key col = Some v.
Proof.
  induction col as [|[k v] col IH]; simpl; [discriminate|].
  destruct (String.eqb k key); simpl; eauto.
Qed.

(** Columns that pass validation can be rendered: [create_table] meets
    no [KeyError]. *)
Lemma valid_columns_render (cols : list column) :
  validate_columns cols = [] -> exists rendered, render_columns cols = inl rendered.
Proof.
  intros Hvalid.
  assert (Hall : forall col, In col cols ->
            dict_has "name" col = true /\ dict_has "type" col = true)
    by (intros col; apply valid_columns_have_fields; exact Hvalid).
  clear Hvalid. induction cols as [|col cols IH]; simpl; [eauto|].
  destruct (Hall col (or_introl eq_refl)) as [Hn Ht].
  destruct (dict_has_get _ _ Hn) as [n ->].
  destruct (dict_has_get _ _ Ht) as [t ->].
  destruct IH as [done ->]; [intros c Hc; apply Hall; now right|].
  eauto.
Qed.

(** C6: when the columns of a table spec include one that lacks [name]
    and one that lacks [type], [main] ends in [fail_json] with the list of
    validation errors, which names both columns, and the world is as it was
    before: no [cqlsh] was run, and nothing runs after [fail_json]. *)
Theorem invalid_columns_fail_before_any_call (p : params) (w : World store)
    (c1 c2 : column) :
  In c1 (columns p) -> dict_has "name" c1 = false ->
  In c2 (columns p) -> dict_has "type" c2 = false ->
  main popen p w
    = (w, Exit (FailJson (PyList (map PyStr (validate_columns (columns p))))))
  /\ In (name_missing c1) (validate_columns (columns p))
  /\ In (type_missing c2) (validate_columns (columns p)).
Proof.
  intros Hin1 Hname Hin2 Htype.
  pose proof (name_missing_reported _ _ Hin1 Hname) as H1.
  pose proof (type_missing_reported _ _ Hin2 Htype) as H2.
  repeat split; try assumption.
  unfold main, bind.
  destruct (validate_columns (columns p)) as [|e errors]; [destruct H1|].
  reflexivity.
Qed.

End TableFacts.

Lemma invalid_columns_fail_before_any_call_witness :
  cassandra_table.main Fixtures.empty_keyspace_popen
    Fixtures.broken_columns_spec (initial_world [])
  = (initial_world [],
     Exit (FailJson
             (PyList (map PyStr
                        (cassandra_table.validate_columns
                           (cassandra_table.columns
                              Fixtures.broken_columns_spec))))))
  /\ In "'name' missing from current column: {'type': 'text'}"
        (cassandra_table.validate_columns
           (cassandra_table.columns Fixtures.broken_columns_spec))
  /\ In "'type' missing from current column: {'name': 'time'}"
        (cassandra_table.validate_columns
           (cassandra_table.columns Fixtures.broken_columns_spec)).
Proof.
  apply (invalid_columns_fail_before_any_call Fixtures.empty_keyspace_popen
           Fixtures.broken_columns_spec (initial_world [])
           [("type", "text")] [("name", "time")]).
  - simpl; auto.
  - reflexivity.
  - simpl; auto.
  - reflexivity.
Defined.

Section CreateStatement.

Import cassandra_table PyString.

Lemma create_prefix_ends (table : string) (rendered primary_keys : list string) :
  endswith (create_prefix table rendered primary_keys)
    (", PRIMARY KEY (" ++ join ", " primary_keys ++ "))") = true
  /\ endswith (create_prefix table rendered primary_keys) ";" = false.
Proof.
  unfold create_prefix. split.
  - do 3 apply endswith_app_r. apply endswith_app.
  - rewrite <- !string_app_assoc.
    unfold endswith. rewrite rev_string_app. reflexivity.
Qed.

Lemma clustering_clause_ends (by_cols : list string) (direction : string) :
  endswith (clustering_clause by_cols direction) ";" = true.
Proof.
  unfold clustering_clause. do 4 apply endswith_app_r. reflexivity.
Qed.

(** C10: for a table spec whose columns pass validation, the statement
    [create_table] builds stops at the parenthesis that closes the
    [PRIMARY KEY] clause, without a semicolon, when [order_by] is unset or
    empty; only a non-empty [order_by] appends the clustering clause, and
    the semicolon that ends that clause, to it. *)
Theorem create_statement_semicolon (table : string) (cols : list column)
    (primary_keys : list string) (order_by : option (list string))
    (direction : string) :
  validate_columns cols = [] ->
  exists rendered,
    render_columns cols = inl rendered
    /\ (truthy order_by = false ->
         create_table_cmd table cols primary_keys order_by direction
           = inl (create_prefix table rendered primary_keys)
         /\ endswith (create_prefix table rendered primary_keys)
              (", PRIMARY KEY (" ++ join ", " primary_keys ++ "))") = true
         /\ endswith (create_prefix table rendered primary_keys) ";" = false)
    /\ (truthy order_by = true ->
         exists by_cols,
           order_by = Some by_cols
           /\ create_table_cmd table cols primary_keys order_by direction
               = inl (create_prefix table rendered primary_keys
                        ++ clustering_clause by_cols direction)
           /\ endswith (create_prefix table rendered primary_keys
                          ++ clustering_clause by_cols direction) ";" = true).
Proof.
  intros Hvalid.
  destruct (valid_columns_render cols Hvalid) as [rendered Hr].
  exists rendered. split; [exact Hr|].
  unfold create_table_cmd. rewrite Hr. split.
  - intros Hfalse. split.
    + destruct order_by as [[|c cs]|]; [reflexivity|discriminate|reflexivity].
    + apply create_prefix_ends.
  - intros Htrue. destruct order_by as [[|c cs]|]; try discriminate.
    exists (c :: cs). repeat split.
    apply endswith_app_r, clustering_clause_ends.
Qed.

End CreateStatement.

Lemma create_statement_semicolon_witness :
  cassandra_table.create_table_cmd "events"
    (cassandra_table.columns Fixtures.events_spec) ["datastream"; "time"]
    None "ASC"
  = inl "CREATE TABLE events(datastream text, time timestamp, value float, PRIMARY KEY (datastream, time))".
Proof.
  destruct (create_statement_semicolon "events"
              (cassandra_table.columns Fixtures.events_spec)
              ["datastream"; "time"] None "ASC" eq_refl)
    as (rendered & Hr & Hunset & _).
  injection Hr as <-.
  exact (proj1 (Hunset eq_refl)).
Defined.

(** C2: the run of the table module on the [events] spec against a
    keyspace without tables.  [cqlsh] is run twice, for [Describe tables;]
    and for the [CREATE TABLE] statement, and the module reports
    [changed=True]; the statement has no space between the parenthesis that
    closes the column list and [WITH], so it is not the statement the
    specification quotes. *)
Theorem events_create_statement :
  cassandra_table.main Fixtures.empty_keyspace_popen Fixtures.events_spec
    (initial_world [])
  = (mkWorld [Fixtures.events_statement_built]
       [ cassandra_table.cqlsh_argv "127.0.0.1" 9042 "3.4.4" "pluto"
           "Describe tables;";
         cassandra_table.cqlsh_argv "127.0.0.1" 9042 "3.4.4" "pluto"
           Fixtures.events_statement_built ]
       [] [] 0,
     Exit (ExitJson true))
  /\ Fixtures.events_statement_built <> Fixtures.events_statement_expected.
Proof.
  split; [reflexivity|].
  intros H. apply String.eqb_eq in H. vm_compute in H. discriminate H.
Qed.

(* ================================================================== *)
(** * Keyspace reconciliation *)
(* ================================================================== *)

Section BraceGroups.

Import cassandra_keyspace Notions PyString.

Lemma lazy_group_sound (s g : string) :
  lazy_group s = Some g ->
  exists rest, s = g ++ String "}" rest /\ one_line g.
Proof.
  revert g. induction s as [|c s IH]; intros g; simpl; [discriminate|].
  destruct (Ascii.eqb c "}") eqn:Hclose.
  - intros [= <-]. apply Ascii.eqb_eq in Hclose. subst c.
    exists s. repeat split.
  - destruct (Ascii.eqb c newline) eqn:Hnl; [discriminate|].
    destruct (lazy_group s) as [g'|]; simpl; [|discriminate].
    intros [= <-].
    destruct (IH g' eq_refl) as (rest & -> & Hc & Hn).
    exists rest. split; [reflexivity|].
    split; cbn [contains_char]; rewrite Ascii.eqb_sym.
    + now rewrite Hclose.
    + now rewrite Hnl.
Qed.

Lemma lazy_group_complete (g rest : string) :
  one_line g -> lazy_group (g ++ String "}" rest) = Some g.
Proof.
  intros [Hc Hn]. induction g as [|c g IH]; [reflexivity|].
  cbn [contains_char] in Hc, Hn. apply orb_false_elim in Hc, Hn.
  destruct Hc as [Hc Hc'], Hn as [Hn Hn'].
  cbn [append lazy_group].
  rewrite (Ascii.eqb_sym c "}"), Hc, (Ascii.eqb_sym c newline), Hn.
  now rewrite (IH Hc' Hn').
Qed.

Lemma group_at_lazy (c : ascii) (s g : string) :
  group_at (String c s) g <-> c = "{"%char /\ lazy_group s = Some g.
Proof.
  split.
  - intros (rest & [= -> ->] & Hone). split; [reflexivity|].
    now apply lazy_group_complete.
  - intros [-> Hlazy].
    destruct (lazy_group_sound _ _ Hlazy) as (rest & -> & Hone).
    exists rest. now split.
Qed.

Lemma group_at_empty (g : string) : ~ group_at "" g.
Proof. intros (rest & H & _). discriminate H. Qed.

(** What [re.search] returns is the content of the first brace group, *)
Lemma re_search_sound (s g : string) :
  re_search s = Some g -> first_brace_group s g.
Proof.
  revert g. induction s as [|c s IH]; intros g; simpl; [discriminate|].
  assert (Hskip : re_search s = Some g ->
                  (forall g', ~ group_at (String c s) g') ->
                  first_brace_group (String c s) g).
  { intros Hs Hnone.
    destruct (IH g Hs) as (before & after & -> & Hg & Hmin).
    exists (String c before), after. repeat split; [exact Hg|].
    intros b1 b2 g' Hb Hne. destruct b1 as [|x b1]; simpl in Hb.
    - subst b2. apply Hnone.
    - injection Hb as _ ->. exact (Hmin b1 b2 g' eq_refl Hne). }
  destruct (Ascii.eqb c "{") eqn:Hopen.
  - destruct (lazy_group s) as [g0|] eqn:Hlazy.
    + intros [= <-]. apply Ascii.eqb_eq in Hopen.
      exists "", (String c s). repeat split.
      * now apply group_at_lazy.
      * intros b1 b2 g' Hb Hne. destruct b1; [|discriminate Hb].
        simpl in Hb. now subst b2.
    + intros Hs. apply Hskip; [exact Hs|].
      intros g' Hg'. apply group_at_lazy in Hg'. destruct Hg' as [_ Hg'].
      congruence.
  - intros Hs. apply Hskip; [exact Hs|].
    intros g' Hg'. apply group_at_lazy in Hg'. destruct Hg' as [-> _].
    discriminate Hopen.
Qed.

(** and the content of the first brace group is what [re.search] returns. *)
Lemma re_search_complete (s g : string) :
  first_brace_group s g -> re_search s = Some g.
Proof.
  intros (before & after & -> & Hg & Hmin).
  induction before as [|c before IH]; simpl.
  - destruct after as [|c after]; [now apply group_at_empty in Hg|].
    apply group_at_lazy in Hg. destruct Hg as [-> Hlazy].
    simpl. now rewrite Hlazy.
  - assert (Hnone : forall g', ~ group_at (String c (before ++ after)) g').
    { intros g'. apply (Hmin "" (String c before) g'); [reflexivity|discriminate]. }
    assert (Hrest : re_search (before ++ after) = Some g).
    { apply IH. intros b1 b2 g' Hb Hne.
      apply (Hmin (String c b1) b2 g'); [simpl; now rewrite Hb|exact Hne]. }
    destruct (Ascii.eqb c "{") eqn:Hopen; [|exact Hrest].
    destruct (lazy_group (before ++ after)) as [g0|] eqn:Hlazy; [|exact Hrest].
    exfalso. apply (Hnone g0). apply group_at_lazy.
    apply Ascii.eqb_eq in Hopen. now split.
Qed.

Lemma re_search_none (s : string) :
  re_search s = None <-> no_brace_group s.
Proof.
  split.
  - induction s as [|c s IH]; intros Hs before after g Hsplit Hg.
    + destruct before; [|discriminate Hsplit]. simpl in Hsplit. subst after.
      now apply group_at_empty in Hg.
    + assert (Hrest : re_search s = None).
      { simpl in Hs. destruct (Ascii.eqb c "{"); [|exact Hs].
        destruct (lazy_group s); [discriminate|exact Hs]. }
      destruct before as [|x before]; simpl in Hsplit.
      * subst after. apply group_at_lazy in Hg. destruct Hg as [-> Hlazy].
        simpl in Hs. rewrite Hlazy in Hs. discriminate Hs.
      * injection Hsplit as _ Hsplit.
        exact (IH Hrest before after g Hsplit Hg).
  - intros Hnone. destruct (re_search s) as [g|] eqn:Hs; [|reflexivity].
    destruct (re_search_sound _ _ Hs) as (before & after & Hsplit & Hg & _).
    exfalso. exact (Hnone before after g Hsplit Hg).
Qed.

(** The three ways through [parse_replication_factor], in terms of the
    lookup and the conversion it uses. *)
Lemma parse_replication_factor_cases
    (literal_eval : string -> evaluated pyval) (out : string) :
  (forall n,
     parse_replication_factor literal_eval out = inl n <->
     exists g items v,
       first_brace_group out g
       /\ literal_eval ("{" ++ g ++ "}") = inl (PyDict items)
       /\ dict_get "replication_factor" items = Some v
       /\ py_int v = inl n)
  /\ (no_brace_group out ->
      exists msg,
        parse_replication_factor literal_eval out = inr (AttributeError, msg))
  /\ (forall g items,
        first_brace_group out g ->
        literal_eval ("{" ++ g ++ "}") = inl (PyDict items) ->
        dict_get "replication_factor" items = None ->
        exists msg,
          parse_replication_factor literal_eval out = inr (KeyError, msg)).
Proof.
  unfold parse_replication_factor. repeat split.
  - destruct (re_search out) as [g|] eqn:Hs; [|discriminate].
    destruct (literal_eval ("{" ++ g ++ "}")) as [d|e] eqn:Hd; [|discriminate].
    destruct d as [| | | | | |items| | | | | |]; simpl; try discriminate.
    destruct (dict_get "replication_factor" items) as [v|] eqn:Hv;
      [|discriminate].
    intros Hn. exists g, items, v.
    repeat split; auto using re_search_sound.
  - intros (g & items & v & Hg & Hd & Hv & Hn).
    rewrite (re_search_complete _ _ Hg), Hd. simpl. now rewrite Hv.
  - intros Hnone. apply re_search_none in Hnone. rewrite Hnone. eauto.
  - intros g items Hg Hd Hv.
    rewrite (re_search_complete _ _ Hg), Hd. simpl. rewrite Hv. eauto.
Qed.

End BraceGroups.

Section KeyspaceFacts.

Context {store : Type}.
Variable popen : store -> list string -> store * completed.
Variable literal_eval : string -> cassandra_keyspace.evaluated pyval.

Import cassandra_keyspace Notions.
Local Open Scope list_scope.

Lemma keyspace_already_exists_returns (p : params) (w : World store)
    (s' : store) (r : completed) :
  popen (w_store w) (list_argv p) = (s', r) ->
  returncode r = 0%Z ->
  call popen literal_eval "keyspace_already_exists"
    [PyStr (name p); PyStr (host p); PyInt (port p); PyStr (cql_version p)] w
  = (listed p w s',
     Ret (PyBool (PyString.mem (name p) (PyString.split (stdout r))))).
Proof.
  intros Hp Hr.
  change (call popen literal_eval "keyspace_already_exists"
            [PyStr (name p); PyStr (host p); PyInt (port p);
             PyStr (cql_version p)] w)
    with (keyspace_already_exists popen
            [PyStr (name p); PyStr (host p); PyInt (port p);
             PyStr (cql_version p)] w).
  unfold keyspace_already_exists, bind, print, Popen.
  cbn [w_store w_calls w_sleeps w_printed w_next_id].
  fold (list_argv p). rewrite Hp, Hr.
  unfold listed. rewrite <- app_assoc. reflexivity.
Qed.

Lemma get_current_replication_factor_returns (p : params) (w : World store)
    (s' : store) (r : completed) (n : Z) :
  popen (w_store w) (describe_argv p) = (s', r) ->
  returncode r = 0%Z ->
  parse_replication_factor literal_eval (stdout r) = inl n ->
  call popen literal_eval "get_current_replication_factor"
    [PyStr (name p); PyStr (host p); PyInt (port p); PyStr (cql_version p)] w
  = (mkWorld s' (w_calls w ++ [describe_argv p]) (w_sleeps w) (w_printed w)
       (w_next_id w),
     Ret (PyInt n)).
Proof.
  intros Hp Hr Hn.
  change (call popen literal_eval "get_current_replication_factor"
            [PyStr (name p); PyStr (host p); PyInt (port p);
             PyStr (cql_version p)] w)
    with (get_current_replication_factor popen literal_eval
            [PyStr (name p); PyStr (host p); PyInt (port p);
             PyStr (cql_version p)] w).
  unfold get_current_replication_factor, bind, Popen.
  fold (describe_argv p). rewrite Hp, Hr, Hn. reflexivity.
Qed.

(** The name [main] calls on the drop path is bound to nothing. *)
Lemma delete_keyspace_unbound (args : list pyval) (w : World store) :
  call popen literal_eval "delete_keyspace" args w
  = raise NameError "name 'delete_keyspace' is not defined" w.
Proof. reflexivity. Qed.

(** [update_keyspace_replication] has five parameters; [main] passes
    three values. *)
Lemma update_keyspace_replication_three_arguments (a b c : pyval)
    (w : World store) :
  call popen literal_eval "update_keyspace_replication" [a; b; c] w
  = raise TypeError
      "update_keyspace_replication() missing 2 required positional arguments: 'cql_version' and 'replication_factor'"
      w.
Proof. reflexivity. Qed.

(** C5: the routine [main] calls to drop a keyspace, [delete_keyspace],
    is none of the routines the module defines; so whenever the desired
    state is [absent] and the keyspace is listed, [main] ends in
    [fail_json] with the [NameError] (never in [exit_json(changed=True)]),
    after the one [cqlsh] run that listed the keyspaces. *)
Theorem drop_path_always_fails (p : params) (w : World store) (s' : store)
    (r : completed) :
  state p = absent ->
  popen (w_store w) (list_argv p) = (s', r) ->
  returncode r = 0%Z ->
  PyString.mem (name p) (PyString.split (stdout r)) = true ->
  ~ In "delete_keyspace" (defined_routines popen literal_eval)
  /\ main popen literal_eval p w
     = (mkWorld s' (w_calls w ++ [list_argv p]) (w_sleeps w)
          (w_printed w ++ [host p] ++ [PyString.str_of_int (port p)])
          (S (w_next_id w)),
        Exit (FailJson
                (PyStr
                   "Error deleting keyspace: name 'delete_keyspace' is not defined")))
  /\ snd (main popen literal_eval p w) <> Exit (ExitJson true).
Proof.
  intros Hstate Hp Hr Hmem.
  assert (Hrun : main popen literal_eval p w
     = (mkWorld s' (w_calls w ++ [list_argv p]) (w_sleeps w)
          (w_printed w ++ [host p] ++ [PyString.str_of_int (port p)])
          (S (w_next_id w)),
        Exit (FailJson
                (PyStr
                   "Error deleting keyspace: name 'delete_keyspace' is not defined")))).
  { unfold main, bind, try_except_else.
    rewrite (keyspace_already_exists_returns p w s' r Hp Hr).
    unfold ret. rewrite Hstate, Hmem. cbn [truthy].
    rewrite delete_keyspace_unbound. reflexivity. }
  repeat split.
  - cbn. intros H. repeat (destruct H as [H|H]; [discriminate H|]). exact H.
  - exact Hrun.
  - rewrite Hrun. discriminate.
Qed.

(** The alter path of [main]: whenever the keyspace is listed and its
    replication factor is read and differs from the desired one, [main]
    ends in [fail_json] with the [TypeError] of the call; [cqlsh] ran for
    the two queries only, so no [ALTER KEYSPACE] was sent. *)
Lemma alter_path_always_fails (p : params) (w : World store) (s1 s2 : store)
    (r1 r2 : completed) (n : Z) :
  state p = present ->
  popen (w_store w) (list_argv p) = (s1, r1) ->
  returncode r1 = 0%Z ->
  PyString.mem (name p) (PyString.split (stdout r1)) = true ->
  popen s1 (describe_argv p) = (s2, r2) ->
  returncode r2 = 0%Z ->
  parse_replication_factor literal_eval (stdout r2) = inl n ->
  n <> replication_factor p ->
  main popen literal_eval p w
  = (mkWorld s2 (w_calls w ++ [list_argv p; describe_argv p]) (w_sleeps w)
       (w_printed w ++ [host p] ++ [PyString.str_of_int (port p)])
       (S (w_next_id w)),
     Exit (FailJson
             (PyStr
                "Error updating keyspace: update_keyspace_replication() missing 2 required positional arguments: 'cql_version' and 'replication_factor'"))).
Proof.
  intros Hstate Hp1 Hr1 Hmem Hp2 Hr2 Hn Hne.
  unfold main, bind, try_except_else.
  rewrite (keyspace_already_exists_returns p w s1 r1 Hp1 Hr1).
  unfold ret. rewrite Hstate, Hmem. cbn [truthy].
  rewrite (get_current_replication_factor_returns p (listed p w s1) s2 r2 n
             Hp2 Hr2 Hn).
  cbn [int_ne]. apply Z.eqb_neq in Hne. rewrite Hne. cbn [negb].
  rewrite update_keyspace_replication_three_arguments.
  unfold listed. cbn [w_calls w_sleeps w_printed w_next_id raise fail_json].
  rewrite <- app_assoc. reflexivity.
Qed.

End KeyspaceFacts.

Lemma drop_path_always_fails_witness :
  ~ In "delete_keyspace"
      (cassandra_keyspace.defined_routines Fixtures.pluto_popen
         Fixtures.flat_literal_eval)
  /\ Fixtures.keyspace_main
       (Fixtures.pluto_spec 1 cassandra_keyspace.absent)
       (initial_world (Some 1%Z))
     = (mkWorld (Some 1%Z)
          [Notions.list_argv (Fixtures.pluto_spec 1 cassandra_keyspace.absent)]
          [] ["127.0.0.1"; "9042"] 1,
        Exit (FailJson
                (PyStr
                   "Error deleting keyspace: name 'delete_keyspace' is not defined")))
  /\ snd (Fixtures.keyspace_main
            (Fixtures.pluto_spec 1 cassandra_keyspace.absent)
            (initial_world (Some 1%Z)))
     <> Exit (ExitJson true).
Proof.
  apply (drop_path_always_fails Fixtures.pluto_popen
           Fixtures.flat_literal_eval
           (Fixtures.pluto_spec 1 cassandra_keyspace.absent)
           (initial_world (Some 1%Z)) (Some 1%Z)
           (Fixtures.ok (Fixtures.describe_keyspaces (Some 1%Z)))).
  - reflexivity.
  - reflexivity.
  - reflexivity.
  - reflexivity.
Defined.

(** C1: the run of the keyspace module on a cluster where [pluto] has
    replication factor 1, with a desired factor of 3.  [cqlsh] is run for
    the two queries and for nothing else, the module ends in [fail_json]
    with the [TypeError] of the call of [update_keyspace_replication], and
    the replication factor is still 1. *)
Theorem replication_drift_run :
  Fixtures.keyspace_main (Fixtures.pluto_spec 3 cassandra_keyspace.present)
    (initial_world (Some 1%Z))
  = (mkWorld (Some 1%Z)
       [ Notions.list_argv (Fixtures.pluto_spec 3 cassandra_keyspace.present);
         Notions.describe_argv
           (Fixtures.pluto_spec 3 cassandra_keyspace.present) ]
       [] ["127.0.0.1"; "9042"] 1,
     Exit (FailJson
             (PyStr
                "Error updating keyspace: update_keyspace_replication() missing 2 required positional arguments: 'cql_version' and 'replication_factor'"))).
Proof. reflexivity. Qed.


(** On the paths that do converge, a second run reports no change. *)
Lemma reconcile_twice_converges :
  Fixtures.keyspace_twice (Fixtures.pluto_spec 3 cassandra_keyspace.present)
    None
  = (Exit (ExitJson true), Exit (ExitJson false), Some 3%Z)
  /\ Fixtures.keyspace_twice (Fixtures.pluto_spec 3 cassandra_keyspace.present)
       (Some 3%Z)
     = (Exit (ExitJson false), Exit (ExitJson false), Some 3%Z)
  /\ Fixtures.keyspace_twice (Fixtures.pluto_spec 3 cassandra_keyspace.absent)
       None
     = (Exit (ExitJson false), Exit (ExitJson false), None)
  /\ Fixtures.table_twice Fixtures.events_spec []
     = (Exit (ExitJson true), Exit (ExitJson false), ["events"])
  /\ Fixtures.table_twice Fixtures.events_absent ["events"]
     = (Exit (ExitJson true), Exit (ExitJson false), []).
Proof. repeat split. Qed.

(* ================================================================== *)
(** * More on the connection probe *)
(* ================================================================== *)

Section ProbeBounds.

Context {store : Type}.
Variable popen : store -> list string -> store * completed.

Import cassandra_connection Notions.
Local Open Scope list_scope.




(** A budget that is zero or negative: no attempt, no sleep, an empty
    list of errors, whatever the fuel. *)
Theorem probe_without_budget (p : params) (fuel : nat) (w : World store) :
  (retries p <= 0)%Z ->
  main popen fuel p w = Some (w, Exit (FailJson (PyList []))).
Proof.
  intros Hretries. unfold main.
  assert (Hlt : (0 <? retries p)%Z = false) by (apply Z.ltb_ge; lia).
  destruct fuel; cbn [while_loop]; rewrite Hlt; reflexivity.
Qed.

(** A host that refuses every run of the probe query with [msg] on
    stderr, and a budget of [n]: [n] runs, [n] sleeps of one second, and a
    list of [n] exception objects, each with the message [msg].  Equal
    messages are not merged. *)
Theorem probe_refused_throughout (msg : string) (p : params) (n fuel : nat)
    (w : World store) :
  retries p = Z.of_nat n ->
  n <= fuel ->
  (forall s,
     let r := snd (popen s (probe_argv (host p) (port p) (cql_version p))) in
     returncode r <> 0%Z /\ stderr r = msg) ->
  exists w' caught,
    main popen fuel p w
      = Some (w', Exit (FailJson (PyList (map PyExc caught))))
    /\ w_calls w'
        = w_calls w ++ repeat (probe_argv (host p) (port p) (cql_version p)) n
    /\ w_sleeps w' = w_sleeps w ++ repeat 1%Z n
    /\ List.length caught = n
    /\ NoDup (map exc_id caught)
    /\ Forall (fun e => exc_msg e = msg) caught.
Proof.
  intros Hretries Hfuel Hfail.
  destruct (while_loop_all_refused popen msg p Hfail n fuel 0%Z [] w Hfuel)
    as [s' Hs']; [lia|constructor|].
  eexists. exists (refusals msg (w_next_id w) n).
  split; [exact Hs'|]. cbn [w_calls w_sleeps].
  repeat split.
  - unfold refusals. now rewrite length_map, length_seq.
  - unfold refusals. rewrite map_map. cbn [exc_id]. rewrite map_id.
    apply seq_NoDup.
  - apply refusals_messages.
Qed.

(** [k] refused runs and then a run that succeeds, with a budget above
    [k]: the probe reports [changed=False] after [k + 1] runs and [k]
    sleeps, and stops there. *)
Theorem probe_succeeds_after_refusals (p : params) (k fuel : nat)
    (w : World store) (sk s' : store) (r : completed) :
  (Z.of_nat k < retries p)%Z ->
  k < fuel ->
  refused_runs popen (probe_argv (host p) (port p) (cql_version p)) k
    (w_store w) = Some sk ->
  popen sk (probe_argv (host p) (port p) (cql_version p)) = (s', r) ->
  returncode r = 0%Z ->
  main popen fuel p w
  = Some (mkWorld s'
            (w_calls w
               ++ repeat (probe_argv (host p) (port p) (cql_version p)) (S k))
            (w_sleeps w ++ repeat 1%Z k)
            (w_printed w)
            (w_next_id w + k),
          Exit (ExitJson false)).
Proof.
  intros Hbudget Hfuel Hruns Hp Hr. unfold main.
  assert (Hgen : forall (j : nat) (count : Z) (errors : list exc)
                   (w0 : World store) (fuel0 : nat),
             (count + Z.of_nat j < retries p)%Z ->
             j < fuel0 ->
             Forall (fun x => exc_id x < w_next_id w0) errors ->
             refused_runs popen
               (probe_argv (host p) (port p) (cql_version p)) j (w_store w0)
               = Some sk ->
             while_loop popen fuel0 p count errors w0
             = Some (mkWorld s'
                       (w_calls w0
                          ++ repeat
                               (probe_argv (host p) (port p) (cql_version p))
                               (S j))
                       (w_sleeps w0 ++ repeat 1%Z j)
                       (w_printed w0)
                       (w_next_id w0 + j),
                     Exit (ExitJson false))).
  { induction j as [|j IH]; intros count errors w0 fuel0 Hc Hf Hfresh Hj;
      (destruct fuel0 as [|fuel0]; [lia|]);
      cbn [while_loop];
      (replace (count <? retries p)%Z with true
         by (symmetry; apply Z.ltb_lt; lia)).
    - cbn [refused_runs] in Hj. injection Hj as Hj.
      rewrite <- Hj in Hp.
      rewrite (attempt_connection_accepted popen _ _ _ w0 s' r Hp Hr).
      cbn [exit_json repeat]. rewrite app_nil_r, Nat.add_0_r. reflexivity.
    - cbn [refused_runs] in Hj.
      destruct (popen (w_store w0)
                  (probe_argv (host p) (port p) (cql_version p)))
        as [s1 r1] eqn:Hp1.
      destruct (returncode r1 =? 0)%Z eqn:Hr1; [discriminate Hj|].
      apply Z.eqb_neq in Hr1.
      rewrite (attempt_connection_refused popen _ _ _ w0 s1 r1 Hp1 Hr1).
      rewrite set_add_fresh by exact Hfresh.
      unfold sleep; cbn [w_store w_calls w_sleeps w_printed w_next_id].
      rewrite (IH (count + 1)%Z); cbn [w_store w_calls w_sleeps w_printed
                                        w_next_id].
      + rewrite <- !app_assoc. cbn [app repeat].
        replace (S (w_next_id w0) + j) with (w_next_id w0 + S j) by lia.
        reflexivity.
      + lia.
      + lia.
      + apply Forall_app. split.
        * eapply Forall_impl; [|exact Hfresh]. cbn. intros; lia.
        * constructor; [cbn; lia|constructor].
      + exact Hj. }
  apply Hgen; [lia|exact Hfuel|constructor|exact Hruns].
Qed.

End ProbeBounds.


Lemma probe_without_budget_witness :
  cassandra_connection.main Fixtures.refusing_popen 0
    (Fixtures.probe_params (-2)) (initial_world tt)
  = Some (initial_world tt, Exit (FailJson (PyList []))).
Proof.
  apply (probe_without_budget Fixtures.refusing_popen
           (Fixtures.probe_params (-2)) 0 (initial_world tt)).
  simpl. lia.
Defined.

Lemma probe_refused_throughout_witness :
  exists w' caught,
    cassandra_connection.main Fixtures.refusing_popen 5
      (Fixtures.probe_params 5) (initial_world tt)
      = Some (w', Exit (FailJson (PyList (map PyExc caught))))
    /\ w_calls w'
        = repeat (cassandra_connection.probe_argv "127.0.0.1" 9042 "3.4.4") 5
    /\ w_sleeps w' = repeat 1%Z 5
    /\ List.length caught = 5
    /\ NoDup (map exc_id caught)
    /\ Forall (fun e => exc_msg e = "connection refused") caught.
Proof.
  apply (probe_refused_throughout Fixtures.refusing_popen "connection refused"
           (Fixtures.probe_params 5) 5 5 (initial_world tt)).
  - reflexivity.
  - lia.
  - intros s. split; [discriminate|reflexivity].
Defined.

Lemma probe_succeeds_after_refusals_witness :
  cassandra_connection.main Fixtures.waking_popen 3
    (Fixtures.probe_params 3) (initial_world 0)
  = Some (mkWorld 2
            (repeat (cassandra_connection.probe_argv "127.0.0.1" 9042 "3.4.4")
               2)
            [1%Z] [] 1,
          Exit (ExitJson false)).
Proof.
  apply (probe_succeeds_after_refusals Fixtures.waking_popen
           (Fixtures.probe_params 3) 1 3 (initial_world 0) 1 2
           (Fixtures.ok "")).
  - simpl. lia.
  - lia.
  - reflexivity.
  - reflexivity.
  - reflexivity.
Defined.

(* ================================================================== *)
(** * More on [str.split] and the listings *)
(* ================================================================== *)

Section SplitFacts.

Import PyString Notions.
Local Open Scope list_scope.

Lemma string_app_empty (a : string) : (a ++ "")%string = a.
Proof. induction a as [|x a IH]; simpl; [reflexivity|now rewrite IH]. Qed.

Lemma has_space_app (a b : string) :
  has_space (a ++ b)%string = has_space a || has_space b.
Proof.
  induction a as [|c a IH]; cbn [append has_space]; [reflexivity|].
  now rewrite IH, orb_assoc.
Qed.

Lemma in_flush (t tok : string) (rest : list string) :
  In t (flush tok rest) -> (t = tok /\ tok <> ""%string) \/ In t rest.
Proof.
  destruct tok; cbn [flush]; [now right|].
  intros [<-|H]; [left; split; [reflexivity|discriminate]|now right].
Qed.

Lemma split_from_tokens (s tok t : string) :
  has_space tok = false -> In t (split_from tok s) -> token t.
Proof.
  revert tok. induction s as [|c s IH]; intros tok Htok; cbn [split_from].
  - intros H. apply in_flush in H. destruct H as [[-> Hne]|[]].
    now split.
  - destruct (is_space c) eqn:Hc.
    + intros H. apply in_flush in H. destruct H as [[-> Hne]|H].
      * now split.
      * now apply (IH ""%string).
    + apply IH. rewrite has_space_app. cbn [has_space].
      now rewrite Htok, Hc.
Qed.

(** [str.split()] yields tokens only: no element is empty, none holds
    white space. *)
Lemma split_tokens (s t : string) : In t (split s) -> token t.
Proof. unfold split. now apply split_from_tokens. Qed.

Lemma mem_In (x : string) (xs : list string) :
  mem x xs = true <-> In x xs.
Proof.
  unfold mem. rewrite existsb_exists. split.
  - intros (y & Hy & Heq). apply String.eqb_eq in Heq. now subst.
  - intros H. exists x. split; [exact H|apply String.eqb_refl].
Qed.

(** A name that is empty or holds white space is in no listing, whatever
    [cqlsh] printed. *)
Theorem untokenizable_name_never_listed (x out : string) :
  x = ""%string \/ has_space x = true ->
  mem x (split out) = false.
Proof.
  intros Hx. destruct (mem x (split out)) eqn:Hmem; [|reflexivity].
  apply mem_In in Hmem. apply split_tokens in Hmem.
  destruct Hmem as [Hne Hsp]. destruct Hx as [->|Hx]; [now elim Hne|congruence].
Qed.

Lemma split_from_token (t tok rest : string) :
  has_space t = false ->
  split_from tok (t ++ rest)%string = split_from (tok ++ t)%string rest.
Proof.
  revert tok. induction t as [|c t IH]; intros tok Ht.
  - cbn [append]. now rewrite string_app_empty.
  - cbn [has_space] in Ht. apply orb_false_elim in Ht. destruct Ht as [Hc Ht].
    cbn [append split_from]. rewrite Hc, (IH _ Ht).
    now rewrite string_app_assoc.
Qed.

Lemma split_from_spaces (sep rest : string) :
  all_space sep = true ->
  split_from ""%string (sep ++ rest)%string = split_from ""%string rest.
Proof.
  induction sep as [|c sep IH]; intros Hsep; [reflexivity|].
  cbn [all_space] in Hsep. apply andb_prop in Hsep. destruct Hsep as [Hc Hsep].
  cbn [append split_from]. rewrite Hc. cbn [flush]. now apply IH.
Qed.

Lemma split_from_token_end (t : string) :
  token t -> split_from t ""%string = [t].
Proof. intros [Hne _]. destruct t; [now elim Hne|reflexivity]. Qed.

Lemma split_from_token_sep (t sep rest : string) :
  token t -> sep <> ""%string -> all_space sep = true ->
  split_from t (sep ++ rest)%string = t :: split_from ""%string rest.
Proof.
  intros [Hne _] Hsep Hall. destruct sep as [|c sep]; [now elim Hsep|].
  cbn [all_space] in Hall. apply andb_prop in Hall. destruct Hall as [Hc Hall].
  cbn [append split_from]. rewrite Hc.
  rewrite (split_from_spaces sep rest Hall).
  destruct t; [now elim Hne|reflexivity].
Qed.

Lemma split_of_join (sep : string) (names : list string) :
  sep <> ""%string -> all_space sep = true ->
  Forall token names ->
  split (join sep names) = names.
Proof.
  intros Hsep Hall Hnames. unfold split.
  induction Hnames as [|t names Ht Hnames IH]; [reflexivity|].
  destruct names as [|u names].
  - cbn [join]. rewrite <- (string_app_empty t) at 1.
    rewrite (split_from_token t ""%string ""%string (proj2 Ht)).
    cbn [append]. now apply split_from_token_end.
  - change (join sep (t :: u :: names))
      with (t ++ (sep ++ join sep (u :: names)))%string.
    rewrite (split_from_token t ""%string _ (proj2 Ht)). cbn [append].
    rewrite (split_from_token_sep t sep _ Ht Hsep Hall).
    now rewrite IH.
Qed.

(** Round trip: names joined by a separator made of white space come
    back from [split] as they were, in the same order. *)
Theorem split_join (sep : string) (names : list string) :
  sep <> ""%string -> all_space sep = true ->
  Forall token names ->
  split (join sep names) = names.
Proof. apply split_of_join. Qed.

(** So a listing that prints the names in [names], separated by white
    space, makes the modules find exactly those names. *)
Theorem listed_iff_printed (sep x : string) (names : list string) :
  sep <> ""%string -> all_space sep = true ->
  Forall token names ->
  mem x (split (join sep names)) = true <-> In x names.
Proof.
  intros Hsep Hall Hnames. rewrite (split_of_join sep names Hsep Hall Hnames).
  apply mem_In.
Qed.

End SplitFacts.

Lemma untokenizable_name_never_listed_witness :
  PyString.mem "my table"
    (PyString.split (Fixtures.nl ++ "my table  events" ++ Fixtures.nl))
  = false.
Proof.
  apply (untokenizable_name_never_listed "my table").
  right. reflexivity.
Defined.

Lemma split_join_witness :
  PyString.split (PyString.join "  " ["system"; "pluto"; "system_auth"])
  = ["system"; "pluto"; "system_auth"].
Proof.
  apply (split_join "  " ["system"; "pluto"; "system_auth"]).
  - discriminate.
  - reflexivity.
  - repeat constructor; discriminate.
Defined.

Lemma listed_iff_printed_witness :
  PyString.mem "pluto"
    (PyString.split (PyString.join "  " ["system"; "pluto"; "system_auth"]))
  = true
  <-> In "pluto" ["system"; "pluto"; "system_auth"].
Proof.
  apply (listed_iff_printed "  " "pluto" ["system"; "pluto"; "system_auth"]).
  - discriminate.
  - reflexivity.
  - repeat constructor; discriminate.
Defined.

(* ================================================================== *)
(** * More on table reconciliation *)
(* ================================================================== *)

Section TableRuns.

Context {store : Type}.
Variable popen : store -> list string -> store * completed.

Import cassandra_table Notions.
Local Open Scope list_scope.

Lemma valid_iff_all_fields (cols : list column) :
  validate_columns cols = []
  <-> Forall (fun col => dict_has "name" col = true
                         /\ dict_has "type" col = true) cols.
Proof.
  split.
  - intros Hvalid. apply Forall_forall. intros col Hin.
    now apply (valid_columns_have_fields cols).
  - intros Hall. rewrite validate_columns_flat_map.
    induction Hall as [|col cols [Hn Ht] _ IH]; [reflexivity|].
    cbn [flat_map]. rewrite IH.
    unfold column_errors, validate_column. now rewrite Hn, Ht.
Qed.

(** Validation passes exactly when every column has both fields. *)
Theorem validate_columns_empty_iff (cols : list column) :
  validate_columns cols = []
  <-> Forall (fun col => dict_has "name" col = true
                         /\ dict_has "type" col = true) cols.
Proof. apply valid_iff_all_fields. Qed.

Lemma render_columns_length (cols : list column) (rendered : list string) :
  render_columns cols = inl rendered ->
  List.length rendered = List.length cols.
Proof.
  revert rendered. induction cols as [|col cols IH]; intros rendered;
    cbn [render_columns].
  - now intros [= <-].
  - destruct (dict_get "name" col); [|discriminate].
    destruct (dict_get "type" col); [|discriminate].
    destruct (render_columns cols) as [done|]; [|discriminate].
    intros [= <-]. cbn [List.length]. now rewrite (IH done).
Qed.

Lemma dict_get_has (key : string) (col : column) (v : string) :
  dict_get key col = Some v -> dict_has key col = true.
Proof.
  induction col as [|[k v'] col IH]; cbn [dict_get dict_has existsb fst];
    [discriminate|].
  destruct (String.eqb k key); [reflexivity|]. exact IH.
Qed.

Lemma renders_iff_valid (cols : list column) :
  (exists rendered,
     render_columns cols = inl rendered
     /\ List.length rendered = List.length cols)
  <-> validate_columns cols = [].
Proof.
  split.
  - intros (rendered & Hr & _). apply valid_iff_all_fields.
    revert rendered Hr. induction cols as [|col cols IH]; intros rendered;
      cbn [render_columns]; [constructor|].
    destruct (dict_get "name" col) as [n|] eqn:Hn; [|discriminate].
    destruct (dict_get "type" col) as [t|] eqn:Ht; [|discriminate].
    destruct (render_columns cols) as [done|]; [|discriminate].
    intros _. constructor.
    + split; eapply dict_get_has; eassumption.
    + now apply (IH done).
  - intros Hvalid. destruct (valid_columns_render cols Hvalid) as [rendered Hr].
    exists rendered. split; [exact Hr|].
    now apply render_columns_length.
Qed.

(** Validation is what stands between [create_table] and a [KeyError]:
    the columns can be rendered, one text per column, exactly when
    [validate_columns] finds nothing. *)
Theorem render_columns_iff_valid (cols : list column) :
  (exists rendered,
     render_columns cols = inl rendered
     /\ List.length rendered = List.length cols)
  <-> validate_columns cols = [].
Proof. apply renders_iff_valid. Qed.

(** The two ways [table_already_exists] can end. *)
Lemma table_already_exists_cases (p : params) (w : World store) :
  exists s' r,
    popen (w_store w) (tables_argv p) = (s', r)
    /\ ((returncode r <> 0%Z
         /\ table_already_exists popen (keyspace p) (name p) (host p) (port p)
              (cql_version p) w
            = (mkWorld s' (w_calls w ++ [tables_argv p]) (w_sleeps w)
                 (w_printed w) (S (w_next_id w)),
               Raise (mkExc (w_next_id w) Exception (bad_returncode r))))
        \/ (returncode r = 0%Z
            /\ table_already_exists popen (keyspace p) (name p) (host p)
                 (port p) (cql_version p) w
               = (mkWorld s' (w_calls w ++ [tables_argv p]) (w_sleeps w)
                    (w_printed w) (w_next_id w),
                  Ret (PyString.mem (name p) (PyString.split (stdout r)))))).
Proof.
  destruct (popen (w_store w) (tables_argv p)) as [s' r] eqn:Hp.
  exists s', r. split; [reflexivity|].
  unfold table_already_exists, bind, Popen. fold (tables_argv p). rewrite Hp.
  destruct (Z.eq_dec (returncode r) 0) as [Hr|Hr].
  - right. split; [exact Hr|]. rewrite Hr. reflexivity.
  - left. split; [exact Hr|]. apply Z.eqb_neq in Hr. rewrite Hr. reflexivity.
Qed.

(** A statement sent through [cqlsh -k keyspace -e cmd] and the check of
    the status that follows it in [create_table] and [drop_table]. *)
Lemma statement_cases (p : params) (cmd : string) (w : World store) :
  exists s' r,
    popen (w_store w) (statement_argv p cmd) = (s', r)
    /\ bind (Popen popen (statement_argv p cmd))
          (fun process =>
             if negb (returncode process =? 0)%Z
             then raise Exception (bad_returncode process)
             else ret tt) w
       = if (returncode r =? 0)%Z
         then (mkWorld s' (w_calls w ++ [statement_argv p cmd]) (w_sleeps w)
                 (w_printed w) (w_next_id w),
               Ret tt)
         else (mkWorld s' (w_calls w ++ [statement_argv p cmd]) (w_sleeps w)
                 (w_printed w) (S (w_next_id w)),
               Raise (mkExc (w_next_id w) Exception (bad_returncode r))).
Proof.
  destruct (popen (w_store w) (statement_argv p cmd)) as [s' r] eqn:Hp.
  exists s', r. split; [reflexivity|].
  unfold bind, Popen. rewrite Hp.
  destruct (returncode r =? 0)%Z; reflexivity.
Qed.

(** When the listing fails, [main] reports the exception and stops: the
    listing is the only run of [cqlsh]. *)
Theorem table_listing_failure_reported (p : params) (w : World store)
    (s' : store) (r : completed) :
  validate_columns (columns p) = [] ->
  popen (w_store w) (tables_argv p) = (s', r) ->
  returncode r <> 0%Z ->
  main popen p w
  = (mkWorld s' (w_calls w ++ [tables_argv p]) (w_sleeps w) (w_printed w)
       (S (w_next_id w)),
     Exit (FailJson
             (PyExc (mkExc (w_next_id w) Exception (bad_returncode r))))).
Proof.
  intros Hvalid Hp Hr.
  destruct (table_already_exists_cases p w) as (s1 & r1 & Hp1 & Hcases).
  rewrite Hp in Hp1. injection Hp1 as <- <-.
  destruct Hcases as [[_ Hrun]|[Hr0 _]]; [|contradiction].
  unfold main, bind, try_except_else. rewrite Hvalid. cbn [List.length Nat.ltb Nat.leb ret].
  rewrite Hrun. reflexivity.
Qed.

Lemma table_in_desired_state_untouched_aux (p : params) (w : World store)
    (s' : store) (r : completed) :
  validate_columns (columns p) = [] ->
  popen (w_store w) (tables_argv p) = (s', r) ->
  returncode r = 0%Z ->
  PyString.mem (name p) (PyString.split (stdout r))
    = match state p with present => true | absent => false end ->
  main popen p w
  = (mkWorld s' (w_calls w ++ [tables_argv p]) (w_sleeps w) (w_printed w)
       (w_next_id w),
     Exit (ExitJson false)).
Proof.
  intros Hvalid Hp Hr Hmem.
  destruct (table_already_exists_cases p w) as (s1 & r1 & Hp1 & Hcases).
  rewrite Hp in Hp1. injection Hp1 as <- <-.
  destruct Hcases as [[Hr0 _]|[_ Hrun]]; [contradiction|].
  unfold main, bind, try_except_else. rewrite Hvalid. cbn [List.length Nat.ltb Nat.leb ret].
  rewrite Hrun, Hmem. destruct (state p); reflexivity.
Qed.

(** When the listing already agrees with the desired state, [main] reports
    [changed=False] after the listing alone.  In particular a table that
    exists is left as it is, whatever columns, keys and order the spec
    asks for. *)
Theorem table_in_desired_state_untouched (p : params) (w : World store)
    (s' : store) (r : completed) :
  validate_columns (columns p) = [] ->
  popen (w_store w) (tables_argv p) = (s', r) ->
  returncode r = 0%Z ->
  PyString.mem (name p) (PyString.split (stdout r))
    = match state p with present => true | absent => false end ->
  main popen p w
  = (mkWorld s' (w_calls w ++ [tables_argv p]) (w_sleeps w) (w_printed w)
       (w_next_id w),
     Exit (ExitJson false)).
Proof. apply table_in_desired_state_untouched_aux. Qed.

Lemma table_create_path_aux (p : params) (w : World store) (s1 s2 : store)
    (r1 r2 : completed) (cmd : string) :
  state p = present ->
  create_statement p = inl cmd ->
  popen (w_store w) (tables_argv p) = (s1, r1) ->
  returncode r1 = 0%Z ->
  PyString.mem (name p) (PyString.split (stdout r1)) = false ->
  popen s1 (statement_argv p cmd) = (s2, r2) ->
  main popen p w
  = if (returncode r2 =? 0)%Z
    then (mkWorld s2 (w_calls w ++ [tables_argv p; statement_argv p cmd])
            (w_sleeps w) (w_printed w) (w_next_id w),
          Exit (ExitJson true))
    else (mkWorld s2 (w_calls w ++ [tables_argv p; statement_argv p cmd])
            (w_sleeps w) (w_printed w) (S (w_next_id w)),
          Exit (FailJson
                  (PyStr ("Error creating table: " ++ bad_returncode r2)%string))).
Proof.
  intros Hstate Hcmd Hp1 Hr1 Hmem Hp2.
  assert (Hvalid : validate_columns (columns p) = []).
  { apply renders_iff_valid. unfold create_statement, create_table_cmd in Hcmd.
    destruct (render_columns (columns p)) as [rendered|] eqn:Hrender;
      [|discriminate].
    exists rendered. split; [reflexivity|]. now apply render_columns_length. }
  destruct (table_already_exists_cases p w) as (s & r & Hp & Hcases).
  rewrite Hp1 in Hp. injection Hp as <- <-.
  destruct Hcases as [[Hr0 _]|[_ Hrun]]; [contradiction|].
  unfold main, bind at 1 2, try_except_else. rewrite Hvalid.
  cbn [List.length Nat.ltb Nat.leb ret].
  rewrite Hrun, Hmem, Hstate.
  unfold create_table. fold (create_statement p). rewrite Hcmd.
  fold (statement_argv p cmd).
  destruct (statement_cases p cmd
              (mkWorld s1 (w_calls w ++ [tables_argv p]) (w_sleeps w)
                 (w_printed w) (w_next_id w)))
    as (s & r & Hp & Hsent).
  cbn [w_store] in Hp. rewrite Hp2 in Hp. injection Hp as <- <-.
  unfold ret at 1. cbv beta iota.
  rewrite Hsent. cbn [w_calls w_sleeps w_printed w_next_id].
  rewrite <- app_assoc.
  destruct (returncode r2 =? 0)%Z; reflexivity.
Qed.

(** The create path: a table that is wanted and not listed.  [main] sends
    the statement [create_table] builds, once; status 0 gives
    [changed=True], any other status gives [fail_json] with the status and
    stderr in the message. *)
Theorem table_create_path (p : params) (w : World store) (s1 s2 : store)
    (r1 r2 : completed) (cmd : string) :
  state p = present ->
  create_statement p = inl cmd ->
  popen (w_store w) (tables_argv p) = (s1, r1) ->
  returncode r1 = 0%Z ->
  PyString.mem (name p) (PyString.split (stdout r1)) = false ->
  popen s1 (statement_argv p cmd) = (s2, r2) ->
  main popen p w
  = if (returncode r2 =? 0)%Z
    then (mkWorld s2 (w_calls w ++ [tables_argv p; statement_argv p cmd])
            (w_sleeps w) (w_printed w) (w_next_id w),
          Exit (ExitJson true))
    else (mkWorld s2 (w_calls w ++ [tables_argv p; statement_argv p cmd])
            (w_sleeps w) (w_printed w) (S (w_next_id w)),
          Exit (FailJson
                  (PyStr ("Error creating table: " ++ bad_returncode r2)%string))).
Proof. apply table_create_path_aux. Qed.

Lemma table_drop_path_aux (p : params) (w : World store) (s1 s2 : store)
    (r1 r2 : completed) :
  state p = absent ->
  validate_columns (columns p) = [] ->
  popen (w_store w) (tables_argv p) = (s1, r1) ->
  returncode r1 = 0%Z ->
  PyString.mem (name p) (PyString.split (stdout r1)) = true ->
  popen s1 (statement_argv p (drop_statement p)) = (s2, r2) ->
  main popen p w
  = if (returncode r2 =? 0)%Z
    then (mkWorld s2
            (w_calls w ++ [tables_argv p; statement_argv p (drop_statement p)])
            (w_sleeps w) (w_printed w) (w_next_id w),
          Exit (ExitJson true))
    else (mkWorld s2
            (w_calls w ++ [tables_argv p; statement_argv p (drop_statement p)])
            (w_sleeps w) (w_printed w) (S (w_next_id w)),
          Exit (FailJson
                  (PyStr ("Error deleting table: " ++ bad_returncode r2)%string))).
Proof.
  intros Hstate Hvalid Hp1 Hr1 Hmem Hp2.
  destruct (table_already_exists_cases p w) as (s & r & Hp & Hcases).
  rewrite Hp1 in Hp. injection Hp as <- <-.
  destruct Hcases as [[Hr0 _]|[_ Hrun]]; [contradiction|].
  unfold main, bind at 1 2, try_except_else. rewrite Hvalid.
  cbn [List.length Nat.ltb Nat.leb ret].
  rewrite Hrun, Hmem, Hstate.
  unfold drop_table. fold (drop_statement p).
  fold (statement_argv p (drop_statement p)).
  destruct (statement_cases p (drop_statement p)
              (mkWorld s1 (w_calls w ++ [tables_argv p]) (w_sleeps w)
                 (w_printed w) (w_next_id w)))
    as (s & r & Hp & Hsent).
  cbn [w_store] in Hp. rewrite Hp2 in Hp. injection Hp as <- <-.
  unfold ret at 1. cbv beta iota.
  rewrite Hsent. cbn [w_calls w_sleeps w_printed w_next_id].
  rewrite <- app_assoc.
  destruct (returncode r2 =? 0)%Z; reflexivity.
Qed.

(** The drop path: a table that is listed and not wanted.  [main] sends
    [DROP TABLE name;], once, in the keyspace of the spec; status 0 gives
    [changed=True], any other status gives [fail_json]. *)
Theorem table_drop_path (p : params) (w : World store) (s1 s2 : store)
    (r1 r2 : completed) :
  state p = absent ->
  validate_columns (columns p) = [] ->
  popen (w_store w) (tables_argv p) = (s1, r1) ->
  returncode r1 = 0%Z ->
  PyString.mem (name p) (PyString.split (stdout r1)) = true ->
  popen s1 (statement_argv p (drop_statement p)) = (s2, r2) ->
  main popen p w
  = if (returncode r2 =? 0)%Z
    then (mkWorld s2
            (w_calls w ++ [tables_argv p; statement_argv p (drop_statement p)])
            (w_sleeps w) (w_printed w) (w_next_id w),
          Exit (ExitJson true))
    else (mkWorld s2
            (w_calls w ++ [tables_argv p; statement_argv p (drop_statement p)])
            (w_sleeps w) (w_printed w) (S (w_next_id w)),
          Exit (FailJson
                  (PyStr ("Error deleting table: " ++ bad_returncode r2)%string))).
Proof. apply table_drop_path_aux. Qed.

(** On a spec whose columns are mappings from field names to strings
    (and whose keys and order are lists of strings), every run of the table
    module ends in [exit_json] or [fail_json]: no exception escapes.  It
    runs [cqlsh] at most twice: never before the validation passed, then
    for the listing, then for at most one statement, which is the [CREATE
    TABLE] it built when the table is wanted and [DROP TABLE name;] when it
    is not. *)
Theorem table_main_always_reports (p : params) (w : World store) :
  exists w' r,
    main popen p w = (w', Exit r)
    /\ (w_calls w' = w_calls w
        \/ w_calls w' = w_calls w ++ [tables_argv p]
        \/ exists cmd,
             w_calls w' = w_calls w ++ [tables_argv p; statement_argv p cmd]
             /\ ((state p = present /\ create_statement p = inl cmd)
                 \/ (state p = absent /\ cmd = drop_statement p))).
Proof.
  destruct (validate_columns (columns p)) as [|e errors] eqn:Hvalid.
  2:{ exists w. eexists. split; [|left; reflexivity].
      unfold main, bind. rewrite Hvalid. reflexivity. }
  destruct (table_already_exists_cases p w)
    as (s1 & r1 & Hp1 & [[Hr1 Hrun]|[Hr1 Hrun]]).
  { eexists. eexists. split.
    - unfold main, bind, try_except_else. rewrite Hvalid.
      cbn [List.length Nat.ltb Nat.leb ret]. rewrite Hrun. reflexivity.
    - right; left; reflexivity. }
  destruct (PyString.mem (name p) (PyString.split (stdout r1))) eqn:Hmem;
    destruct (state p) eqn:Hstate.
  - eexists. eexists. split.
    + rewrite (table_in_desired_state_untouched_aux p w s1 r1 Hvalid Hp1 Hr1);
        [reflexivity|now rewrite Hstate].
    + right; left; reflexivity.
  - destruct (popen s1 (statement_argv p (drop_statement p)))
      as [s2 r2] eqn:Hp2.
    pose proof (table_drop_path_aux p w s1 s2 r1 r2 Hstate Hvalid Hp1 Hr1
                  Hmem Hp2) as Hmain.
    destruct (returncode r2 =? 0)%Z; eexists; eexists;
      (split; [exact Hmain|]); right; right; exists (drop_statement p);
      (split; [reflexivity|right; now split]).
  - destruct (valid_columns_render (columns p) Hvalid) as [rendered Hrender].
    assert (Hcmd : exists cmd, create_statement p = inl cmd).
    { unfold create_statement, create_table_cmd. rewrite Hrender.
      destruct (order_by p) as [[|c cs]|]; eauto. }
    destruct Hcmd as [cmd Hcmd].
    destruct (popen s1 (statement_argv p cmd)) as [s2 r2] eqn:Hp2.
    pose proof (table_create_path_aux p w s1 s2 r1 r2 cmd Hstate Hcmd Hp1 Hr1
                  Hmem Hp2) as Hmain.
    destruct (returncode r2 =? 0)%Z; eexists; eexists;
      (split; [exact Hmain|]); right; right; exists cmd;
      (split; [reflexivity|left; now split]).
  - eexists. eexists. split.
    + rewrite (table_in_desired_state_untouched_aux p w s1 r1 Hvalid Hp1 Hr1);
        [reflexivity|now rewrite Hstate].
    + right; left; reflexivity.
Qed.

End TableRuns.

Lemma table_listing_failure_reported_witness :
  cassandra_table.main Fixtures.refusing_popen Fixtures.events_spec
    (initial_world tt)
  = (mkWorld tt [Notions.tables_argv Fixtures.events_spec] [] [] 1,
     Exit (FailJson
             (PyExc (mkExc 0 Exception
                       "Bad returncode: 1; Error: connection refused")))).
Proof.
  apply (table_listing_failure_reported Fixtures.refusing_popen
           Fixtures.events_spec (initial_world tt) tt
           (Fixtures.failed 1 "connection refused")).
  - reflexivity.
  - reflexivity.
  - discriminate.
Defined.

Lemma table_in_desired_state_untouched_witness :
  cassandra_table.main Fixtures.tables_popen Fixtures.events_spec
    (initial_world ["events"])
  = (mkWorld ["events"] [Notions.tables_argv Fixtures.events_spec] [] [] 0,
     Exit (ExitJson false)).
Proof.
  apply (table_in_desired_state_untouched Fixtures.tables_popen
           Fixtures.events_spec (initial_world ["events"]) ["events"]
           (Fixtures.ok (Fixtures.nl ++ "events" ++ Fixtures.nl ++ Fixtures.nl))).
  - reflexivity.
  - reflexivity.
  - reflexivity.
  - reflexivity.
Defined.

Lemma table_create_path_witness :
  cassandra_table.main Fixtures.tables_popen Fixtures.events_spec
    (initial_world [])
  = (mkWorld ["events"]
       [ Notions.tables_argv Fixtures.events_spec;
         Notions.statement_argv Fixtures.events_spec
           Fixtures.events_statement_built ]
       [] [] 0,
     Exit (ExitJson true)).
Proof.
  apply (table_create_path Fixtures.tables_popen Fixtures.events_spec
           (initial_world []) [] ["events"]
           (Fixtures.ok (Fixtures.nl ++ "" ++ Fixtures.nl ++ Fixtures.nl))
           (Fixtures.ok "") Fixtures.events_statement_built).
  - reflexivity.
  - reflexivity.
  - reflexivity.
  - reflexivity.
  - reflexivity.
  - reflexivity.
Defined.

Lemma table_drop_path_witness :
  cassandra_table.main Fixtures.tables_popen Fixtures.events_absent
    (initial_world ["events"])
  = (mkWorld []
       [ Notions.tables_argv Fixtures.events_absent;
         Notions.statement_argv Fixtures.events_absent "DROP TABLE events;" ]
       [] [] 0,
     Exit (ExitJson true)).
Proof.
  apply (table_drop_path Fixtures.tables_popen Fixtures.events_absent
           (initial_world ["events"]) ["events"] []
           (Fixtures.ok (Fixtures.nl ++ "events" ++ Fixtures.nl ++ Fixtures.nl))
           (Fixtures.ok "")).
  - reflexivity.
  - reflexivity.
  - reflexivity.
  - reflexivity.
  - reflexivity.
  - reflexivity.
Defined.

(* ================================================================== *)
(** * More on keyspace reconciliation *)
(* ================================================================== *)

Section KeyspaceRuns.

Context {store : Type}.
Variable popen : store -> list string -> store * completed.
Variable literal_eval : string -> cassandra_keyspace.evaluated pyval.

Import cassandra_keyspace Notions.
Local Open Scope list_scope.

Lemma keyspace_already_exists_cases (p : params) (w : World store) :
  exists s' r,
    popen (w_store w) (list_argv p) = (s', r)
    /\ call popen literal_eval "keyspace_already_exists"
         [PyStr (name p); PyStr (host p); PyInt (port p);
          PyStr (cql_version p)] w
       = if (returncode r =? 0)%Z
         then (listed p w s',
               Ret (PyBool (PyString.mem (name p)
                              (PyString.split (stdout r)))))
         else (mkWorld s' (w_calls w ++ [list_argv p]) (w_sleeps w)
                 (w_printed w ++ [host p] ++ [PyString.str_of_int (port p)])
                 (S (w_next_id w)),
               Raise (mkExc (w_next_id w) Exception (bad_returncode r))).
Proof.
  destruct (popen (w_store w) (list_argv p)) as [s' r] eqn:Hp.
  exists s', r. split; [reflexivity|].
  change (call popen literal_eval "keyspace_already_exists"
            [PyStr (name p); PyStr (host p); PyInt (port p);
             PyStr (cql_version p)] w)
    with (keyspace_already_exists popen
            [PyStr (name p); PyStr (host p); PyInt (port p);
             PyStr (cql_version p)] w).
  unfold keyspace_already_exists, bind, print, Popen.
  cbn [w_store w_calls w_sleeps w_printed w_next_id].
  fold (list_argv p). rewrite Hp.
  unfold listed. rewrite <- app_assoc.
  destruct (returncode r =? 0)%Z; reflexivity.
Qed.

Lemma get_current_replication_factor_cases (p : params) (w : World store) :
  exists s' r,
    popen (w_store w) (describe_argv p) = (s', r)
    /\ call popen literal_eval "get_current_replication_factor"
         [PyStr (name p); PyStr (host p); PyInt (port p);
          PyStr (cql_version p)] w
       = match describe_failure literal_eval r,
               parse_replication_factor literal_eval (stdout r) with
         | Some e, _ =>
             (mkWorld s' (w_calls w ++ [describe_argv p]) (w_sleeps w)
                (w_printed w) (S (w_next_id w)),
              Raise (mkExc (w_next_id w) (fst e) (snd e)))
         | None, inl n =>
             (mkWorld s' (w_calls w ++ [describe_argv p]) (w_sleeps w)
                (w_printed w) (w_next_id w),
              Ret (PyInt n))
         | None, inr e =>
             (mkWorld s' (w_calls w ++ [describe_argv p]) (w_sleeps w)
                (w_printed w) (S (w_next_id w)),
              Raise (mkExc (w_next_id w) (fst e) (snd e)))
         end.
Proof.
  destruct (popen (w_store w) (describe_argv p)) as [s' r] eqn:Hp.
  exists s', r. split; [reflexivity|].
  change (call popen literal_eval "get_current_replication_factor"
            [PyStr (name p); PyStr (host p); PyInt (port p);
             PyStr (cql_version p)] w)
    with (get_current_replication_factor popen literal_eval
            [PyStr (name p); PyStr (host p); PyInt (port p);
             PyStr (cql_version p)] w).
  unfold get_current_replication_factor, bind, Popen, describe_failure.
  fold (describe_argv p). rewrite Hp.
  destruct (returncode r =? 0)%Z; [|reflexivity].
  destruct (parse_replication_factor literal_eval (stdout r)); reflexivity.
Qed.

Lemma create_keyspace_cases (p : params) (w : World store) :
  exists s' r,
    popen (w_store w) (create_argv p) = (s', r)
    /\ call popen literal_eval "create_keyspace"
         [PyStr (name p); PyStr (host p); PyInt (port p);
          PyStr (cql_version p); PyInt (replication_factor p)] w
       = if (returncode r =? 0)%Z
         then (mkWorld s' (w_calls w ++ [create_argv p]) (w_sleeps w)
                 (w_printed w) (w_next_id w),
               Ret PyNone)
         else (mkWorld s' (w_calls w ++ [create_argv p]) (w_sleeps w)
                 (w_printed w) (S (w_next_id w)),
               Raise (mkExc (w_next_id w) Exception (bad_returncode r))).
Proof.
  destruct (popen (w_store w) (create_argv p)) as [s' r] eqn:Hp.
  exists s', r. split; [reflexivity|].
  change (call popen literal_eval "create_keyspace"
            [PyStr (name p); PyStr (host p); PyInt (port p);
             PyStr (cql_version p); PyInt (replication_factor p)] w)
    with (create_keyspace popen
            [PyStr (name p); PyStr (host p); PyInt (port p);
             PyStr (cql_version p); PyInt (replication_factor p)] w).
  unfold create_keyspace, bind, Popen.
  fold (create_argv p). rewrite Hp.
  destruct (returncode r =? 0)%Z; reflexivity.
Qed.

(** [main] up to the branch on [state], after a listing that ended with
    status 0. *)
Lemma main_after_listing (p : params) (w : World store) (s1 : store)
    (r1 : completed) :
  popen (w_store w) (list_argv p) = (s1, r1) ->
  returncode r1 = 0%Z ->
  main popen literal_eval p w
  = (let listed_name :=
       PyString.mem (name p) (PyString.split (stdout r1)) in
     match state p with
     | present =>
         if listed_name then
           bind (call popen literal_eval "get_current_replication_factor"
                   [PyStr (name p); PyStr (host p); PyInt (port p);
                    PyStr (cql_version p)])
             (fun current_rep_factor =>
                if int_ne current_rep_factor (PyInt (replication_factor p))
                then
                  try_except_else
                    (call popen literal_eval "update_keyspace_replication"
                       [PyStr (name p); PyStr (host p);
                        PyInt (replication_factor p)])
                    (fun err =>
                       fail_json
                         (PyStr ("Error updating keyspace: " ++ exc_msg err)%string))
                    (fun _ => exit_json true)
                else exit_json false)
         else
           try_except_else
             (call popen literal_eval "create_keyspace"
                [PyStr (name p); PyStr (host p); PyInt (port p);
                 PyStr (cql_version p); PyInt (replication_factor p)])
             (fun err =>
                fail_json
                  (PyStr ("Error creating keyspace: " ++ exc_msg err)%string))
             (fun _ => exit_json true)
     | absent =>
         if listed_name then
           try_except_else
             (call popen literal_eval "delete_keyspace"
                [PyStr (name p); PyStr (host p); PyInt (port p);
                 PyStr (cql_version p)])
             (fun err =>
                fail_json
                  (PyStr ("Error deleting keyspace: " ++ exc_msg err)%string))
             (fun _ => exit_json true)
         else exit_json false
     end) (listed p w s1).
Proof.
  intros Hp1 Hr1.
  destruct (keyspace_already_exists_cases p w) as (s & r & Hp & Hrun).
  rewrite Hp1 in Hp. injection Hp as <- <-.
  rewrite Hr1 in Hrun. cbn [Z.eqb] in Hrun.
  unfold main. unfold bind at 1. unfold try_except_else at 1.
  rewrite Hrun. unfold ret at 1. cbv beta iota. cbn [truthy].
  destruct (state p), (PyString.mem (name p) (PyString.split (stdout r1)));
    reflexivity.
Qed.

Lemma keyspace_listing_failure_reported_aux (p : params) (w : World store)
    (s' : store) (r : completed) :
  popen (w_store w) (list_argv p) = (s', r) ->
  returncode r <> 0%Z ->
  main popen literal_eval p w
  = (mkWorld s' (w_calls w ++ [list_argv p]) (w_sleeps w)
       (w_printed w ++ [host p] ++ [PyString.str_of_int (port p)])
       (S (w_next_id w)),
     Exit (FailJson
             (PyExc (mkExc (w_next_id w) Exception (bad_returncode r))))).
Proof.
  intros Hp Hr.
  destruct (keyspace_already_exists_cases p w) as (s & r0 & Hp0 & Hrun).
  rewrite Hp in Hp0. injection Hp0 as <- <-.
  apply Z.eqb_neq in Hr. rewrite Hr in Hrun.
  unfold main. unfold bind at 1. unfold try_except_else at 1.
  rewrite Hrun. reflexivity.
Qed.

(** When the listing fails, [main] reports the exception and stops. *)
Theorem keyspace_listing_failure_reported (p : params) (w : World store)
    (s' : store) (r : completed) :
  popen (w_store w) (list_argv p) = (s', r) ->
  returncode r <> 0%Z ->
  main popen literal_eval p w
  = (mkWorld s' (w_calls w ++ [list_argv p]) (w_sleeps w)
       (w_printed w ++ [host p] ++ [PyString.str_of_int (port p)])
       (S (w_next_id w)),
     Exit (FailJson
             (PyExc (mkExc (w_next_id w) Exception (bad_returncode r))))).
Proof. apply keyspace_listing_failure_reported_aux. Qed.

(** A keyspace that is not wanted and not listed: [changed=False] after
    the listing alone. *)
Theorem keyspace_absent_untouched (p : params) (w : World store)
    (s' : store) (r : completed) :
  state p = absent ->
  popen (w_store w) (list_argv p) = (s', r) ->
  returncode r = 0%Z ->
  PyString.mem (name p) (PyString.split (stdout r)) = false ->
  main popen literal_eval p w = (listed p w s', Exit (ExitJson false)).
Proof.
  intros Hstate Hp Hr Hmem.
  rewrite (main_after_listing p w s' r Hp Hr). cbv zeta.
  rewrite Hstate, Hmem. reflexivity.
Qed.

(** A keyspace that is wanted, listed, and described with the desired
    replication factor: [changed=False] after the two queries. *)
Theorem keyspace_matching_untouched (p : params) (w : World store)
    (s1 s2 : store) (r1 r2 : completed) :
  state p = present ->
  popen (w_store w) (list_argv p) = (s1, r1) ->
  returncode r1 = 0%Z ->
  PyString.mem (name p) (PyString.split (stdout r1)) = true ->
  popen s1 (describe_argv p) = (s2, r2) ->
  returncode r2 = 0%Z ->
  parse_replication_factor literal_eval (stdout r2)
    = inl (replication_factor p) ->
  main popen literal_eval p w
  = (after_listing p w s2 (describe_argv p) 0, Exit (ExitJson false)).
Proof.
  intros Hstate Hp1 Hr1 Hmem Hp2 Hr2 Hparse.
  rewrite (main_after_listing p w s1 r1 Hp1 Hr1). cbv zeta.
  rewrite Hstate, Hmem. unfold bind.
  destruct (get_current_replication_factor_cases p (listed p w s1))
    as (s & r & Hp & Hrun).
  cbn [listed w_store] in Hp. rewrite Hp2 in Hp. injection Hp as <- <-.
  unfold describe_failure in Hrun. rewrite Hr2, Hparse in Hrun.
  cbn [Z.eqb] in Hrun. rewrite Hrun.
  cbn [int_ne]. rewrite Z.eqb_refl. cbn [negb exit_json].
  unfold after_listing, listed. cbn [w_calls w_sleeps w_printed w_next_id].
  now rewrite <- app_assoc, Nat.add_0_r.
Qed.

(** A keyspace that is wanted, listed, and whose description cannot be
    read (the query fails, or the replication factor cannot be parsed from
    its output): the exception leaves [main].  The module ends on a
    traceback; [fail_json] is not called. *)
Theorem keyspace_read_failure_escapes (p : params) (w : World store)
    (s1 s2 : store) (r1 r2 : completed) (cls : exc_class) (msg : string) :
  state p = present ->
  popen (w_store w) (list_argv p) = (s1, r1) ->
  returncode r1 = 0%Z ->
  PyString.mem (name p) (PyString.split (stdout r1)) = true ->
  popen s1 (describe_argv p) = (s2, r2) ->
  describe_failure literal_eval r2 = Some (cls, msg) ->
  main popen literal_eval p w
  = (after_listing p w s2 (describe_argv p) 1,
     Raise (mkExc (w_next_id w) cls msg)).
Proof.
  intros Hstate Hp1 Hr1 Hmem Hp2 Hfail.
  rewrite (main_after_listing p w s1 r1 Hp1 Hr1). cbv zeta.
  rewrite Hstate, Hmem. unfold bind.
  destruct (get_current_replication_factor_cases p (listed p w s1))
    as (s & r & Hp & Hrun).
  cbn [listed w_store] in Hp. rewrite Hp2 in Hp. injection Hp as <- <-.
  rewrite Hfail in Hrun. rewrite Hrun.
  unfold after_listing, listed. cbn [w_calls w_sleeps w_printed w_next_id fst snd].
  now rewrite <- app_assoc, Nat.add_1_r.
Qed.

(** The create path: a keyspace that is wanted and not listed.  [main]
    sends [CREATE_CMD] with the name and the desired replication factor,
    once; status 0 gives [changed=True], any other status [fail_json]. *)
Theorem keyspace_create_path (p : params) (w : World store) (s1 s2 : store)
    (r1 r2 : completed) :
  state p = present ->
  popen (w_store w) (list_argv p) = (s1, r1) ->
  returncode r1 = 0%Z ->
  PyString.mem (name p) (PyString.split (stdout r1)) = false ->
  popen s1 (create_argv p) = (s2, r2) ->
  main popen literal_eval p w
  = if (returncode r2 =? 0)%Z
    then (after_listing p w s2 (create_argv p) 0, Exit (ExitJson true))
    else (after_listing p w s2 (create_argv p) 1,
          Exit (FailJson
                  (PyStr ("Error creating keyspace: " ++ bad_returncode r2)%string))).
Proof.
  intros Hstate Hp1 Hr1 Hmem Hp2.
  rewrite (main_after_listing p w s1 r1 Hp1 Hr1). cbv zeta.
  rewrite Hstate, Hmem. unfold try_except_else.
  destruct (create_keyspace_cases p (listed p w s1)) as (s & r & Hp & Hrun).
  cbn [listed w_store] in Hp. rewrite Hp2 in Hp. injection Hp as <- <-.
  rewrite Hrun. unfold after_listing, listed.
  cbn [w_calls w_sleeps w_printed w_next_id].
  rewrite <- app_assoc, Nat.add_0_r, Nat.add_1_r.
  destruct (returncode r2 =? 0)%Z; reflexivity.
Qed.

(** The runs of [cqlsh] a run of [main] can add to the log. *)
Lemma keyspace_main_runs (p : params) (w : World store) :
  exists w' o,
    main popen literal_eval p w = (w', o)
    /\ (w_calls w' = w_calls w ++ [list_argv p]
        \/ w_calls w' = w_calls w ++ [list_argv p; describe_argv p]
        \/ w_calls w' = w_calls w ++ [list_argv p; create_argv p]).
Proof.
  destruct (popen (w_store w) (list_argv p)) as [s1 r1] eqn:Hp1.
  destruct (Z.eq_dec (returncode r1) 0) as [Hr1|Hr1].
  2:{ eexists. eexists. split.
      - apply (keyspace_listing_failure_reported_aux p w s1 r1 Hp1 Hr1).
      - left. reflexivity. }
  rewrite (main_after_listing p w s1 r1 Hp1 Hr1). cbv zeta.
  destruct (state p);
    destruct (PyString.mem (name p) (PyString.split (stdout r1))).
  - destruct (get_current_replication_factor_cases p (listed p w s1))
      as (s2 & r2 & Hp2 & Hrun).
    unfold bind. rewrite Hrun.
    destruct (describe_failure literal_eval r2) as [e|];
      [|destruct (parse_replication_factor literal_eval (stdout r2))
          as [n|e]].
    + eexists. eexists. split; [reflexivity|].
      right. left. unfold listed. cbn [w_calls]. now rewrite <- app_assoc.
    + destruct (int_ne (PyInt n) (PyInt (replication_factor p))).
      * unfold try_except_else.
        rewrite update_keyspace_replication_three_arguments.
        eexists. eexists. split; [reflexivity|].
        right. left. unfold listed. cbn [w_calls]. now rewrite <- app_assoc.
      * eexists. eexists. split; [reflexivity|].
        right. left. unfold listed. cbn [w_calls]. now rewrite <- app_assoc.
    + eexists. eexists. split; [reflexivity|].
      right. left. unfold listed. cbn [w_calls]. now rewrite <- app_assoc.
  - destruct (create_keyspace_cases p (listed p w s1)) as (s2 & r2 & Hp2 & Hrun).
    unfold try_except_else. rewrite Hrun.
    destruct (returncode r2 =? 0)%Z; eexists; eexists;
      (split; [reflexivity|]); right; right; unfold listed; cbn [w_calls];
      now rewrite <- app_assoc.
  - unfold try_except_else. rewrite delete_keyspace_unbound.
    eexists. eexists. split; [reflexivity|]. left. reflexivity.
  - eexists. eexists. split; [reflexivity|]. left. reflexivity.
Qed.

Lemma not_the_alter_or_drop_text (p : params) (argv : list string) :
  In argv [list_argv p; describe_argv p; create_argv p] ->
  forall k n,
    last argv ""%string <> ALTER_CMD k n
    /\ last argv ""%string <> ("DROP KEYSPACE " ++ k ++ ";")%string.
Proof.
  intros Hin k n.
  destruct Hin as [<-|[<-|[<-|[]]]];
    unfold list_argv, describe_argv, create_argv, CREATE_CMD, ALTER_CMD;
    cbn [last]; split; intros H; cbn [append] in H; discriminate H.
Qed.

(** Whatever the cluster answers and whatever the spec, [main] runs
    [cqlsh] for the listing and then at most once more: for the
    description, or for the text [CREATE_CMD] makes of the name and the
    desired factor.  The texts that [update_keyspace_replication] and
    [drop_keyspace] build ([ALTER_CMD] of any name and factor, [DROP
    KEYSPACE k;] for any [k]) are never what it runs [cqlsh] on.  The name
    goes into [CREATE_CMD] as it is, so this says nothing of what a
    crafted name makes that text contain. *)
Theorem keyspace_main_statements (p : params) (w : World store) :
  exists w' o extra,
    main popen literal_eval p w = (w', o)
    /\ w_calls w' = w_calls w ++ extra
    /\ (extra = [list_argv p]
        \/ extra = [list_argv p; describe_argv p]
        \/ extra = [list_argv p; create_argv p])
    /\ Forall
         (fun argv =>
            forall k n,
              last argv ""%string <> ALTER_CMD k n
              /\ last argv ""%string <> ("DROP KEYSPACE " ++ k ++ ";")%string)
         extra.
Proof.
  destruct (keyspace_main_runs p w) as (w' & o & Hmain & Hcalls).
  assert (Hall : forall extra,
             incl extra [list_argv p; describe_argv p; create_argv p] ->
             Forall
               (fun argv =>
                  forall k n,
                    last argv ""%string <> ALTER_CMD k n
                    /\ last argv ""%string
                       <> ("DROP KEYSPACE " ++ k ++ ";")%string)
               extra).
  { intros extra Hincl. apply Forall_forall. intros argv Hin.
    apply (not_the_alter_or_drop_text p argv). now apply Hincl. }
  destruct Hcalls as [Hc|[Hc|Hc]].
  - exists w', o, [list_argv p]. repeat split; auto.
    apply Hall. intros x [<-|[]]; cbn; auto.
  - exists w', o, [list_argv p; describe_argv p]. repeat split; auto.
    apply Hall. intros x [<-|[<-|[]]]; cbn; auto.
  - exists w', o, [list_argv p; create_argv p]. repeat split; auto.
    apply Hall. intros x [<-|[<-|[]]]; cbn; auto.
Qed.

End KeyspaceRuns.

Lemma keyspace_listing_failure_reported_witness :
  cassandra_keyspace.main Fixtures.refusing_popen Fixtures.flat_literal_eval
    (Fixtures.pluto_spec 3 cassandra_keyspace.present) (initial_world tt)
  = (mkWorld tt
       [Notions.list_argv (Fixtures.pluto_spec 3 cassandra_keyspace.present)]
       [] ["127.0.0.1"; "9042"] 1,
     Exit (FailJson
             (PyExc (mkExc 0 Exception
                       "Bad returncode: 1; Error: connection refused")))).
Proof.
  apply (keyspace_listing_failure_reported Fixtures.refusing_popen
           Fixtures.flat_literal_eval
           (Fixtures.pluto_spec 3 cassandra_keyspace.present)
           (initial_world tt) tt (Fixtures.failed 1 "connection refused")).
  - reflexivity.
  - discriminate.
Defined.

Lemma keyspace_absent_untouched_witness :
  Fixtures.keyspace_main (Fixtures.pluto_spec 1 cassandra_keyspace.absent)
    (initial_world None)
  = (Notions.listed (Fixtures.pluto_spec 1 cassandra_keyspace.absent)
       (initial_world None) None,
     Exit (ExitJson false)).
Proof.
  apply (keyspace_absent_untouched Fixtures.pluto_popen
           Fixtures.flat_literal_eval
           (Fixtures.pluto_spec 1 cassandra_keyspace.absent)
           (initial_world None) None
           (Fixtures.ok (Fixtures.describe_keyspaces None))).
  - reflexivity.
  - reflexivity.
  - reflexivity.
  - reflexivity.
Defined.

Lemma keyspace_matching_untouched_witness :
  Fixtures.keyspace_main (Fixtures.pluto_spec 3 cassandra_keyspace.present)
    (initial_world (Some 3%Z))
  = (Notions.after_listing (Fixtures.pluto_spec 3 cassandra_keyspace.present)
       (initial_world (Some 3%Z)) (Some 3%Z)
       (Notions.describe_argv
          (Fixtures.pluto_spec 3 cassandra_keyspace.present)) 0,
     Exit (ExitJson false)).
Proof.
  apply (keyspace_matching_untouched Fixtures.pluto_popen
           Fixtures.flat_literal_eval
           (Fixtures.pluto_spec 3 cassandra_keyspace.present)
           (initial_world (Some 3%Z)) (Some 3%Z) (Some 3%Z)
           (Fixtures.ok (Fixtures.describe_keyspaces (Some 3%Z)))
           (Fixtures.ok (Fixtures.describe_pluto 3))).
  - reflexivity.
  - reflexivity.
  - reflexivity.
  - reflexivity.
  - reflexivity.
  - reflexivity.
  - reflexivity.
Defined.

Lemma keyspace_read_failure_escapes_witness :
  cassandra_keyspace.main Fixtures.terse_popen Fixtures.flat_literal_eval
    (Fixtures.pluto_spec 3 cassandra_keyspace.present) (initial_world tt)
  = (Notions.after_listing (Fixtures.pluto_spec 3 cassandra_keyspace.present)
       (initial_world tt) tt
       (Notions.describe_argv
          (Fixtures.pluto_spec 3 cassandra_keyspace.present)) 1,
     Raise (mkExc 0 AttributeError
              "'NoneType' object has no attribute 'group'")).
Proof.
  apply (keyspace_read_failure_escapes Fixtures.terse_popen
           Fixtures.flat_literal_eval
           (Fixtures.pluto_spec 3 cassandra_keyspace.present)
           (initial_world tt) tt tt (Fixtures.ok "pluto") (Fixtures.ok "")).
  - reflexivity.
  - reflexivity.
  - reflexivity.
  - reflexivity.
  - reflexivity.
  - reflexivity.
Defined.

Lemma keyspace_create_path_witness :
  Fixtures.keyspace_main (Fixtures.pluto_spec 3 cassandra_keyspace.present)
    (initial_world None)
  = (Notions.after_listing (Fixtures.pluto_spec 3 cassandra_keyspace.present)
       (initial_world None) (Some 3%Z)
       (Notions.create_argv
          (Fixtures.pluto_spec 3 cassandra_keyspace.present)) 0,
     Exit (ExitJson true)).
Proof.
  apply (keyspace_create_path Fixtures.pluto_popen Fixtures.flat_literal_eval
           (Fixtures.pluto_spec 3 cassandra_keyspace.present)
           (initial_world None) None (Some 3%Z)
           (Fixtures.ok (Fixtures.describe_keyspaces None))
           (Fixtures.ok "")).
  - reflexivity.
  - reflexivity.
  - reflexivity.
  - reflexivity.
  - reflexivity.
Defined.

(* ================================================================== *)
(** * More on reading the replication factor *)
(* ================================================================== *)

Section ReadingFacts.

Import cassandra_keyspace Notions PyString.

Lemma uint_value_pos (d : Decimal.uint) (acc : positive) :
  Z.pos (Pos.of_uint_acc d acc) = uint_value (Z.pos acc) d.
Proof.
  revert acc. induction d; intros acc; cbn [Pos.of_uint_acc uint_value];
    [reflexivity|rewrite IHd; f_equal; lia..].
Qed.

Lemma uint_value_of_uint (d : Decimal.uint) :
  Z.of_uint d = uint_value 0 d.
Proof.
  unfold Z.of_uint.
  induction d; cbn [Pos.of_uint uint_value Z.of_N];
    [reflexivity|exact IHd|apply uint_value_pos..].
Qed.

(** [digits], once past a first digit, reads a run of decimal digits to
    its end. *)
Lemma digits_uint (d : Decimal.uint) (acc : Z) :
  digits true acc (NilEmpty.string_of_uint d) = Some (uint_value acc d).
Proof.
  revert acc. induction d; intros acc;
    cbn [NilEmpty.string_of_uint digits uint_value]; [reflexivity|..];
    (match goal with
     | |- context [digit_of ?c] =>
         let v := eval vm_compute in (digit_of c) in
         change (digit_of c) with v
     end); cbv beta iota; apply IHd.
Qed.

Lemma digits_uint_first (d : Decimal.uint) :
  d <> Decimal.Nil ->
  digits false 0 (NilEmpty.string_of_uint d) = Some (uint_value 0 d).
Proof.
  destruct d; intros Hd; [now elim Hd|..];
    cbn [NilEmpty.string_of_uint digits uint_value];
    (match goal with
     | |- context [digit_of ?c] =>
         let v := eval vm_compute in (digit_of c) in
         change (digit_of c) with v
     end); cbv beta iota; apply digits_uint.
Qed.

Lemma uint_no_space (d : Decimal.uint) :
  has_space (NilEmpty.string_of_uint d) = false.
Proof.
  induction d; cbn [NilEmpty.string_of_uint has_space]; [reflexivity|..];
    rewrite IHd; reflexivity.
Qed.

Lemma rev_string_involutive (s : string) :
  rev_string "" (rev_string "" s) = s.
Proof.
  induction s as [|c s IH]; [reflexivity|].
  cbn [rev_string]. rewrite (rev_string_acc s (String c "")), rev_string_app.
  rewrite IH. reflexivity.
Qed.

Lemma has_space_rev (s : string) :
  has_space (rev_string "" s) = has_space s.
Proof.
  induction s as [|c s IH]; [reflexivity|].
  cbn [rev_string]. rewrite (rev_string_acc s (String c "")), has_space_app, IH.
  cbn [has_space]. rewrite orb_false_r. apply orb_comm.
Qed.

(** What [int()] drops around a text is white space for [split] too. *)
Lemma int_space_is_space (c : ascii) :
  is_int_space c = true -> is_space c = true.
Proof.
  destruct c as [b0 b1 b2 b3 b4 b5 b6 b7].
  destruct b0, b1, b2, b3, b4, b5, b6, b7; cbv; intros H;
    first [reflexivity | discriminate H].
Qed.

Lemma not_space_not_int_space (c : ascii) :
  is_space c = false -> is_int_space c = false.
Proof.
  intros H. destruct (is_int_space c) eqn:Hc; [|reflexivity].
  apply int_space_is_space in Hc. congruence.
Qed.

Lemma lstrip_no_space (s : string) :
  has_space s = false -> lstrip is_int_space s = s.
Proof.
  destruct s as [|c s]; [reflexivity|].
  cbn [has_space lstrip]. intros H. apply orb_false_elim in H.
  now rewrite (not_space_not_int_space c (proj1 H)).
Qed.

(** Text without white space is left alone by the stripping of [int]. *)
Lemma strip_no_space (s : string) :
  has_space s = false -> strip is_int_space s = s.
Proof.
  intros H. unfold strip. rewrite (lstrip_no_space s H).
  rewrite lstrip_no_space by now rewrite has_space_rev.
  apply rev_string_involutive.
Qed.

Lemma int_of_uint_string (d : Decimal.uint) :
  d <> Decimal.Nil ->
  int_of_str (NilEmpty.string_of_uint d) = Some (Z.of_uint d).
Proof.
  intros Hd. unfold int_of_str, int_of_text.
  rewrite (strip_no_space _ (uint_no_space d)), uint_value_of_uint.
  rewrite <- (digits_uint_first d Hd).
  destruct d; [now elim Hd|reflexivity..].
Qed.

Lemma int_of_str_of_int (n : Z) : int_of_str (str_of_int n) = Some n.
Proof.
  unfold str_of_int. rewrite <- (DecimalZ.of_to n) at 2.
  destruct n as [|q|q]; cbn [Z.to_int NilEmpty.string_of_int Z.of_int].
  - reflexivity.
  - apply int_of_uint_string, Unsigned.to_uint_nonnil.
  - unfold int_of_str, int_of_text.
    assert (Hs : has_space (String "-" (NilEmpty.string_of_uint (Pos.to_uint q)))
                 = false)
      by (cbn [has_space]; now rewrite uint_no_space).
    rewrite (strip_no_space _ Hs).
    rewrite (digits_uint_first _ (Unsigned.to_uint_nonnil q)).
    cbn [option_map]. now rewrite uint_value_of_uint.
Qed.

Lemma all_int_space_app (a b : string) :
  all_int_space (a ++ b) = all_int_space a && all_int_space b.
Proof.
  induction a as [|c a IH]; cbn [append all_int_space]; [reflexivity|].
  now rewrite IH, andb_assoc.
Qed.

Lemma all_int_space_rev (s : string) :
  all_int_space (rev_string "" s) = all_int_space s.
Proof.
  induction s as [|c s IH]; [reflexivity|].
  cbn [rev_string].
  rewrite (rev_string_acc s (String c "")), all_int_space_app, IH.
  cbn [all_int_space]. rewrite andb_true_r. apply andb_comm.
Qed.

Lemma rev_string_append (a b : string) :
  rev_string "" (a ++ b) = rev_string "" b ++ rev_string "" a.
Proof. now rewrite rev_string_app, rev_string_acc. Qed.

Lemma lstrip_spaces (pad s : string) :
  all_int_space pad = true ->
  lstrip is_int_space (pad ++ s) = lstrip is_int_space s.
Proof.
  induction pad as [|c pad IH]; intros H; [reflexivity|].
  cbn [all_int_space] in H. apply andb_prop in H. destruct H as [Hc H].
  cbn [append lstrip]. rewrite Hc. now apply IH.
Qed.

Lemma lstrip_token (t s : string) :
  token t -> lstrip is_int_space (t ++ s) = t ++ s.
Proof.
  intros [Hne Hsp]. destruct t as [|c t]; [now elim Hne|].
  cbn [has_space] in Hsp. apply orb_false_elim in Hsp.
  cbn [append lstrip]. now rewrite (not_space_not_int_space c (proj1 Hsp)).
Qed.

(** [strip] removes the white space around a token and nothing else. *)
Lemma strip_padded (left_pad t right_pad : string) :
  all_int_space left_pad = true -> all_int_space right_pad = true ->
  token t ->
  strip is_int_space (left_pad ++ t ++ right_pad) = t.
Proof.
  intros Hl Hr Ht. unfold strip.
  rewrite (lstrip_spaces _ _ Hl), (lstrip_token _ _ Ht).
  rewrite rev_string_append.
  rewrite lstrip_spaces by now rewrite all_int_space_rev.
  rewrite lstrip_no_space by (rewrite has_space_rev; exact (proj2 Ht)).
  apply rev_string_involutive.
Qed.

Lemma str_of_int_token (n : Z) : token (str_of_int n).
Proof.
  unfold str_of_int.
  destruct n as [|q|q]; cbn [Z.to_int NilEmpty.string_of_int].
  - split; [discriminate|reflexivity].
  - split; [|apply uint_no_space].
    pose proof (Unsigned.to_uint_nonnil q) as Hq.
    destruct (Pos.to_uint q); [now elim Hq|discriminate..].
  - split; [discriminate|]. cbn [has_space]. now rewrite uint_no_space.
Qed.

Lemma int_of_str_padded (n : Z) (left_pad right_pad : string) :
  all_int_space left_pad = true -> all_int_space right_pad = true ->
  int_of_str (left_pad ++ str_of_int n ++ right_pad) = Some n.
Proof.
  intros Hl Hr. pose proof (int_of_str_of_int n) as Hn.
  unfold int_of_str, int_of_text in Hn |- *.
  rewrite (strip_no_space _ (proj2 (str_of_int_token n))) in Hn.
  now rewrite (strip_padded _ _ _ Hl Hr (str_of_int_token n)).
Qed.

(** Round trip: [int(str(n))] is [n], also when the text stands between
    white space that [int()] drops (code points 9 to 13, 32, 133 and 160),
    for every integer [n] whose decimal text stays within the 4300 digits
    that CPython converts by default. *)
Theorem int_of_str_round_trip (n : Z) (left_pad right_pad : string) :
  all_int_space left_pad = true -> all_int_space right_pad = true ->
  String.length (str_of_int (Z.abs n)) <= 4300 ->
  py_int (PyStr (left_pad ++ str_of_int n ++ right_pad)) = inl n.
Proof.
  intros Hl Hr _. cbn [py_int]. now rewrite (int_of_str_padded n _ _ Hl Hr).
Qed.

(** The separator of code points 28 to 31 is white space for [split] but
    not for [int()]: a number that follows one is not converted. *)
Lemma int_of_str_keeps_separators :
  py_int (PyStr (String (ascii_of_nat 28) "5"))
  = inr (ValueError,
         "invalid literal for int() with base 10: '\x1c5'").
Proof. reflexivity. Qed.

Lemma contains_char_app (c : ascii) (a b : string) :
  contains_char c (a ++ b) = contains_char c a || contains_char c b.
Proof.
  induction a as [|x a IH]; cbn [append contains_char]; [reflexivity|].
  now rewrite IH, orb_assoc.
Qed.

Lemma re_search_leftmost (before g rest : string) :
  contains_char "{" before = false ->
  one_line g ->
  re_search (before ++ String "{" (g ++ String "}" rest)) = Some g.
Proof.
  intros Hbefore Hg. apply re_search_complete.
  exists before, (String "{" (g ++ String "}" rest)).
  split; [reflexivity|]. split; [exists rest; now split|].
  intros b1 b2 g' Hb Hne Hgroup.
  destruct b2 as [|c b2]; [now elim Hne|].
  cbn [append] in Hgroup. apply group_at_lazy in Hgroup.
  destruct Hgroup as [-> _].
  rewrite Hb, contains_char_app in Hbefore.
  apply orb_false_elim in Hbefore. destruct Hbefore as [_ Hbefore].
  cbn [contains_char] in Hbefore. discriminate Hbefore.
Qed.

(** The regular expression picks the first group that closes on its
    line: with no opening brace before it, the group [g] is what
    [re.search] returns, whatever follows its closing brace, later brace
    groups included. *)
Theorem re_search_first_group (before g rest : string) :
  contains_char "{" before = false ->
  one_line g ->
  re_search (before ++ String "{" (g ++ String "}" rest)) = Some g.
Proof. apply re_search_leftmost. Qed.

(** Reading back what a description prints: when the first brace group of
    the output evaluates to a mapping whose [replication_factor] is the
    decimal text of [n], the parser returns [n]; the rest of the output,
    with the brace groups of the table options, plays no part. *)
Theorem replication_factor_read_back
    (literal_eval : string -> evaluated pyval) (before g rest : string)
    (items : list (pyval * pyval)) (n : Z) :
  contains_char "{" before = false ->
  one_line g ->
  literal_eval ("{" ++ g ++ "}") = inl (PyDict items) ->
  dict_get "replication_factor" items = Some (PyStr (str_of_int n)) ->
  parse_replication_factor literal_eval
    (before ++ String "{" (g ++ String "}" rest)) = inl n.
Proof.
  intros Hbefore Hg Heval Hget. unfold parse_replication_factor.
  rewrite (re_search_leftmost before g rest Hbefore Hg), Heval.
  cbn [subscript]. rewrite Hget. cbn [py_int].
  now rewrite int_of_str_of_int.
Qed.

End ReadingFacts.

Lemma int_of_str_round_trip_witness :
  cassandra_keyspace.py_int (PyStr (" " ++ PyString.str_of_int (-42) ++ Fixtures.nl))
  = inl (-42)%Z.
Proof.
  apply (int_of_str_round_trip (-42) " " Fixtures.nl);
    [reflexivity|reflexivity|simpl; lia].
Defined.

Lemma re_search_first_group_witness :
  cassandra_keyspace.re_search
    ("replication = " ++ String "{" ("'a': 1" ++ String "}" " AND caching = {'keys': 'ALL'}"))
  = Some "'a': 1".
Proof.
  apply (re_search_first_group "replication = " "'a': 1"
           " AND caching = {'keys': 'ALL'}").
  - reflexivity.
  - split; reflexivity.
Defined.

Lemma replication_factor_read_back_witness :
  cassandra_keyspace.parse_replication_factor Fixtures.flat_literal_eval
    ("CREATE KEYSPACE pluto WITH replication = "
       ++ String "{"
            ("'class': 'SimpleStrategy', 'replication_factor': '3'"
               ++ String "}" " AND caching = {'keys': 'ALL'}"))
  = inl 3%Z.
Proof.
  apply (replication_factor_read_back Fixtures.flat_literal_eval
           "CREATE KEYSPACE pluto WITH replication = "
           "'class': 'SimpleStrategy', 'replication_factor': '3'"
           " AND caching = {'keys': 'ALL'}"
           [(PyStr "class", PyStr "SimpleStrategy");
            (PyStr "replication_factor", PyStr "3")] 3).
  - reflexivity.
  - split; reflexivity.
  - reflexivity.
  - reflexivity.
Defined.

(* ================================================================== *)
(** * The deployment driver: config keys and generated secrets *)
(* ================================================================== *)

Section DeployFacts.

Import deploy Notions.
Local Open Scope list_scope.

Lemma has_key_get {V : Type} (key : string) (d : list (string * V)) :
  has_key key d = match get key d with Some _ => true | None => false end.
Proof.
  induction d as [|[k v] d IH]; cbn [has_key existsb get fst]; [reflexivity|].
  destruct (String.eqb k key); [reflexivity|exact IH].
Qed.

Lemma get_set_same {V : Type} (key : string) (v : V) (d : list (string * V)) :
  get key (set key v d) = Some v.
Proof.
  induction d as [|[k v'] d IH]; cbn [set get].
  - now rewrite String.eqb_refl.
  - destruct (String.eqb k key) eqn:Hk; cbn [get]; rewrite Hk;
      [reflexivity|exact IH].
Qed.

Lemma get_set_other {V : Type} (key k : string) (v : V)
    (d : list (string * V)) :
  key <> k -> get k (set key v d) = get k d.
Proof.
  intros Hne. induction d as [|[k' v'] d IH]; cbn [set get].
  - apply String.eqb_neq in Hne. now rewrite Hne.
  - destruct (String.eqb k' key) eqn:Hk; cbn [get]; [|now rewrite IH].
    apply String.eqb_eq in Hk. subst k'.
    apply String.eqb_neq in Hne. now rewrite Hne.
Qed.

Lemma has_key_set {V : Type} (key k : string) (v : V)
    (d : list (string * V)) :
  has_key k (set key v d) = String.eqb key k || has_key k d.
Proof.
  rewrite !has_key_get. destruct (String.eqb key k) eqn:Hk.
  - apply String.eqb_eq in Hk. subst k. now rewrite get_set_same.
  - apply String.eqb_neq in Hk. now rewrite (get_set_other key k v d Hk).
Qed.

(** What the loop has done when it ends without raising. *)
Lemma fill_keys_done (keys : list string) :
  forall cfg cfg' : config,
    fill_keys keys cfg = inl cfg' ->
    (forall k, In k keys -> has_key k cfg' = true)
    /\ (forall k v, get k cfg = Some v -> get k cfg' = Some v)
    /\ (forall k, has_key k cfg' = true ->
                  has_key k cfg = true
                  \/ (In k keys
                      /\ exists d, get k DEFAULT_MAP = Some d
                                   /\ get k cfg' = Some (PyStr d))).
Proof.
  induction keys as [|key rest IH]; intros cfg cfg'; cbn [fill_keys].
  - intros [= <-]. repeat split; [intros k []|auto..].
  - destruct (has_key key cfg) eqn:Hkey; cbn [negb].
    + intros Hfill. destruct (IH cfg cfg' Hfill) as (Ha & Hb & Hc).
      repeat split.
      * intros k [<-|Hk]; [|now apply Ha].
        rewrite has_key_get in Hkey. rewrite has_key_get.
        destruct (get key cfg) as [v|] eqn:Hv; [|discriminate].
        now rewrite (Hb key v Hv).
      * exact Hb.
      * intros k Hk. destruct (Hc k Hk) as [H|(Hin & H)]; [now left|].
        right. split; [now right|exact H].
    + destruct (has_key key DEFAULT_MAP); [|discriminate].
      destruct (get key DEFAULT_MAP) as [d|] eqn:Hd; [|discriminate].
      intros Hfill.
      destruct (IH (set key (PyStr d) cfg) cfg' Hfill) as (Ha & Hb & Hc).
      assert (Hnew : get key cfg' = Some (PyStr d))
        by (apply Hb, get_set_same).
      repeat split.
      * intros k [<-|Hk]; [|now apply Ha].
        rewrite has_key_get. now rewrite Hnew.
      * intros k v Hv. apply Hb.
        rewrite get_set_other; [exact Hv|].
        intros <-. rewrite has_key_get, Hv in Hkey. discriminate Hkey.
      * intros k Hk. destruct (Hc k Hk) as [H|(Hin & H)].
        -- rewrite has_key_set in H. apply orb_prop in H.
           destruct H as [H|H]; [|now left].
           apply String.eqb_eq in H. subst k.
           right. split; [now left|]. eauto.
        -- right. split; [now right|exact H].
Qed.

(** What the loop has met when it raises. *)
Lemma fill_keys_raised (keys : list string) :
  forall (cfg : config) (e : raised),
    fill_keys keys cfg = inr e ->
    exists k,
      e = PlatformDeploymentException ("Missing key: " ++ k)
      /\ In k keys
      /\ has_key k cfg = false
      /\ has_key k DEFAULT_MAP = false.
Proof.
  induction keys as [|key rest IH]; intros cfg e; cbn [fill_keys];
    [discriminate|].
  destruct (has_key key cfg) eqn:Hkey; cbn [negb].
  - intros Hfill. destruct (IH cfg e Hfill) as (k & He & Hin & Hk & Hd).
    exists k. repeat split; auto. now right.
  - destruct (has_key key DEFAULT_MAP) eqn:Hdef.
    + rewrite has_key_get in Hdef.
      destruct (get key DEFAULT_MAP) as [d|]; [|discriminate].
      intros Hfill.
      destruct (IH (set key (PyStr d) cfg) e Hfill)
        as (k & He & Hin & Hk & Hd).
      exists k. repeat split; auto; [now right|].
      rewrite has_key_set in Hk. now apply orb_false_elim in Hk.
    + intros [= <-]. exists key. repeat split; auto. now left.
Qed.

Lemma fill_keys_present (keys : list string) (cfg : config) :
  (forall k, In k keys -> has_key k cfg = true) ->
  fill_keys keys cfg = inl cfg.
Proof.
  induction keys as [|key rest IH]; intros Hall; cbn [fill_keys];
    [reflexivity|].
  rewrite (Hall key (or_introl eq_refl)). cbn [negb].
  apply IH. intros k Hk. apply Hall. now right.
Qed.

Lemma check_keys_of_cases (cfg : config) (keys : list string) :
  check_keys_of cfg = inl keys ->
  exists mode,
    get "mode" cfg = Some (PyStr mode)
    /\ (keys = NEEDED_CONFIG_KEYS ++ NEEDED_SIMPLE_KEYS
        \/ keys = NEEDED_CONFIG_KEYS ++ NEEDED_MULTI_KEYS).
Proof.
  unfold check_keys_of.
  destruct (get "mode" cfg) as [[|b|n|mode|l|l|items|x|f|re im|bs|l|]|];
    try discriminate.
  intros H. exists mode. split; [reflexivity|].
  destruct (PyString.mem mode _); [left; congruence|].
  destruct (prefix "multi" mode); right; congruence.
Qed.

Lemma load_config_checks_done (cfg cfg' : config) :
  load_config_checks cfg = inl cfg' ->
  exists keys,
    check_keys_of cfg = inl keys /\ fill_keys keys cfg = inl cfg'.
Proof.
  unfold load_config_checks.
  destruct (check_keys_of cfg) as [keys|e]; [|discriminate]. eauto.
Qed.

(** When the checks of [_load_config] pass, the config holds every key
    of [NEEDED_CONFIG_KEYS], every entry of the file is still there with
    its value, and whatever was added is a key of [NEEDED_CONFIG_KEYS] with
    its value from [DEFAULT_MAP]. *)
Theorem load_config_fills_gaps_only (cfg cfg' : config) :
  load_config_checks cfg = inl cfg' ->
  (forall k, In k NEEDED_CONFIG_KEYS -> has_key k cfg' = true)
  /\ (forall k v, get k cfg = Some v -> get k cfg' = Some v)
  /\ (forall k, has_key k cfg' = true -> has_key k cfg = false ->
                In k NEEDED_CONFIG_KEYS
                /\ exists d, get k DEFAULT_MAP = Some d
                             /\ get k cfg' = Some (PyStr d)).
Proof.
  intros Hload.
  destruct (load_config_checks_done cfg cfg' Hload) as (keys & Hkeys & Hfill).
  destruct (check_keys_of_cases cfg keys Hkeys) as (mode & _ & Hcases).
  destruct (fill_keys_done keys cfg cfg' Hfill) as (Ha & Hb & Hc).
  repeat split.
  - intros k Hk. apply Ha. destruct Hcases as [-> | ->]; apply in_or_app;
      now left.
  - exact Hb.
  - destruct (Hc k H) as [Hold|(Hin & d & Hd & Hget)]; [congruence|].
    destruct Hcases as [-> | ->]; apply in_app_or in Hin;
      (destruct Hin as [Hin|Hin]; [exact Hin|]);
      cbn in Hin; repeat (destruct Hin as [<-|Hin]; [discriminate Hd|]);
      destruct Hin.
  - destruct (Hc k H) as [Hold|(Hin & d & Hd & Hget)]; [congruence|eauto].
Qed.

(** [DEFAULT_MAP] has a value for [poller_cron], but no list of needed
    keys names it: a config that comes without [poller_cron] leaves the
    checks without it. *)
Theorem poller_cron_never_defaulted (cfg cfg' : config) :
  load_config_checks cfg = inl cfg' ->
  has_key "poller_cron" cfg' = has_key "poller_cron" cfg.
Proof.
  intros Hload.
  destruct (load_config_checks_done cfg cfg' Hload) as (keys & Hkeys & Hfill).
  destruct (check_keys_of_cases cfg keys Hkeys) as (mode & _ & Hcases).
  destruct (fill_keys_done keys cfg cfg' Hfill) as (_ & Hb & Hc).
  destruct (has_key "poller_cron" cfg) eqn:Hold.
  - rewrite has_key_get in Hold. rewrite has_key_get.
    destruct (get "poller_cron" cfg) as [v|] eqn:Hv; [|discriminate].
    now rewrite (Hb _ _ Hv).
  - destruct (has_key "poller_cron" cfg') eqn:Hnew; [|reflexivity].
    destruct (Hc _ Hnew) as [H|(Hin & _)]; [congruence|].
    destruct Hcases as [-> | ->]; cbn in Hin;
      repeat (destruct Hin as [Hin|Hin]; [discriminate Hin|]); destruct Hin.
Qed.

(** The ways the checks can fail on a JSON object. *)
Lemma load_config_object_failures (cfg : config) (e : raised) :
  load_config_checks cfg = inr e ->
  (get "mode" cfg = None /\ e = Builtin KeyError "'mode'")
  \/ (exists v msg,
        get "mode" cfg = Some v
        /\ (forall mode, v <> PyStr mode)
        /\ e = Builtin AttributeError msg)
  \/ (exists k,
        e = PlatformDeploymentException ("Missing key: " ++ k)
        /\ has_key k cfg = false
        /\ In k ["subdomain"; "sa_path"; "private_key"; "fixtures_path";
                 "ga_id"; "builds"; "jenkins_user"; "jenkins_api_key";
                 "images"]%string).
Proof.
  unfold load_config_checks.
  destruct (check_keys_of cfg) as [keys|e0] eqn:Hkeys.
  - intros Hfill. right. right.
    destruct (check_keys_of_cases cfg keys Hkeys) as (mode & Hmode & Hcases).
    destruct (fill_keys_raised keys cfg e Hfill) as (k & He & Hin & Hk & Hd).
    exists k. repeat split; [exact He|exact Hk|].
    assert (Hnot : k <> "mode"%string).
    { intros ->. rewrite has_key_get, Hmode in Hk. discriminate Hk. }
    destruct Hcases as [-> | ->]; cbn in Hin |- *;
      repeat (destruct Hin as [<-|Hin];
              [first [discriminate Hd | now elim Hnot | tauto]|]);
      destruct Hin.
  - intros [= <-]. unfold check_keys_of in Hkeys.
    destruct (get "mode" cfg) as [v|] eqn:Hmode.
    + right. left.
      destruct v as [|b|n|mode|l|l|items|x|f|re im|bs|l|];
        try (injection Hkeys as <-; eexists; eexists;
             split; [reflexivity|split; [discriminate|reflexivity]]).
      destruct (PyString.mem mode _); [discriminate|].
      destruct (prefix "multi" mode); discriminate.
    + left. injection Hkeys as <-. now split.
Qed.

(** The ways the checks can fail, whatever JSON document the file
    holds.  A document that is no object makes the lookup of the mode
    raise [TypeError]; an object without [mode] makes it raise [KeyError];
    a mode that is not a string raises [AttributeError]; otherwise the
    exception is [Missing key: k] for a key [k] that the file lacks and
    that has no default.  [Missing key: mode] is never raised. *)
Theorem load_config_document_failures (doc : json_document) (e : raised) :
  load_config_document doc = inr e ->
  ((forall cfg, doc <> JObject cfg)
   /\ exists msg, e = Builtin TypeError msg)
  \/ (exists cfg,
        doc = JObject cfg
        /\ ((get "mode" cfg = None /\ e = Builtin KeyError "'mode'")
            \/ (exists v msg,
                  get "mode" cfg = Some v
                  /\ (forall mode, v <> PyStr mode)
                  /\ e = Builtin AttributeError msg)
            \/ (exists k,
                  e = PlatformDeploymentException ("Missing key: " ++ k)
                  /\ has_key k cfg = false
                  /\ In k ["subdomain"; "sa_path"; "private_key";
                           "fixtures_path"; "ga_id"; "builds";
                           "jenkins_user"; "jenkins_api_key";
                           "images"]%string))).
Proof.
  destruct doc as [cfg|l|s|n|f|b|]; cbn [load_config_document];
    try (intros [= <-]; left; split; [discriminate|eauto]).
  intros He. right. exists cfg. split; [reflexivity|].
  now apply load_config_object_failures.
Qed.

(** The checks are idempotent: a config that passed them passes them
    again and comes back unchanged. *)
Theorem load_config_checks_idempotent (cfg cfg' : config) :
  load_config_checks cfg = inl cfg' ->
  load_config_checks cfg' = inl cfg'.
Proof.
  intros Hload.
  destruct (load_config_checks_done cfg cfg' Hload) as (keys & Hkeys & Hfill).
  destruct (check_keys_of_cases cfg keys Hkeys) as (mode & Hmode & _).
  destruct (fill_keys_done keys cfg cfg' Hfill) as (Ha & Hb & _).
  assert (Hkeys' : check_keys_of cfg' = inl keys).
  { unfold check_keys_of in Hkeys |- *.
    rewrite Hmode in Hkeys. now rewrite (Hb _ _ Hmode). }
  unfold load_config_checks. rewrite Hkeys'.
  now apply fill_keys_present.
Qed.

Section SecretFacts.

Variable randbelow : nat -> nat -> nat.
Hypothesis randbelow_below : forall i n, 0 < n -> randbelow i n < n.

Lemma get_contains (n : nat) (s : string) (c : ascii) :
  String.get n s = Some c -> PyString.contains_char c s = true.
Proof.
  revert n. induction s as [|x s IH]; intros n; [discriminate|].
  destruct n as [|n]; cbn [String.get PyString.contains_char].
  - intros [= ->]. now rewrite Ascii.eqb_refl.
  - intros H. rewrite (IH n H). apply orb_true_r.
Qed.

Lemma get_below (n : nat) (s : string) :
  n < String.length s -> exists c, String.get n s = Some c.
Proof.
  revert n. induction s as [|x s IH]; intros n; cbn [String.length];
    [lia|].
  destruct n as [|n]; cbn [String.get]; [eauto|].
  intros H. apply IH. lia.
Qed.

Lemma string_length_app (a b : string) :
  String.length (a ++ b)%string = String.length a + String.length b.
Proof. induction a as [|x a IH]; cbn; [reflexivity|now rewrite IH]. Qed.

Lemma join_choices_shape (choices : string) (first count : nat) :
  0 < String.length choices ->
  String.length (join_choices randbelow choices first count) = count
  /\ over choices (join_choices randbelow choices first count) = true.
Proof.
  intros Hchoices. revert first.
  induction count as [|count IH]; intros first; cbn [join_choices];
    [now split|].
  destruct (IH (S first)) as [Hlen Hover].
  unfold choice.
  destruct (get_below (randbelow first (String.length choices)) choices
              (randbelow_below first _ Hchoices)) as [c Hc].
  rewrite Hc. cbn [append String.length over].
  rewrite Hlen, Hover, (get_contains _ _ _ Hc). now split.
Qed.

(** The generated secrets have the length asked for and stay within
    their alphabet: letters and digits for [_create_secret_key], lower-case
    letters and digits for [_create_lower_secret_key]. *)
Theorem secret_keys_shape (first count first' count' : nat) :
  (String.length (_create_secret_key randbelow first count) = count
   /\ over (ascii_letters ++ digits)
        (_create_secret_key randbelow first count) = true)
  /\ (String.length (_create_lower_secret_key randbelow first' count') = count'
      /\ over (ascii_lowercase ++ digits)
           (_create_lower_secret_key randbelow first' count') = true).
Proof.
  split; apply join_choices_shape; cbn; lia.
Qed.

End SecretFacts.

End DeployFacts.

Lemma load_config_fills_gaps_only_witness :
  (forall k, In k deploy.NEEDED_CONFIG_KEYS ->
             deploy.has_key k
               (Fixtures.simple_config
                  ++ [ ("training_cron", PyStr "0 4 * * 0");
                       ("poller_host", PyStr "Not Specified");
                       ("poller_password", PyStr "Not Specified");
                       ("poller_user", PyStr "Not Specified");
                       ("poller_port", PyStr "Not Specified");
                       ("database_name", PyStr "pluto") ])%list = true)
  /\ deploy.get "region"
       (Fixtures.simple_config
          ++ [ ("training_cron", PyStr "0 4 * * 0");
               ("poller_host", PyStr "Not Specified");
               ("poller_password", PyStr "Not Specified");
               ("poller_user", PyStr "Not Specified");
               ("poller_port", PyStr "Not Specified");
               ("database_name", PyStr "pluto") ])%list
     = Some (PyStr "us-east1").
Proof.
  destruct (load_config_fills_gaps_only Fixtures.simple_config
              (Fixtures.simple_config
                 ++ [ ("training_cron", PyStr "0 4 * * 0");
                      ("poller_host", PyStr "Not Specified");
                      ("poller_password", PyStr "Not Specified");
                      ("poller_user", PyStr "Not Specified");
                      ("poller_port", PyStr "Not Specified");
                      ("database_name", PyStr "pluto") ])%list
              eq_refl) as (Hall & Hkept & _).
  split; [exact Hall|].
  apply Hkept. reflexivity.
Defined.

Lemma poller_cron_never_defaulted_witness :
  deploy.has_key "poller_cron"
    (Fixtures.simple_config
       ++ [ ("training_cron", PyStr "0 4 * * 0");
            ("poller_host", PyStr "Not Specified");
            ("poller_password", PyStr "Not Specified");
            ("poller_user", PyStr "Not Specified");
            ("poller_port", PyStr "Not Specified");
            ("database_name", PyStr "pluto") ])%list
  = deploy.has_key "poller_cron" Fixtures.simple_config.
Proof.
  apply (poller_cron_never_defaulted Fixtures.simple_config).
  reflexivity.
Defined.

Lemma load_config_document_failures_witness :
  ((forall cfg, deploy.JArray [PyStr "simple"] <> deploy.JObject cfg)
   /\ exists msg,
        deploy.Builtin TypeError
          "list indices must be integers or slices, not str"
        = deploy.Builtin TypeError msg)
  \/ (exists cfg,
        deploy.JArray [PyStr "simple"] = deploy.JObject cfg
        /\ ((deploy.get "mode" cfg = None
             /\ deploy.Builtin TypeError
                  "list indices must be integers or slices, not str"
                = deploy.Builtin KeyError "'mode'")
            \/ (exists v msg,
                  deploy.get "mode" cfg = Some v
                  /\ (forall mode, v <> PyStr mode)
                  /\ deploy.Builtin TypeError
                       "list indices must be integers or slices, not str"
                     = deploy.Builtin AttributeError msg)
            \/ (exists k,
                  deploy.Builtin TypeError
                    "list indices must be integers or slices, not str"
                  = deploy.PlatformDeploymentException ("Missing key: " ++ k)
                  /\ deploy.has_key k cfg = false
                  /\ In k ["subdomain"; "sa_path"; "private_key";
                           "fixtures_path"; "ga_id"; "builds";
                           "jenkins_user"; "jenkins_api_key"; "images"]))).
Proof.
  apply (load_config_document_failures (deploy.JArray [PyStr "simple"])).
  reflexivity.
Defined.

Lemma load_config_checks_idempotent_witness :
  deploy.load_config_checks
    (Fixtures.simple_config
       ++ [ ("training_cron", PyStr "0 4 * * 0");
            ("poller_host", PyStr "Not Specified");
            ("poller_password", PyStr "Not Specified");
            ("poller_user", PyStr "Not Specified");
            ("poller_port", PyStr "Not Specified");
            ("database_name", PyStr "pluto") ])%list
  = inl (Fixtures.simple_config
           ++ [ ("training_cron", PyStr "0 4 * * 0");
                ("poller_host", PyStr "Not Specified");
                ("poller_password", PyStr "Not Specified");
                ("poller_user", PyStr "Not Specified");
                ("poller_port", PyStr "Not Specified");
                ("database_name", PyStr "pluto") ])%list.
Proof.
  apply (load_config_checks_idempotent Fixtures.simple_config).
  reflexivity.
Defined.

Lemma secret_keys_shape_witness :
  (String.length (deploy._create_secret_key Fixtures.stepping 0 50) = 50
   /\ Notions.over (deploy.ascii_letters ++ deploy.digits)
        (deploy._create_secret_key Fixtures.stepping 0 50) = true)
  /\ (String.length (deploy._create_lower_secret_key Fixtures.stepping 0 8) = 8
      /\ Notions.over (deploy.ascii_lowercase ++ deploy.digits)
           (deploy._create_lower_secret_key Fixtures.stepping 0 8) = true).
Proof.
  apply (secret_keys_shape Fixtures.stepping).
  intros i n Hn. unfold Fixtures.stepping. apply Nat.mod_upper_bound. lia.
Defined.

(** The column list of the statement follows the spec: one [name type]
    text per column, in the order the columns were declared. *)
Theorem render_columns_in_order (cols : list cassandra_table.column)
    (rendered : list string) :
  cassandra_table.render_columns cols = inl rendered ->
  Forall2
    (fun col text =>
       exists n t,
         cassandra_table.dict_get "name" col = Some n
         /\ cassandra_table.dict_get "type" col = Some t
         /\ text = n ++ " " ++ t)
    cols rendered.
Proof.
  revert rendered.
  induction cols as [|col cols IH]; intros rendered;
    cbn [cassandra_table.render_columns].
  - intros [= <-]. constructor.
  - destruct (cassandra_table.dict_get "name" col) as [n|] eqn:Hn;
      [|discriminate].
    destruct (cassandra_table.dict_get "type" col) as [t|] eqn:Ht;
      [|discriminate].
    destruct (cassandra_table.render_columns cols) as [done|];
      [|discriminate].
    intros [= <-]. constructor; [|now apply IH].
    exists n, t. now repeat split.
Qed.

Lemma render_columns_in_order_witness :
  Forall2
    (fun col text =>
       exists n t,
         cassandra_table.dict_get "name" col = Some n
         /\ cassandra_table.dict_get "type" col = Some t
         /\ text = n ++ " " ++ t)
    (cassandra_table.columns Fixtures.events_spec)
    ["datastream text"; "time timestamp"; "value float"].
Proof.
  apply (render_columns_in_order
           (cassandra_table.columns Fixtures.events_spec)).
  reflexivity.
Defined.

(* ================================================================== *)
(** * The replication factor of a description *)
(* ================================================================== *)

Section ReplicationFactor.

Import cassandra_keyspace Notions PyString.
Local Open Scope list_scope.

Lemma key_is_iff (key : string) (k : pyval) :
  key_is key k = true <-> k = PyStr key.
Proof.
  destruct k; cbn [key_is]; try (split; [discriminate|intros [=]]).
  rewrite String.eqb_eq. split; [now intros ->|now intros [= ->]].
Qed.

(** The lookup of the model finds what the mapping binds the key to. *)
Lemma dict_get_binds (key : string) (items : list (pyval * pyval))
    (v : pyval) :
  dict_get key items = Some v <-> binds items key v.
Proof.
  induction items as [|[k x] items IH]; cbn [dict_get].
  - split; [discriminate|].
    intros (before & after & H & _). now destruct before.
  - destruct (key_is key k) eqn:Hk.
    + apply key_is_iff in Hk. subst k. split.
      * intros [= ->]. exists [], items. split; [reflexivity|constructor].
      * intros (before & after & H & Hbefore).
        destruct before as [|kv before]; cbn [app] in H.
        -- now injection H as ->.
        -- injection H as <- _. inversion Hbefore as [|? ? Hkv _].
           now elim Hkv.
    + assert (Hne : k <> PyStr key).
      { intros H. apply key_is_iff in H. congruence. }
      rewrite IH. split.
      * intros (before & after & -> & Hbefore).
        exists ((k, x) :: before), after. split; [reflexivity|].
        constructor; assumption.
      * intros (before & after & H & Hbefore).
        destruct before as [|kv before]; cbn [app] in H.
        -- injection H as -> _. now elim Hne.
        -- injection H as _ ->. inversion Hbefore.
           exists before, after. now split.
Qed.

Lemma dict_get_unbound (key : string) (items : list (pyval * pyval)) :
  dict_get key items = None <-> unbound items key.
Proof.
  unfold unbound. induction items as [|[k x] items IH]; cbn [dict_get].
  - split; [constructor|reflexivity].
  - destruct (key_is key k) eqn:Hk.
    + apply key_is_iff in Hk. subst k. split; [discriminate|].
      intros H. inversion H as [|? ? Hkv _]. now elim Hkv.
    + rewrite IH. split.
      * intros H. constructor; [|exact H].
        cbn [fst]. intros Heq. apply key_is_iff in Heq. congruence.
      * intros H. now inversion H.
Qed.

Lemma int_of_float_cut_off (negative : bool) (m : positive) (e : Z) :
  int_of_float (S754_finite negative m e) = Some (cut_off negative m e).
Proof.
  unfold int_of_float, cut_off. f_equal.
  destruct (0 <=? e)%Z eqn:He.
  - apply Z.leb_le in He. now rewrite Z.shiftl_mul_pow2.
  - apply Z.leb_gt in He. rewrite Z.shiftl_div_pow2 by lia. reflexivity.
Qed.

(** [int()] of the model returns the integer value. *)
Lemma py_int_value (v : pyval) (n : Z) : int_value v n -> py_int v = inl n.
Proof.
  intros [n0|b|left_pad right_pad n0 Hl Hr|negative|negative m e];
    cbn [py_int]; try reflexivity.
  - now rewrite (int_of_str_padded n0 _ _ Hl Hr).
  - now rewrite int_of_float_cut_off.
Qed.

(** C8, as amended: the parser reads the first brace group that closes on
    its line.  It returns [n] exactly when that group, put back between
    braces, evaluates to a mapping that binds [replication_factor] to a
    value that [int()] converts to [n]; the value [n] is the integer value
    of what the key is bound to (of an integer, a boolean, a decimal text,
    a finite float).  Without such a group the parser raises
    [AttributeError]; when the mapping has no entry for the key it raises
    [KeyError]; no value is returned in either case. *)
Theorem parse_replication_factor_first_line_group
    (literal_eval : string -> evaluated pyval) (out : string) :
  (forall n,
     parse_replication_factor literal_eval out = inl n <->
     exists g items v,
       first_brace_group out g
       /\ literal_eval ("{" ++ g ++ "}")%string = inl (PyDict items)
       /\ binds items "replication_factor" v
       /\ py_int v = inl n)
  /\ (forall g items v n,
        first_brace_group out g ->
        literal_eval ("{" ++ g ++ "}")%string = inl (PyDict items) ->
        binds items "replication_factor" v ->
        int_value v n ->
        parse_replication_factor literal_eval out = inl n)
  /\ (no_brace_group out ->
      exists msg,
        parse_replication_factor literal_eval out = inr (AttributeError, msg))
  /\ (forall g items,
        first_brace_group out g ->
        literal_eval ("{" ++ g ++ "}")%string = inl (PyDict items) ->
        unbound items "replication_factor" ->
        exists msg,
          parse_replication_factor literal_eval out = inr (KeyError, msg)).
Proof.
  destruct (parse_replication_factor_cases literal_eval out)
    as (Hiff & Hnone & Hkey).
  split; [|split; [|split]].
  - intros n. rewrite (Hiff n). split.
    + intros (g & items & v & Hg & He & Hv & Hn).
      exists g, items, v. repeat split; try assumption.
      now apply dict_get_binds.
    + intros (g & items & v & Hg & He & Hv & Hn).
      exists g, items, v. repeat split; try assumption.
      now apply dict_get_binds.
  - intros g items v n Hg He Hv Hn. apply Hiff.
    exists g, items, v. repeat split; try assumption.
    + now apply dict_get_binds.
    + now apply py_int_value.
  - exact Hnone.
  - intros g items Hg He Hv. apply (Hkey g items Hg He).
    now apply dict_get_unbound.
Qed.

End ReplicationFactor.

Lemma parse_replication_factor_first_line_group_witness :
  cassandra_keyspace.parse_replication_factor Fixtures.flat_literal_eval
    (Fixtures.describe_pluto 3)
  = inl 3%Z.
Proof.
  apply (proj1 (proj2 (parse_replication_factor_first_line_group
                         Fixtures.flat_literal_eval
                         (Fixtures.describe_pluto 3)))
           "'class': 'SimpleStrategy', 'replication_factor': '3'"
           [(PyStr "class", PyStr "SimpleStrategy");
            (PyStr "replication_factor", PyStr "3")]
           (PyStr "3") 3%Z).
  - apply re_search_sound. reflexivity.
  - reflexivity.
  - exists [(PyStr "class", PyStr "SimpleStrategy")], [].
    split; [reflexivity|]. constructor; [discriminate|constructor].
  - exact (Notions.int_value_text "" "" 3 eq_refl eq_refl).
Defined.

(** C8 as the specification words it does not hold on a description whose
    first brace group runs over a line end, because the regular expression
    does not match across the line end.  In [broken_line_text] the first
    opening brace and the closing brace after it enclose a mapping with
    [replication_factor], whose integer value the parser should return; it
    raises [AttributeError], whatever the evaluator.  In [spanning_text]
    they enclose a line feed and nothing else, so that group has no
    [replication_factor] and the parser should fail; it returns the 2 of
    the second group. *)
Lemma parse_reads_past_a_group_spanning_lines :
  (Notions.first_brace_substring Fixtures.broken_line_text
   = Some ("'class': 'SimpleStrategy'," ++ Fixtures.nl
             ++ " 'replication_factor': '2'")%string
   /\ forall literal_eval,
        cassandra_keyspace.parse_replication_factor literal_eval
          Fixtures.broken_line_text
        = inr (AttributeError, "'NoneType' object has no attribute 'group'"))
  /\ (Notions.first_brace_substring Fixtures.spanning_text = Some Fixtures.nl
      /\ cassandra_keyspace.re_search Fixtures.spanning_text
         = Some "'class': 'SimpleStrategy', 'replication_factor': '2'"
      /\ cassandra_keyspace.parse_replication_factor
           Fixtures.flat_literal_eval Fixtures.spanning_text
         = inl 2%Z).
Proof. repeat split. Qed.
